(** * uSDHC SD / eMMC card bring-up (imx6/usdhc/sd.go, imx6/usdhc/mmc.go)

    A shallow embedding of the card identification and initialisation
    code of the NXP uSDHC driver, with the properties of it that the
    specification states.

    The driver is orchestration over the host controller.  The primitives
    [hw.cmd], [hw.rsp], [hw.rspVal], [hw.transfer], [hw.setClock] and
    [hw.waitState] belong to usdhc.go; here they are the operations of an
    abstract [Controller], and every theorem holds for every controller.
    The [Sim] controller replays scripted replies and is used to run the
    driver on concrete cards. *)

From Stdlib Require Import ZArith List Bool Lia.
From Stdlib Require Import Strings.Byte.
Import ListNotations.
Open Scope Z_scope.

(** ** Go integers *)

(** [int] is 32 bits wide on GOARCH=arm (the only target of the package,
    see arm/arm.go) and 64 bits wide on the hosts where tests run.  The
    embedding keeps the width as a parameter. *)
Inductive GoArch : Type := Arch32 | Arch64.

Definition int_bits (a : GoArch) : Z :=
  match a with Arch32 => 32 | Arch64 => 64 end.

(** uint32 wrap-around. *)
Definition u32 (z : Z) : Z := z mod 2 ^ 32.

(** Conversion to [int]: two's complement wrap-around at [int_bits]. *)
Definition to_int (a : GoArch) (z : Z) : Z :=
  let m := 2 ^ int_bits a in
  let r := z mod m in
  if r <? m / 2 then r else r - m.

(** [x << s] on uint32 with an unsigned count: counts of 32 or more give 0. *)
Definition shl_u32 (x s : Z) : Z :=
  if 32 <=? s then 0 else u32 (Z.shiftl x s).

(** [x << s] on int with an unsigned count. *)
Definition shl_int (a : GoArch) (x s : Z) : Z :=
  if int_bits a <=? s then 0 else to_int a (Z.shiftl x s).

(** ** Package bits *)

Module bits.

(** Modelled from the spec: bits.Get of package bits (bits/bits.go), after
    section 4.1: [get_field(word, bit_offset, mask)] reads and right-shifts
    the bits under the mask window. *)
Definition Get (word pos mask : Z) : Z :=
  Z.land (Z.shiftr word pos) mask.

(** Modelled from the spec: bits.Set of package bits, the one-bit case of
    [set_field]: it sets bit [pos] of a 32-bit word. *)
Definition Set1 (word pos : Z) : Z :=
  u32 (Z.lor word (Z.shiftl 1 pos)).

(** Modelled from the spec: bits.SetN of package bits, after section 4.1:
    [set_field(word, bit_offset, mask, value)] writes [value & mask]
    left-shifted by [bit_offset] into [word], clearing the bits under the
    mask window first. *)
Definition SetN (word pos mask val : Z) : Z :=
  u32 (Z.lor (Z.ldiff word (Z.shiftl mask pos))
             (Z.shiftl (Z.land val mask) pos)).

End bits.

(** ** Constants of sd.go and mmc.go *)

Definition CMD8_ARG_VHS : Z := 8.
Definition CMD8_ARG_CHECK_PATTERN : Z := 0.
Definition VHS_HIGH : Z := 1.
Definition VHS_LOW : Z := 2.
Definition CHECK_PATTERN : Z := 170.

Definition SD_OCR_BUSY : Z := 31.
Definition SD_OCR_HCS : Z := 30.
Definition SD_OCR_XPC : Z := 28.
Definition SD_OCR_S18R : Z := 24.
Definition SD_OCR_VDD_HV_MAX : Z := 23.
Definition SD_OCR_VDD_HV_MIN : Z := 15.
Definition SD_OCR_VDD_LV : Z := 7.

Definition SD_SWITCH_MODE : Z := 0.
Definition SD_SWITCH_ACCESS_MODE : Z := 0.
Definition MODE_CHECK : Z := 0.
Definition MODE_SWITCH : Z := 1.
Definition ACCESS_MODE_HS : Z := 1.

(** One second and one millisecond, in nanoseconds (time.Duration). *)
Definition Millisecond : Z := 1000000.
Definition Second : Z := 1000 * Millisecond.
Definition SD_DETECT_TIMEOUT : Z := 1 * Second.
Definition SD_DEFAULT_BLOCK_SIZE : Z := 512.

Definition MMC_OCR_BUSY : Z := 31.
Definition MMC_OCR_ACCESS_MODE : Z := 29.
Definition MMC_OCR_VDD_HV_MAX : Z := 23.
Definition MMC_OCR_VDD_HV_MIN : Z := 15.
Definition MMC_OCR_VDD_LV : Z := 7.
Definition ACCESS_MODE_BYTE : Z := 0.
Definition ACCESS_MODE_SECTOR : Z := 2.

Definition MMC_SWITCH_ACCESS : Z := 24.
Definition MMC_SWITCH_INDEX : Z := 16.
Definition MMC_SWITCH_VALUE : Z := 8.
Definition MMC_SWITCH_CMD_SET : Z := 0.
Definition ACCESS_WRITE_BYTE : Z := 3.

Definition TRAN_SPEED_26MHZ : Z := 50.

Definition EXT_CSD_BUS_WIDTH : Z := 183.
Definition EXT_CSD_HS_TIMING : Z := 185.
Definition EXT_CSD_SEC_COUNT : Z := 212.

Definition HS_TIMING_HS : Z := 1.
Definition HS_TIMING_HS200 : Z := 2.

Definition MMC_DETECT_TIMEOUT : Z := 1 * Second.
Definition MMC_DEFAULT_BLOCK_SIZE : Z := 512.

(** ** The host controller *)

(** The primitives of usdhc.go the driver is written against, with the
    constants it takes from that file.  [World] is the state of the
    controller, of the card behind it and of the clock.  The four laws are
    what the driver may rely on: the result types of [rsp] and [rspVal]
    (uint32, and a field cut by its mask, section 6 of the specification),
    a slice keeping its length, and the monotonic clock of package time. *)
Class Controller : Type := {
  World : Type;
  HwErr : Type;

  (** hw.cmd(index, dtd, arg, res, cic, ccc, dma, timeout) *)
  hw_cmd : Z -> Z -> Z -> Z -> bool -> bool -> bool -> Z ->
           World -> option HwErr * World;
  (** hw.rsp(i): one 32-bit word of the latched response *)
  hw_rsp : Z -> World -> Z;
  (** hw.rspVal(pos, mask): a bit-field of the latched response *)
  hw_rspVal : Z -> Z -> World -> Z;
  (** hw.transfer(index, dtd, offset, blocks, blockSize, buf): the buffer
      is returned with its new contents *)
  hw_transfer : Z -> Z -> Z -> Z -> Z -> list byte ->
                World -> option HwErr * list byte * World;
  (** hw.setClock(dvs, sdclkfs) *)
  hw_setClock : Z -> Z -> World -> World;
  (** hw.waitState(state, timeout) *)
  hw_waitState : Z -> Z -> World -> option HwErr * World;
  (** time.Now(), in nanoseconds, and time.Sleep(d) *)
  hw_now : World -> Z;
  hw_sleep : Z -> World -> World;

  READ : Z;
  RSP_48 : Z;
  RSP_48_CHECK_BUSY : Z;
  RSP_136 : Z;
  CSD_RSP_OFF : Z;
  RCA_ADDR : Z;
  STATUS_CURRENT_STATE : Z;
  STATUS_APP_CMD : Z;
  CURRENT_STATE_IDENT : Z;
  CURRENT_STATE_TRAN : Z;
  DVS_OP : Z;
  SDCLKFS_OP : Z;
  DVS_HS : Z;
  SDCLKFS_HS_SDR : Z;
  SDCLKFS_HS_DDR : Z;

  (** [rsp] returns a uint32; [rspVal] returns a uint32 cut by [mask]. *)
  hw_rsp_u32 : forall i w, 0 <= hw_rsp i w < 2 ^ 32;
  hw_rspVal_masked : forall pos mask w,
      0 <= mask -> 0 <= hw_rspVal pos mask w <= mask;
  (** [transfer] fills the caller's slice: its length does not change. *)
  hw_transfer_length : forall i d o b bs buf w,
      length (snd (fst (hw_transfer i d o b bs buf w))) = length buf;
  (** time.Since reads the monotonic clock: no command takes it back. *)
  hw_cmd_monotone : forall i d a r cic ccc dma t w,
      hw_now w <= hw_now (snd (hw_cmd i d a r cic ccc dma t w))
}.

(** ** Driver state *)

(** The fields of the card descriptor that sd.go and mmc.go write. *)
Record CardInfo : Type := mkCard {
  BlockSize : Z;
  Blocks : Z;
  HS : bool;
  DDR : bool
}.

Definition set_BlockSize (c : CardInfo) (v : Z) : CardInfo :=
  mkCard v (Blocks c) (HS c) (DDR c).
Definition set_Blocks (c : CardInfo) (v : Z) : CardInfo :=
  mkCard (BlockSize c) v (HS c) (DDR c).
Definition set_HS (c : CardInfo) (v : bool) : CardInfo :=
  mkCard (BlockSize c) (Blocks c) v (DDR c).
Definition set_DDR (c : CardInfo) (v : bool) : CardInfo :=
  mkCard (BlockSize c) (Blocks c) (HS c) v.

(** Errors a bring-up call returns: the error of a failing primitive, or
    one of the messages built in sd.go and mmc.go. *)
Inductive error {HE : Type} : Type :=
| ErrHardware (e : HE)
| ErrUnsupportedCSD (ver : Z)       (* "unsupported CSD version %d" *)
| ErrNotIdent (state : Z)           (* "card not in ident state (%d)" *)
| ErrNoAppCmd                       (* "card not expecting application command" *)
| ErrSDWidth                        (* "unsupported SD bus width" *)
| ErrMMCWidth                       (* "unsupported MMC bus width" *)
| ErrTranSpeed (mhz : Z).           (* "unexpected TRAN_SPEED %#x" *)
Arguments error : clear implicits.

(** What the driver asked of the controller, in order, with the outcome. *)
Inductive Event {HE : Type} : Type :=
| ECmd (index dtd arg res : Z) (cic ccc dma : bool) (timeout : Z)
       (result : option HE)
| ETransfer (index dtd offset blocks blockSize : Z) (result : option HE)
| ESetClock (dvs sdclkfs : Z)
| EWaitState (state timeout : Z) (result : option HE).
Arguments Event : clear implicits.

(** How a call ends: it returns, it returns a non-nil error, it panics, or
    the model's loop budget ran out. *)
Inductive outcome {HE : Type} (A : Type) : Type :=
| Ret (a : A)
| Throw (e : error HE)
| Crash
| OutOfFuel.
Arguments outcome : clear implicits.
Arguments Ret {HE A} a.
Arguments Throw {HE A} e.
Arguments Crash {HE A}.
Arguments OutOfFuel {HE A}.

(** ** The driver *)

Section Driver.

Context {C : Controller}.
Variable arch : GoArch.

(** The receiver [hw *USDHC]: the fields sd.go and mmc.go use, and the
    controller behind them. *)
Record USDHC : Type := mkUSDHC {
  n : Z;
  width : Z;
  rca : Z;
  card : CardInfo;
  world : World
}.

Definition set_rca (hw : USDHC) (v : Z) : USDHC :=
  mkUSDHC (n hw) (width hw) v (card hw) (world hw).
Definition set_card (hw : USDHC) (c : CardInfo) : USDHC :=
  mkUSDHC (n hw) (width hw) (rca hw) c (world hw).
Definition set_world (hw : USDHC) (w : World) : USDHC :=
  mkUSDHC (n hw) (width hw) (rca hw) (card hw) w.

(** A method of [*USDHC]: from the receiver to how the call ends, the
    receiver afterwards, and what was asked of the controller. *)
Definition M (A : Type) : Type :=
  USDHC -> outcome HwErr A * USDHC * list (Event HwErr).

Definition ret {A} (a : A) : M A := fun hw => (Ret a, hw, []).
Definition throw {A} (e : error HwErr) : M A := fun hw => (Throw e, hw, []).
Definition panic {A} : M A := fun hw => (Crash, hw, []).
Definition out_of_fuel {A} : M A := fun hw => (OutOfFuel, hw, []).

Definition bind {A B} (m : M A) (f : A -> M B) : M B :=
  fun hw =>
    match m hw with
    | (Ret a, hw1, t1) =>
        match f a hw1 with (r, hw2, t2) => (r, hw2, t1 ++ t2) end
    | (Throw e, hw1, t1) => (Throw e, hw1, t1)
    | (Crash, hw1, t1) => (Crash, hw1, t1)
    | (OutOfFuel, hw1, t1) => (OutOfFuel, hw1, t1)
    end.

Notation "x <- m ;; k" := (bind m (fun x => k))
  (at level 61, m at next level, right associativity).
Notation "m ;;; k" := (bind m (fun _ => k))
  (at level 61, right associativity).

(** The three components of a run. *)
Definition result {A} (r : outcome HwErr A * USDHC * list (Event HwErr)) :=
  fst (fst r).
Definition final {A} (r : outcome HwErr A * USDHC * list (Event HwErr)) :=
  snd (fst r).
Definition events {A} (r : outcome HwErr A * USDHC * list (Event HwErr)) :=
  snd r.

(** *** Calls into usdhc.go *)

(** [hw.cmd(...)], handing the error value to the caller. *)
Definition call_cmd (index dtd arg res : Z) (cic ccc dma : bool)
    (timeout : Z) : M (option HwErr) :=
  fun hw =>
    let '(e, w) := hw_cmd index dtd arg res cic ccc dma timeout (world hw) in
    (Ret e, set_world hw w, [ECmd index dtd arg res cic ccc dma timeout e]).

(** [if err = f(...); err != nil { return }] *)
Definition check (m : M (option HwErr)) : M unit :=
  e <- m ;;
  match e with
  | None => ret tt
  | Some h => throw (ErrHardware h)
  end.

Definition cmd (index dtd arg res : Z) (cic ccc dma : bool) (timeout : Z)
    : M unit :=
  check (call_cmd index dtd arg res cic ccc dma timeout).

Definition rsp (i : Z) : M Z := fun hw => (Ret (hw_rsp i (world hw)), hw, []).

Definition rspVal (pos mask : Z) : M Z :=
  fun hw => (Ret (hw_rspVal pos mask (world hw)), hw, []).

Definition setClock (dvs sdclkfs : Z) : M unit :=
  fun hw => (Ret tt, set_world hw (hw_setClock dvs sdclkfs (world hw)),
             [ESetClock dvs sdclkfs]).

Definition call_waitState (state timeout : Z) : M (option HwErr) :=
  fun hw =>
    let '(e, w) := hw_waitState state timeout (world hw) in
    (Ret e, set_world hw w, [EWaitState state timeout e]).

Definition waitState (state timeout : Z) : M unit :=
  check (call_waitState state timeout).

Definition call_transfer (index dtd offset blocks blockSize : Z)
    (buf : list byte) : M (option HwErr * list byte) :=
  fun hw =>
    let '(e, buf', w) :=
      hw_transfer index dtd offset blocks blockSize buf (world hw) in
    (Ret (e, buf'), set_world hw w,
     [ETransfer index dtd offset blocks blockSize e]).

Definition now : M Z := fun hw => (Ret (hw_now (world hw)), hw, []).

Definition sleep (d : Z) : M unit :=
  fun hw => (Ret tt, set_world hw (hw_sleep d (world hw)), []).

Definition get_rca : M Z := fun hw => (Ret (rca hw), hw, []).
Definition get_width : M Z := fun hw => (Ret (width hw), hw, []).
Definition get_n : M Z := fun hw => (Ret (n hw), hw, []).
Definition put_rca (v : Z) : M unit := fun hw => (Ret tt, set_rca hw v, []).
Definition modify_card (f : CardInfo -> CardInfo) : M unit :=
  fun hw => (Ret tt, set_card hw (f (card hw)), []).

(** *** sd.go *)

Definition SD_CSD_STRUCTURE : Z := 126 + CSD_RSP_OFF.
Definition SD_CSD_C_SIZE_MULT_1 : Z := 47 + CSD_RSP_OFF.
Definition SD_CSD_C_SIZE_1 : Z := 62 + CSD_RSP_OFF.
Definition SD_CSD_READ_BL_LEN_1 : Z := 80 + CSD_RSP_OFF.
Definition SD_CSD_C_SIZE_2 : Z := 48 + CSD_RSP_OFF.
Definition SD_CSD_READ_BL_LEN_2 : Z := 80 + CSD_RSP_OFF.
Definition SD_CSD_C_SIZE_3 : Z := 48 + CSD_RSP_OFF.
Definition SD_CSD_READ_BL_LEN_3 : Z := 80 + CSD_RSP_OFF.

(** [hw.cmd(8, READ, arg, RSP_48, true, true, false, 0) == nil &&
    hw.rsp(0) == arg], the condition tested twice in the CMD8 probe. *)
Definition cmd8_echoes (arg : Z) : M bool :=
  e <- call_cmd 8 READ arg RSP_48 true true false 0 ;;
  match e with
  | None => r <- rsp 0 ;; ret (r =? arg)
  | Some _ => ret false
  end.

(** voltageValidationSD, lines 79-124: the CMD8 probe and the ACMD41
    argument; returns [(arg, hc)]. *)
Definition voltageValidationSD_probe : M (Z * bool) :=
  let arg := 0 in
  let arg := bits.SetN arg CMD8_ARG_VHS 15 VHS_HIGH in
  let arg := bits.SetN arg CMD8_ARG_CHECK_PATTERN 255 CHECK_PATTERN in
  hchv <- (ok <- cmd8_echoes arg ;;
           if ok then ret (true, true)
           else
             let arg := Z.lor (Z.shiftl VHS_LOW CMD8_ARG_VHS) CHECK_PATTERN in
             ok <- cmd8_echoes arg ;;
             if ok then ret (true, false) else ret (false, true)) ;;
  let hc : bool := fst hchv in
  let hv : bool := snd hchv in
  let arg := 0 in
  let arg :=
    if hc then bits.Set1 (bits.Set1 arg SD_OCR_HCS) SD_OCR_XPC else arg in
  let arg :=
    if hv then bits.SetN arg SD_OCR_VDD_HV_MIN 511 511
    else bits.Set1 arg SD_OCR_VDD_LV in
  ret (arg, hc).

(** voltageValidationSD, lines 128-152: the [for time.Since(start) <=
    SD_DETECT_TIMEOUT] loop.  [fuel] bounds the number of iterations. *)
Fixpoint voltageValidationSD_loop (fuel : nat) (start arg : Z) (hc : bool)
    : M (bool * bool) :=
  match fuel with
  | O => out_of_fuel
  | S fuel' =>
      t <- now ;;
      if t - start <=? SD_DETECT_TIMEOUT then
        e <- call_cmd 55 READ 0 RSP_48 true true false 0 ;;
        match e with
        | Some _ => ret (false, false)
        | None =>
            e <- call_cmd 41 READ arg RSP_48 false false false 0 ;;
            match e with
            | Some _ => ret (false, false)
            | None =>
                r <- rsp 0 ;;
                if bits.Get r SD_OCR_BUSY 1 =? 0 then
                  voltageValidationSD_loop fuel' start arg hc
                else
                  let hc := if bits.Get r SD_OCR_HCS 1 =? 1 then true else hc in
                  ret (true, hc)
            end
        end
      else ret (false, false)
  end.

Definition voltageValidationSD (fuel : nat) : M (bool * bool) :=
  p <- voltageValidationSD_probe ;;
  start <- now ;;
  voltageValidationSD_loop fuel start (fst p) (snd p).

Definition detectCapacitySD (blockSize : Z) : M unit :=
  r <- get_rca ;;
  cmd 9 READ r RSP_136 false true false 0 ;;;
  ver <- rspVal SD_CSD_STRUCTURE 3 ;;
  if ver =? 0 then
    c_size_mult <- rspVal SD_CSD_C_SIZE_MULT_1 7 ;;
    c_size <- rspVal SD_CSD_C_SIZE_1 4095 ;;
    read_bl_len <- rspVal SD_CSD_READ_BL_LEN_1 15 ;;
    modify_card (fun c => set_BlockSize c (shl_int arch 2 (u32 (read_bl_len - 1)))) ;;;
    modify_card (fun c => set_Blocks c
      (to_int arch (u32 (u32 (c_size + 1) * shl_u32 2 (u32 (c_size_mult + 2))))))
  else if ver =? 1 then
    c_size <- rspVal SD_CSD_C_SIZE_2 4194303 ;;
    read_bl_len <- rspVal SD_CSD_READ_BL_LEN_2 15 ;;
    modify_card (fun c => set_BlockSize c (shl_int arch 2 (u32 (read_bl_len - 1)))) ;;;
    modify_card (fun c => set_Blocks c
      (to_int arch (to_int arch (u32 (c_size + 1)) * 1024)))
  else if ver =? 2 then
    c_size <- rspVal SD_CSD_C_SIZE_2 268435455 ;;
    read_bl_len <- rspVal SD_CSD_READ_BL_LEN_2 15 ;;
    modify_card (fun c => set_BlockSize c (shl_int arch 2 (u32 (read_bl_len - 1)))) ;;;
    modify_card (fun c => set_Blocks c
      (to_int arch (to_int arch (u32 (c_size + 1)) * 1024)))
  else throw (ErrUnsupportedCSD ver).

Definition initSD : M unit :=
  let arg := 0 in
  cmd 2 READ arg RSP_136 false true false 0 ;;;
  cmd 3 READ arg RSP_48 true true false 0 ;;;
  r0 <- rsp 0 ;;
  let state := Z.land (Z.shiftr r0 STATUS_CURRENT_STATE) 15 in
  if negb (state =? CURRENT_STATE_IDENT) then throw (ErrNotIdent state) else
  setClock 0 0 ;;;
  setClock DVS_OP SDCLKFS_OP ;;;
  r0 <- rsp 0 ;;
  put_rca (Z.land r0 (u32 (Z.shiftl 65535 RCA_ADDR))) ;;;
  detectCapacitySD SD_DEFAULT_BLOCK_SIZE ;;;
  r <- get_rca ;;
  cmd 7 READ r RSP_48_CHECK_BUSY true true false 0 ;;;
  waitState CURRENT_STATE_TRAN (1 * Millisecond) ;;;
  r <- get_rca ;;
  cmd 55 READ r RSP_48 true true false 0 ;;;
  r0 <- rsp 0 ;;
  if negb (Z.land (Z.shiftr r0 STATUS_APP_CMD) 1 =? 1) then throw ErrNoAppCmd else
  w <- get_width ;;
  bw <- (if w =? 1 then ret 0
         else if w =? 4 then ret 2
         else throw ErrSDWidth) ;;
  cmd 6 READ (u32 bw) RSP_48 true true false 0 ;;;
  let arg := 4294967295 in
  let arg := bits.SetN arg SD_SWITCH_MODE 1 MODE_SWITCH in
  let arg := bits.SetN arg SD_SWITCH_ACCESS_MODE 15 ACCESS_MODE_HS in
  cmd 6 READ arg RSP_48 true true false 0 ;;;
  e <- call_waitState CURRENT_STATE_TRAN (500 * Millisecond) ;;
  setClock 0 0 ;;;
  setClock DVS_HS SDCLKFS_HS_SDR ;;;
  modify_card (fun c => set_HS c true) ;;;
  match e with
  | None => ret tt
  | Some h => throw (ErrHardware h)
  end.

(** *** mmc.go *)

Definition MMC_CSD_C_SIZE_MULT : Z := 47 + CSD_RSP_OFF.
Definition MMC_CSD_C_SIZE : Z := 62 + CSD_RSP_OFF.
Definition MMC_CSD_READ_BL_LEN : Z := 80 + CSD_RSP_OFF.
Definition MMC_CSD_TRAN_SPEED : Z := 96 + CSD_RSP_OFF.
Definition MMC_CSD_SPEC_VERS : Z := 122 + CSD_RSP_OFF.

(** voltageValidationMMC, lines 380-399: the CMD1 loop. *)
Fixpoint voltageValidationMMC_loop (fuel : nat) (start arg : Z) (hc : bool)
    : M (bool * bool) :=
  match fuel with
  | O => out_of_fuel
  | S fuel' =>
      t <- now ;;
      if t - start <=? MMC_DETECT_TIMEOUT then
        e <- call_cmd 1 READ arg RSP_48 false false false 0 ;;
        match e with
        | Some _ => ret (false, false)
        | None =>
            r <- rsp 0 ;;
            if bits.Get r MMC_OCR_BUSY 1 =? 0 then
              voltageValidationMMC_loop fuel' start arg hc
            else
              let hc :=
                if bits.Get r MMC_OCR_ACCESS_MODE 3 =? ACCESS_MODE_SECTOR
                then true else hc in
              ret (true, hc)
        end
      else ret (false, false)
  end.

Definition voltageValidationMMC (fuel : nat) : M (bool * bool) :=
  let arg := 0 in
  let arg := bits.SetN arg MMC_OCR_ACCESS_MODE 3 ACCESS_MODE_SECTOR in
  let arg := bits.SetN arg MMC_OCR_VDD_HV_MIN 511 511 in
  sleep (1 * Millisecond) ;;;
  start <- now ;;
  voltageValidationMMC_loop fuel start arg false.

Definition writeCardRegisterMMC (reg val : Z) : M unit :=
  let arg := 0 in
  let arg := bits.SetN arg MMC_SWITCH_ACCESS 3 ACCESS_WRITE_BYTE in
  let arg := bits.SetN arg MMC_SWITCH_INDEX 255 reg in
  let arg := bits.SetN arg MMC_SWITCH_VALUE 255 val in
  cmd 6 READ arg RSP_48 true true false 0 ;;;
  waitState CURRENT_STATE_TRAN (500 * Millisecond).

(** [make([]byte, n)]: panics on a negative length. *)
Definition make_bytes (len : Z) : option (list byte) :=
  if len <? 0 then None else Some (repeat x00 (Z.to_nat len)).

(** [b[i:]]: panics when [i] is beyond the length. *)
Definition slice_from (b : list byte) (i : Z) : option (list byte) :=
  if (0 <=? i) && (i <=? Z.of_nat (length b))
  then Some (skipn (Z.to_nat i) b) else None.

Definition byte_val (b : byte) : Z := Z.of_N (Byte.to_N b).

(** [binary.LittleEndian.Uint32(b)]: panics on fewer than four bytes. *)
Definition LittleEndian_Uint32 (b : list byte) : option Z :=
  match b with
  | b0 :: b1 :: b2 :: b3 :: _ =>
      Some (Z.lor (Z.lor (Z.lor (byte_val b0) (Z.shiftl (byte_val b1) 8))
                         (Z.shiftl (byte_val b2) 16))
                  (Z.shiftl (byte_val b3) 24))
  | _ => None
  end.

Definition detectCapacityMMC (blockSize c_size_mult c_size read_bl_len : Z)
    : M unit :=
  if c_size >? 255 then
    modify_card (fun c => set_BlockSize c blockSize) ;;;
    match make_bytes blockSize with
    | None => panic
    | Some extCSD =>
        eb <- call_transfer 8 READ 0 1 (u32 blockSize) extCSD ;;
        match fst eb with
        | Some h => throw (ErrHardware h)
        | None =>
            match slice_from (snd eb) EXT_CSD_SEC_COUNT with
            | None => panic
            | Some tl =>
                match LittleEndian_Uint32 tl with
                | None => panic
                | Some v => modify_card (fun c => set_Blocks c (to_int arch v))
                end
            end
        end
    end
  else
    modify_card (fun c => set_BlockSize c (shl_int arch 2 (u32 (read_bl_len - 1)))) ;;;
    modify_card (fun c => set_Blocks c
      (to_int arch (u32 (u32 (c_size + 1) * shl_u32 2 (u32 (c_size_mult + 2)))))).

Definition initMMC : M unit :=
  let arg := 0 in
  cmd 2 READ arg RSP_136 false true false 0 ;;;
  slot <- get_n ;;
  put_rca (shl_u32 (u32 (u32 slot + 1)) RCA_ADDR) ;;;
  r <- get_rca ;;
  cmd 3 READ r RSP_48 true true false 0 ;;;
  r0 <- rsp 0 ;;
  let state := Z.land (Z.shiftr r0 STATUS_CURRENT_STATE) 15 in
  if negb (state =? CURRENT_STATE_IDENT) then throw (ErrNotIdent state) else
  r <- get_rca ;;
  cmd 9 READ r RSP_136 false true false 0 ;;;
  c_size_mult <- rspVal MMC_CSD_C_SIZE_MULT 7 ;;
  c_size <- rspVal MMC_CSD_C_SIZE 4095 ;;
  read_bl_len <- rspVal MMC_CSD_READ_BL_LEN 15 ;;
  mhz <- rspVal MMC_CSD_TRAN_SPEED 255 ;;
  ver <- rspVal MMC_CSD_SPEC_VERS 15 ;;
  (if mhz =? TRAN_SPEED_26MHZ then
     setClock 0 0 ;;;
     setClock DVS_OP SDCLKFS_OP
   else throw (ErrTranSpeed mhz)) ;;;
  r <- get_rca ;;
  cmd 7 READ r RSP_48_CHECK_BUSY true true false 0 ;;;
  waitState CURRENT_STATE_TRAN (1 * Millisecond) ;;;
  w <- get_width ;;
  bus_width <- (if w =? 4 then ret 1
                else if w =? 8 then ret 2
                else throw ErrMMCWidth) ;;
  writeCardRegisterMMC EXT_CSD_BUS_WIDTH bus_width ;;;
  detectCapacityMMC MMC_DEFAULT_BLOCK_SIZE c_size_mult c_size read_bl_len ;;;
  if ver <? 4 then ret tt else
  writeCardRegisterMMC EXT_CSD_HS_TIMING HS_TIMING_HS ;;;
  w <- get_width ;;
  let bus_width :=
    if w =? 4 then 5 else if w =? 8 then 6 else bus_width in
  writeCardRegisterMMC EXT_CSD_BUS_WIDTH bus_width ;;;
  setClock 0 0 ;;;
  setClock DVS_HS SDCLKFS_HS_DDR ;;;
  modify_card (fun c => set_DDR c true) ;;;
  modify_card (fun c => set_HS c true).

(** *** The stages of initSD and initMMC

    The two bring-up functions cut at the points the properties below
    speak of; [initSD_stages] and [initMMC_stages] show that the pieces
    put together are the functions above. *)

(** initSD, lines 199-248: up to and including the APP_CMD check. *)
Definition initSD_setup : M unit :=
  let arg := 0 in
  cmd 2 READ arg RSP_136 false true false 0 ;;;
  cmd 3 READ arg RSP_48 true true false 0 ;;;
  r0 <- rsp 0 ;;
  let state := Z.land (Z.shiftr r0 STATUS_CURRENT_STATE) 15 in
  if negb (state =? CURRENT_STATE_IDENT) then throw (ErrNotIdent state) else
  setClock 0 0 ;;;
  setClock DVS_OP SDCLKFS_OP ;;;
  r0 <- rsp 0 ;;
  put_rca (Z.land r0 (u32 (Z.shiftl 65535 RCA_ADDR))) ;;;
  detectCapacitySD SD_DEFAULT_BLOCK_SIZE ;;;
  r <- get_rca ;;
  cmd 7 READ r RSP_48_CHECK_BUSY true true false 0 ;;;
  waitState CURRENT_STATE_TRAN (1 * Millisecond) ;;;
  r <- get_rca ;;
  cmd 55 READ r RSP_48 true true false 0 ;;;
  r0 <- rsp 0 ;;
  if negb (Z.land (Z.shiftr r0 STATUS_APP_CMD) 1 =? 1) then throw ErrNoAppCmd
  else ret tt.

(** initSD, lines 250-293: bus width and high speed. *)
Definition initSD_negotiate : M unit :=
  w <- get_width ;;
  bw <- (if w =? 1 then ret 0
         else if w =? 4 then ret 2
         else throw ErrSDWidth) ;;
  cmd 6 READ (u32 bw) RSP_48 true true false 0 ;;;
  let arg := 4294967295 in
  let arg := bits.SetN arg SD_SWITCH_MODE 1 MODE_SWITCH in
  let arg := bits.SetN arg SD_SWITCH_ACCESS_MODE 15 ACCESS_MODE_HS in
  cmd 6 READ arg RSP_48 true true false 0 ;;;
  e <- call_waitState CURRENT_STATE_TRAN (500 * Millisecond) ;;
  setClock 0 0 ;;;
  setClock DVS_HS SDCLKFS_HS_SDR ;;;
  modify_card (fun c => set_HS c true) ;;;
  match e with
  | None => ret tt
  | Some h => throw (ErrHardware h)
  end.

(** initMMC, lines 451-506: up to the Transfer state; returns
    [(c_size_mult, c_size, read_bl_len, ver)]. *)
Definition initMMC_identify : M (Z * Z * Z * Z) :=
  let arg := 0 in
  cmd 2 READ arg RSP_136 false true false 0 ;;;
  slot <- get_n ;;
  put_rca (shl_u32 (u32 (u32 slot + 1)) RCA_ADDR) ;;;
  r <- get_rca ;;
  cmd 3 READ r RSP_48 true true false 0 ;;;
  r0 <- rsp 0 ;;
  let state := Z.land (Z.shiftr r0 STATUS_CURRENT_STATE) 15 in
  if negb (state =? CURRENT_STATE_IDENT) then throw (ErrNotIdent state) else
  r <- get_rca ;;
  cmd 9 READ r RSP_136 false true false 0 ;;;
  c_size_mult <- rspVal MMC_CSD_C_SIZE_MULT 7 ;;
  c_size <- rspVal MMC_CSD_C_SIZE 4095 ;;
  read_bl_len <- rspVal MMC_CSD_READ_BL_LEN 15 ;;
  mhz <- rspVal MMC_CSD_TRAN_SPEED 255 ;;
  ver <- rspVal MMC_CSD_SPEC_VERS 15 ;;
  (if mhz =? TRAN_SPEED_26MHZ then
     setClock 0 0 ;;;
     setClock DVS_OP SDCLKFS_OP
   else throw (ErrTranSpeed mhz)) ;;;
  r <- get_rca ;;
  cmd 7 READ r RSP_48_CHECK_BUSY true true false 0 ;;;
  waitState CURRENT_STATE_TRAN (1 * Millisecond) ;;;
  ret (c_size_mult, c_size, read_bl_len, ver).

(** initMMC, lines 508-522: the bus-width switch; returns [bus_width]. *)
Definition initMMC_bus_width : M Z :=
  w <- get_width ;;
  bus_width <- (if w =? 4 then ret 1
                else if w =? 8 then ret 2
                else throw ErrMMCWidth) ;;
  writeCardRegisterMMC EXT_CSD_BUS_WIDTH bus_width ;;;
  ret bus_width.

(** initMMC, lines 536-565: the high-speed DDR upgrade. *)
Definition initMMC_upgrade (bus_width : Z) : M unit :=
  writeCardRegisterMMC EXT_CSD_HS_TIMING HS_TIMING_HS ;;;
  w <- get_width ;;
  let bus_width :=
    if w =? 4 then 5 else if w =? 8 then 6 else bus_width in
  writeCardRegisterMMC EXT_CSD_BUS_WIDTH bus_width ;;;
  setClock 0 0 ;;;
  setClock DVS_HS SDCLKFS_HS_DDR ;;;
  modify_card (fun c => set_DDR c true) ;;;
  modify_card (fun c => set_HS c true).

End Driver.

Notation "x <- m ;; k" := (bind m (fun x => k))
  (at level 61, m at next level, right associativity).
Notation "m ;;; k" := (bind m (fun _ => k))
  (at level 61, right associativity).

(** ** Reading a run *)

Section Observations.

Context {C : Controller}.

(** The command with index [index] was issued (whatever its outcome). *)
Definition is_cmd (index : Z) (e : Event HwErr) : bool :=
  match e with
  | ECmd i _ _ _ _ _ _ _ _ => i =? index
  | _ => false
  end.

(** How many times the command with index [index] was issued. *)
Definition count_cmd (index : Z) (evs : list (Event HwErr)) : nat :=
  length (filter (is_cmd index) evs).

(** The command with index [index] was issued and failed. *)
Definition cmd_failed (index : Z) (e : Event HwErr) : Prop :=
  match e with
  | ECmd i _ _ _ _ _ _ _ (Some _) => i = index
  | _ => False
  end.

(** One operating-condition poll of an SD card, CMD55 then ACMD41, seen
    from the controller: the state it leaves, and whether both commands
    were answered. *)
Definition sd_poll (arg : Z) (w : World) : World :=
  snd (hw_cmd 41 READ arg RSP_48 false false false 0
         (snd (hw_cmd 55 READ 0 RSP_48 true true false 0 w))).

Definition sd_poll_answered (arg : Z) (w : World) : Prop :=
  fst (hw_cmd 55 READ 0 RSP_48 true true false 0 w) = None /\
  fst (hw_cmd 41 READ arg RSP_48 false false false 0
         (snd (hw_cmd 55 READ 0 RSP_48 true true false 0 w))) = None.

(** One poll of an eMMC device: CMD1. *)
Definition mmc_poll (arg : Z) (w : World) : World :=
  snd (hw_cmd 1 READ arg RSP_48 false false false 0 w).

Definition mmc_poll_answered (arg : Z) (w : World) : Prop :=
  fst (hw_cmd 1 READ arg RSP_48 false false false 0 w) = None.

(** The controller after [k] polls. *)
Fixpoint after (poll : World -> World) (k : nat) (w : World) : World :=
  match k with
  | O => w
  | S k' => after poll k' (poll w)
  end.

(** The power-up busy bit of the operating-condition response latched in
    [w] (bit 31 in both OCR layouts). *)
Definition busy_bit (w : World) : Z := bits.Get (hw_rsp 0 w) SD_OCR_BUSY 1.

(** An iteration that starts in [w] is within the detection deadline. *)
Definition in_time (start : Z) (w : World) : Prop :=
  hw_now w - start <= SD_DETECT_TIMEOUT.

(** What the driver asks of the controller in [k] polls. *)
Definition sd_polls (arg : Z) (k : nat) : list (Event HwErr) :=
  concat (repeat [ECmd 55 READ 0 RSP_48 true true false 0 None;
                  ECmd 41 READ arg RSP_48 false false false 0 None] k).

Definition mmc_polls (arg : Z) (k : nat) : list (Event HwErr) :=
  repeat (ECmd 1 READ arg RSP_48 false false false 0 None) k.

(** The event asks for CMD6 with argument [arg]. *)
Definition is_cmd6 (arg : Z) (e : Event HwErr) : bool :=
  match e with
  | ECmd i _ a _ _ _ _ _ _ => (i =? 6) && (a =? arg)
  | _ => false
  end.

(** The CMD6 argument of the SD high-speed switch: all function groups
    [0xf] (no influence), access mode 1, mode bit 31 as it was. *)
Definition SD_HS_SWITCH_ARG : Z := 4294967281.

(** The CMD6 argument that writes [val] into byte [reg] of the Extended
    CSD: access 3 (write byte) in bits 25:24, index in 23:16, value in
    15:8. *)
Definition ext_csd_write_arg (reg val : Z) : Z :=
  3 * 2 ^ 24 + reg * 2 ^ 16 + val * 2 ^ 8.

(** The event is a write of some value to byte [reg] of the Extended CSD;
    the value written. *)
Definition ext_csd_write (reg : Z) (e : Event HwErr) : option Z :=
  match e with
  | ECmd i _ a _ _ _ _ _ _ =>
      if (i =? 6) && (Z.shiftr a 16 =? 3 * 2 ^ 8 + reg)
      then Some (Z.land (Z.shiftr a 8) 255) else None
  | _ => None
  end.

(** The values written to byte [reg] of the Extended CSD, in order. *)
Fixpoint ext_csd_writes (reg : Z) (evs : list (Event HwErr)) : list Z :=
  match evs with
  | [] => []
  | e :: rest =>
      match ext_csd_write reg e with
      | Some v => v :: ext_csd_writes reg rest
      | None => ext_csd_writes reg rest
      end
  end.

(** The 500 ms wait for the Transfer state failed. *)
Definition long_wait_failed (e : Event HwErr) : bool :=
  match e with
  | EWaitState _ t (Some _) => t =? 500 * Millisecond
  | _ => false
  end.

(** The request did not fail. *)
Definition succeeded (e : Event HwErr) : bool :=
  match e with
  | ECmd _ _ _ _ _ _ _ _ None => true
  | ETransfer _ _ _ _ _ None => true
  | ESetClock _ _ => true
  | EWaitState _ _ None => true
  | _ => false
  end.

End Observations.

(** ** A scripted controller *)

(** A simulated controller: every command, data transfer and state wait
    consumes the next scripted reply, which gives the error value, the
    response latched into the response registers and the time the call
    takes. *)
Module Sim.

Record Reply : Type := mkReply {
  r_err : option Z;
  r_resp : N;
  r_elapsed : N
}.

Record SimWorld : Type := mkWorld {
  clock : Z;
  latched : N;
  script : list Reply;
  ext_csd : list byte
}.

(** A successful reply with response [resp], taking one microsecond. *)
Definition ok (resp : N) : Reply := mkReply None resp 1000.
(** A failing reply (error code [code]). *)
Definition failing (code : Z) : Reply := mkReply (Some code) 0%N 1000.
(** A successful reply that takes [d] nanoseconds. *)
Definition slow (resp : N) (d : N) : Reply := mkReply None resp d.

Definition next (w : SimWorld) : option Z * SimWorld :=
  match script w with
  | [] => (None, w)
  | r :: rest =>
      (r_err r,
       mkWorld (clock w + Z.of_N (r_elapsed r)) (r_resp r) rest (ext_csd w))
  end.

Definition sim_cmd (index dtd arg res : Z) (cic ccc dma : bool) (timeout : Z)
    (w : SimWorld) : option Z * SimWorld := next w.

Definition sim_rsp (i : Z) (w : SimWorld) : Z :=
  Z.of_N (N.land (N.shiftr (latched w) (Z.to_N (32 * i))) 4294967295).

Definition sim_rspVal (pos mask : Z) (w : SimWorld) : Z :=
  Z.of_N (N.land (N.shiftr (latched w) (Z.to_N pos)) (Z.to_N mask)).

Definition fill (buf data : list byte) : list byte :=
  firstn (length buf) (data ++ repeat x00 (length buf)).

Definition sim_transfer (index dtd offset blocks blockSize : Z)
    (buf : list byte) (w : SimWorld) : option Z * list byte * SimWorld :=
  let '(e, w') := next w in
  (e, match e with None => fill buf (ext_csd w) | Some _ => buf end, w').

Definition sim_setClock (dvs sdclkfs : Z) (w : SimWorld) : SimWorld := w.

Definition sim_waitState (state timeout : Z) (w : SimWorld)
    : option Z * SimWorld :=
  match script w with
  | [] => (None, w)
  | r :: rest =>
      (r_err r,
       mkWorld (clock w + Z.of_N (r_elapsed r)) (latched w) rest (ext_csd w))
  end.

Definition sim_now (w : SimWorld) : Z := clock w.

Definition sim_sleep (d : Z) (w : SimWorld) : SimWorld :=
  mkWorld (clock w + d) (latched w) (script w) (ext_csd w).

Lemma sim_rsp_u32 (i : Z) (w : SimWorld) : 0 <= sim_rsp i w < 2 ^ 32.
Proof.
  unfold sim_rsp. split; [apply N2Z.is_nonneg|].
  pose proof (N.land_le_r (N.shiftr (latched w) (Z.to_N (32 * i))) 4294967295).
  change (2 ^ 32) with (Z.of_N 4294967296). apply N2Z.inj_lt. lia.
Qed.

Lemma sim_rspVal_masked (pos mask : Z) (w : SimWorld) :
  0 <= mask -> 0 <= sim_rspVal pos mask w <= mask.
Proof.
  intros Hm. unfold sim_rspVal. split; [apply N2Z.is_nonneg|].
  pose proof (N.land_le_r (N.shiftr (latched w) (Z.to_N pos)) (Z.to_N mask)).
  lia.
Qed.

Lemma fill_length (buf data : list byte) : length (fill buf data) = length buf.
Proof.
  unfold fill. rewrite length_firstn, length_app, repeat_length. lia.
Qed.

Lemma sim_transfer_length (i d o b bs : Z) (buf : list byte) (w : SimWorld) :
  length (snd (fst (sim_transfer i d o b bs buf w))) = length buf.
Proof.
  unfold sim_transfer. destruct (next w) as [[e|] w']; simpl;
    [reflexivity | apply fill_length].
Qed.

Lemma sim_cmd_monotone (i d a r : Z) (cic ccc dma : bool) (t : Z)
    (w : SimWorld) :
  sim_now w <= sim_now (snd (sim_cmd i d a r cic ccc dma t w)).
Proof.
  unfold sim_cmd, next, sim_now. destruct (script w) as [|rp rest]; simpl; lia.
Qed.

(** The constants take the values of the i.MX6 controller: the long
    response is latched without its leading 8 bits, the card state is bits
    12:9 of the status word, Identification is state 2 and Transfer 4. *)
#[export] Instance controller : Controller := {|
  World := SimWorld;
  HwErr := Z;
  hw_cmd := sim_cmd;
  hw_rsp := sim_rsp;
  hw_rspVal := sim_rspVal;
  hw_transfer := sim_transfer;
  hw_setClock := sim_setClock;
  hw_waitState := sim_waitState;
  hw_now := sim_now;
  hw_sleep := sim_sleep;
  READ := 1;
  RSP_48 := 2;
  RSP_48_CHECK_BUSY := 3;
  RSP_136 := 1;
  CSD_RSP_OFF := -8;
  RCA_ADDR := 16;
  STATUS_CURRENT_STATE := 9;
  STATUS_APP_CMD := 5;
  CURRENT_STATE_IDENT := 2;
  CURRENT_STATE_TRAN := 4;
  DVS_OP := 2;
  SDCLKFS_OP := 32;
  DVS_HS := 0;
  SDCLKFS_HS_SDR := 4;
  SDCLKFS_HS_DDR := 2;
  hw_rsp_u32 := sim_rsp_u32;
  hw_rspVal_masked := sim_rspVal_masked;
  hw_transfer_length := sim_transfer_length;
  hw_cmd_monotone := sim_cmd_monotone
|}.

(** A freshly allocated descriptor. *)
Definition fresh_card : CardInfo := mkCard 0 0 false false.

(** A driver instance on slot 0 with bus width [w], in front of a card that
    will give the replies [replies] and holds the Extended CSD [ext]. *)
Definition boot (w : Z) (replies : list Reply) (ext : list byte) : USDHC :=
  mkUSDHC 0 w 0 fresh_card (mkWorld 0 0 replies ext).

(** A 128-bit CSD as latched by the controller (bits 127:8 of the register),
    structure version 0: C_SIZE_MULT [49:47], C_SIZE [73:62], READ_BL_LEN
    [83:80], CSD_STRUCTURE [127:126]. *)
Definition csd_v0 (c_size_mult c_size read_bl_len : N) : N :=
  N.lor (N.shiftl read_bl_len 72)
        (N.lor (N.shiftl c_size 54) (N.shiftl c_size_mult 39)).

(** Structure versions 1 and 2: C_SIZE from bit 48, READ_BL_LEN [83:80]. *)
Definition csd_v12 (ver c_size read_bl_len : N) : N :=
  N.lor (N.shiftl ver 118)
        (N.lor (N.shiftl read_bl_len 72) (N.shiftl c_size 40)).

(** An eMMC CSD: as version 0, with TRAN_SPEED [103:96] and SPEC_VERS
    [125:122]. *)
Definition csd_mmc (spec_vers tran_speed c_size_mult c_size read_bl_len : N) : N :=
  N.lor (N.shiftl spec_vers 114)
        (N.lor (N.shiftl tran_speed 88) (csd_v0 c_size_mult c_size read_bl_len)).

(** A status word reporting card state [st], with the APP_CMD bit set. *)
Definition status (st : N) : N := N.lor (N.shiftl st 9) 32.

End Sim.

(** ** Concrete cards *)

Module Cards.

Import Sim.

(** An SD card answering CMD9 with a version-0 CSD: C_SIZE_MULT 7,
    C_SIZE 4095, READ_BL_LEN 9. *)
Definition sd_csd_v0 : USDHC := boot 4 [ok (csd_v0 7 4095 9)] [].

(** The same with READ_BL_LEN 0. *)
Definition sd_csd_v0_len0 : USDHC := boot 4 [ok (csd_v0 7 4095 0)] [].

(** An SDHC card: version-1 CSD, C_SIZE 1000, READ_BL_LEN 9. *)
Definition sd_csd_v1 : USDHC := boot 4 [ok (csd_v12 1 1000 9)] [].

(** An Extended CSD whose SEC_COUNT bytes 212..215 are 00 00 e9 00. *)
Definition ext_csd_8g : list byte :=
  repeat x00 212 ++ [x00; x00; xe9; x00] ++ repeat x00 296.

(** An eMMC device that delivers [ext_csd_8g]. *)
Definition mmc_8g : USDHC := boot 8 [ok 0] ext_csd_8g.

(** An eMMC device whose Extended CSD is all zeroes. *)
Definition mmc_blank : USDHC := boot 8 [ok 0] [].

(** An SD 2.x card that echoes CMD8 and reports ready on the third poll,
    with the capacity-status bit set. *)
Definition sd_ready_third : USDHC :=
  boot 4 [ok 426; ok 0; ok 0; ok 0; ok 0; ok 0; ok 0xC0FF8000] [].

(** A standard-capacity SD 2.x card: it echoes CMD8 and answers the first
    ACMD41 with the busy bit set and the capacity-status bit clear. *)
Definition sdsc_v2 : USDHC := boot 4 [ok 426; ok 0; ok 0x80FF8000] [].

(** An SD card whose polls take 600 ms per command and never report
    ready. *)
Definition sd_never_ready : USDHC :=
  boot 4 [ok 426; slow 0 600000000; slow 0 600000000] [].

(** An SD card whose first CMD55 fails. *)
Definition sd_cmd55_fails : USDHC := boot 4 [ok 426; failing 5] [].

(** An eMMC device that reports ready, in sector mode, on the second
    poll. *)
Definition mmc_ready_second : USDHC := boot 8 [ok 0; ok 0xC0FF8000] [].

(** An eMMC device whose only poll takes 1.2 s. *)
Definition mmc_never_ready : USDHC := boot 8 [slow 0 1200000000] [].

(** An eMMC device whose CMD1 fails. *)
Definition mmc_cmd1_fails : USDHC := boot 8 [failing 5] [].

(** The replies of an SDHC card to initSD up to the bus-width step: CMD2,
    CMD3 (Identification state), CMD9 (version-1 CSD), CMD7, the wait for
    Transfer, CMD55 (APP_CMD set). *)
Definition sd_bring_up : list Reply :=
  [ok 0; ok (status 2); ok (csd_v12 1 1000 9); ok 0; ok 0; ok (status 4)].

(** A driver configured for 8 data lines in front of that SD card. *)
Definition sd_width8 : USDHC := boot 8 sd_bring_up [].

(** A driver configured for 4 lines; the card accepts ACMD6 and the CMD6
    switch, and the wait for Transfer that follows fails. *)
Definition sd_switch_then_timeout : USDHC :=
  boot 4 (sd_bring_up ++ [ok 0; ok 0; failing 110]) [].

(** The replies of an eMMC device of specification version [ver] to
    initMMC up to the Transfer state: CMD2, CMD3, CMD9 (26 MHz, C_SIZE
    200), CMD7, the wait. *)
Definition mmc_bring_up (ver : N) : list Reply :=
  [ok 0; ok (status 2); ok (csd_mmc ver 50 7 200 9); ok 0; ok 0].

(** A version-3 device on 8 lines that accepts the bus-width write. *)
Definition mmc_v3 : USDHC := boot 8 (mmc_bring_up 3 ++ [ok 0; ok 0]) [].

(** A version-4 device on 8 lines that accepts everything. *)
Definition mmc_v4 : USDHC := boot 8 (mmc_bring_up 4) [].

(** A version-4 device behind a driver configured for 1 line. *)
Definition mmc_width1 : USDHC := boot 1 (mmc_bring_up 4) [].

(** An SDHC card whose version-1 CSD has C_SIZE 2097151. *)
Definition sd_csd_v1_2g : USDHC := boot 4 [ok (csd_v12 1 2097151 9)] [].

(** An Extended CSD whose SEC_COUNT bytes 212..215 are 00 00 00 80. *)
Definition ext_csd_top_bit : list byte :=
  repeat x00 212 ++ [x00; x00; x00; x80] ++ repeat x00 296.

(** An eMMC device that delivers [ext_csd_top_bit]. *)
Definition mmc_top_bit : USDHC := boot 8 [ok 0] ext_csd_top_bit.

End Cards.

(** ** Properties *)

Section Properties.

Context {C : Controller}.
Variable arch : GoArch.

(** *** Integer facts *)

Lemma u32_small (z : Z) : 0 <= z < 2 ^ 32 -> u32 z = z.
Proof. intros H. unfold u32. apply Z.mod_small. exact H. Qed.

Lemma to_int_fits (z : Z) :
  0 <= z < 2 ^ (int_bits arch - 1) -> to_int arch z = z.
Proof.
  intros H. unfold to_int. cbv zeta.
  assert (Hh : 2 ^ int_bits arch / 2 = 2 ^ (int_bits arch - 1))
    by (destruct arch; reflexivity).
  assert (Hlt : 2 ^ (int_bits arch - 1) < 2 ^ int_bits arch)
    by (destruct arch; reflexivity).
  rewrite Z.mod_small by lia. rewrite Hh.
  destruct (z <? 2 ^ (int_bits arch - 1)) eqn:E; [reflexivity|].
  apply Z.ltb_ge in E. lia.
Qed.

Lemma int_bits_31 : 2 ^ 31 <= 2 ^ (int_bits arch - 1).
Proof. destruct arch; vm_compute; discriminate. Qed.

Lemma to_int_small (z : Z) : 0 <= z < 2 ^ 31 -> to_int arch z = z.
Proof. intros H. apply to_int_fits. pose proof int_bits_31. lia. Qed.

(** [2 << (k - 1)] is [2^k] for the exponents 1..15 ... *)
Lemma block_size_pow2 (k : Z) :
  1 <= k <= 15 -> shl_int arch 2 (u32 (k - 1)) = 2 ^ k.
Proof.
  intros Hk.
  assert (Hc : k = 1 \/ k = 2 \/ k = 3 \/ k = 4 \/ k = 5 \/ k = 6 \/ k = 7 \/
               k = 8 \/ k = 9 \/ k = 10 \/ k = 11 \/ k = 12 \/ k = 13 \/
               k = 14 \/ k = 15) by lia.
  repeat destruct Hc as [Hc|Hc]; subst k; destruct arch; reflexivity.
Qed.

(** ... and 0 for the exponent 0: the count wraps around to [2^32 - 1]. *)
Lemma block_size_zero : shl_int arch 2 (u32 (0 - 1)) = 0.
Proof. destruct arch; reflexivity. Qed.

(** [(c_size + 1) * (2 << (c_size_mult + 2))] on the ranges of the CSD
    fields: nothing wraps. *)
Lemma legacy_blocks (c m : Z) :
  0 <= c <= 4095 -> 0 <= m <= 7 ->
  to_int arch (u32 (u32 (c + 1) * shl_u32 2 (u32 (m + 2))))
  = (c + 1) * 2 ^ (m + 3).
Proof.
  intros Hc Hm.
  assert (Hs : shl_u32 2 (u32 (m + 2)) = 2 ^ (m + 3)).
  { assert (Hk : m = 0 \/ m = 1 \/ m = 2 \/ m = 3 \/ m = 4 \/ m = 5 \/
                 m = 6 \/ m = 7) by lia.
    repeat destruct Hk as [Hk|Hk]; subst m; reflexivity. }
  rewrite Hs.
  assert (Hp : 0 < 2 ^ (m + 3) <= 1024).
  { split; [apply Z.pow_pos_nonneg; lia|].
    change 1024 with (2 ^ 10). apply Z.pow_le_mono_r; lia. }
  rewrite (u32_small (c + 1)) by (change (2 ^ 32) with 4294967296; lia).
  assert (Hprod : 0 <= (c + 1) * 2 ^ (m + 3) <= 4096 * 1024) by nia.
  rewrite u32_small by (change (2 ^ 32) with 4294967296; lia).
  apply to_int_small. change (2 ^ 31) with 2147483648. lia.
Qed.

(** [int(c_size+1) * 1024] for a C_SIZE of at most 28 bits. *)
Lemma sdhc_blocks (c : Z) :
  0 <= c <= 268435455 ->
  to_int arch (to_int arch (u32 (c + 1)) * 1024)
  = to_int arch ((c + 1) * 1024).
Proof.
  intros Hc.
  rewrite u32_small by (change (2 ^ 32) with 4294967296; lia).
  rewrite (to_int_small (c + 1)) by (change (2 ^ 31) with 2147483648; lia).
  reflexivity.
Qed.

Lemma lor_shiftl_add (a b k : Z) :
  0 <= k -> 0 <= a < 2 ^ k -> Z.lor a (Z.shiftl b k) = a + b * 2 ^ k.
Proof.
  intros Hk Ha. rewrite Z.shiftl_mul_pow2 by lia.
  assert (H0 : Z.land a (b * 2 ^ k) = 0).
  { apply Z.bits_inj'. intros i Hi. rewrite Z.land_spec, Z.bits_0.
    destruct (Z.lt_ge_cases i k) as [Hlt|Hge].
    - rewrite Z.mul_pow2_bits_low by lia. apply andb_false_r.
    - rewrite <- (Z.mod_small a (2 ^ k)) by lia.
      rewrite Z.mod_pow2_bits_high by lia. reflexivity. }
  rewrite Z.add_nocarry_lxor by exact H0. symmetry. apply Z.lxor_lor. exact H0.
Qed.

Lemma byte_val_range (b : byte) : 0 <= byte_val b < 256.
Proof.
  unfold byte_val. pose proof (Byte.to_N_bounded b). lia.
Qed.

(** The little-endian word as a sum. *)
Lemma LittleEndian_Uint32_sum (b0 b1 b2 b3 : byte) (tl : list byte) :
  LittleEndian_Uint32 (b0 :: b1 :: b2 :: b3 :: tl)
  = Some (byte_val b0 + 2 ^ 8 * byte_val b1 + 2 ^ 16 * byte_val b2
          + 2 ^ 24 * byte_val b3).
Proof.
  pose proof (byte_val_range b0). pose proof (byte_val_range b1).
  pose proof (byte_val_range b2). pose proof (byte_val_range b3).
  unfold LittleEndian_Uint32. f_equal.
  rewrite (lor_shiftl_add (byte_val b0) (byte_val b1) 8)
    by (change (2 ^ 8) with 256; lia).
  rewrite (lor_shiftl_add _ (byte_val b2) 16)
    by (change (2 ^ 8) with 256; change (2 ^ 16) with 65536; lia).
  rewrite (lor_shiftl_add _ (byte_val b3) 24)
    by (change (2 ^ 8) with 256; change (2 ^ 16) with 65536;
        change (2 ^ 24) with 16777216; lia).
  lia.
Qed.

Lemma skipn_cons_nth {A} (d : A) (k : nat) (l : list A) :
  (k < length l)%nat -> skipn k l = nth k l d :: skipn (S k) l.
Proof.
  revert l. induction k as [|k IH]; intros [|x l] Hl; simpl in Hl; try lia.
  - reflexivity.
  - change (skipn (S k) (x :: l)) with (skipn k l).
    change (nth (S k) (x :: l) d) with (nth k l d).
    rewrite (IH l) by lia. reflexivity.
Qed.

(** *** Running the driver *)

Ltac mrun :=
  cbv [bind ret throw panic out_of_fuel cmd check call_cmd rsp rspVal setClock
       waitState call_waitState call_transfer get_rca get_width get_n
       put_rca modify_card now sleep result final events fst snd
       card world rca width n set_rca set_card set_world
       BlockSize Blocks HS DDR set_BlockSize set_Blocks set_HS set_DDR app].

Ltac open_hw hw :=
  let hn := fresh "hn" in let hwidth := fresh "hwidth" in
  let hrca := fresh "hrca" in let hcard := fresh "hcard" in
  let hworld := fresh "hworld" in
  destruct hw as [hn hwidth hrca hcard hworld];
  cbn [rca world width n card] in *.

(** *** Capacity decoding *)

(** C1 (as amended).  After a successful CMD9 whose CSD structure version
    is 0, 1 or 2, detectCapacitySD returns nil; the block size is
    [2^read_bl_len] for every read_bl_len from 1 to 15 (512 bytes for 9);
    for versions 1 and 2 the block count is [(c_size+1) * 1024] whenever
    that product is below [2^(int_bits-1)].  The block count of version 0
    is not part of the statement. *)
Theorem detectCapacitySD_geometry (bs : Z) (hw : USDHC) (w9 : World) :
  hw_cmd 9 READ (rca hw) RSP_136 false true false 0 (world hw) = (None, w9) ->
  hw_rspVal SD_CSD_STRUCTURE 3 w9 <= 2 ->
  let ver := hw_rspVal SD_CSD_STRUCTURE 3 w9 in
  let read_bl_len := hw_rspVal SD_CSD_READ_BL_LEN_1 15 w9 in
  let c_size_1 := hw_rspVal SD_CSD_C_SIZE_2 4194303 w9 in
  let c_size_2 := hw_rspVal SD_CSD_C_SIZE_2 268435455 w9 in
  let r := detectCapacitySD arch bs hw in
  result r = Ret tt /\
  (1 <= read_bl_len -> BlockSize (card (final r)) = 2 ^ read_bl_len) /\
  (ver = 1 ->
   (c_size_1 + 1) * 1024 < 2 ^ (int_bits arch - 1) ->
   Blocks (card (final r)) = (c_size_1 + 1) * 1024) /\
  (ver = 2 ->
   (c_size_2 + 1) * 1024 < 2 ^ (int_bits arch - 1) ->
   Blocks (card (final r)) = (c_size_2 + 1) * 1024).
Proof.
  intros Hcmd Hver ver rbl cs1 cs2 r.
  pose proof (hw_rspVal_masked SD_CSD_STRUCTURE 3 w9 ltac:(lia)) as Bver.
  pose proof (hw_rspVal_masked SD_CSD_READ_BL_LEN_1 15 w9 ltac:(lia)) as Brbl.
  pose proof (hw_rspVal_masked SD_CSD_C_SIZE_2 4194303 w9 ltac:(lia)) as Bcs1.
  pose proof (hw_rspVal_masked SD_CSD_C_SIZE_2 268435455 w9 ltac:(lia)) as Bcs2.
  fold ver in Hver, Bver. fold rbl in Brbl.
  fold cs1 in Bcs1. fold cs2 in Bcs2.
  subst r. open_hw hw. unfold detectCapacitySD. mrun. rewrite Hcmd. mrun.
  change (hw_rspVal SD_CSD_READ_BL_LEN_2 15 w9) with rbl.
  fold ver rbl cs1 cs2.
  destruct (ver =? 0) eqn:E0;
    [|destruct (ver =? 1) eqn:E1; [|destruct (ver =? 2) eqn:E2]]; mrun.
  - apply Z.eqb_eq in E0.
    repeat split; try (intros; lia).
    intros Hr. apply block_size_pow2. lia.
  - apply Z.eqb_eq in E1.
    repeat split; try (intros; lia).
    + intros Hr. apply block_size_pow2. lia.
    + intros _ Hfit. rewrite sdhc_blocks by lia. apply to_int_fits. lia.
  - apply Z.eqb_eq in E2.
    repeat split; try (intros; lia).
    + intros Hr. apply block_size_pow2. lia.
    + intros _ Hfit. rewrite sdhc_blocks by lia. apply to_int_fits. lia.
  - apply Z.eqb_neq in E0, E1, E2. lia.
Qed.

(** C2 (as amended).  detectCapacityMMC on the fields of an eMMC CSD.
    With [c_size <= 0xff] it returns nil without asking anything of the
    controller, the block size is [2^(read_bl_len-1)*2] for read_bl_len
    from 1 to 15, and the block count is [(c_size+1) * 2^(c_size_mult+3)].
    With [c_size > 0xff] the run does not depend on the three legacy
    fields; the block size is the transfer block size, one block is read
    with a CMD8 data transfer, and the block count is the little-endian
    32-bit word at byte 212 of the block whenever that word is below
    [2^(int_bits-1)]. *)
Theorem detectCapacityMMC_paths
    (blockSize c_size_mult c_size read_bl_len : Z) (hw : USDHC) :
  0 <= c_size_mult <= 7 -> 0 <= c_size <= 4095 -> 0 <= read_bl_len <= 15 ->
  let r := detectCapacityMMC arch blockSize c_size_mult c_size read_bl_len hw in
  (c_size <= 255 ->
   result r = Ret tt /\ events r = [] /\ world (final r) = world hw /\
   (1 <= read_bl_len ->
    BlockSize (card (final r)) = 2 ^ (read_bl_len - 1) * 2) /\
   Blocks (card (final r)) = (c_size + 1) * 2 ^ (c_size_mult + 3)) /\
  (255 < c_size ->
   (forall m' c' l', 255 < c' ->
      detectCapacityMMC arch blockSize m' c' l' hw = r) /\
   (216 <= blockSize ->
    forall buf w',
      hw_transfer 8 READ 0 1 (u32 blockSize)
        (repeat x00 (Z.to_nat blockSize)) (world hw) = (None, buf, w') ->
      let sec_count :=
        byte_val (nth 212 buf x00) + 2 ^ 8 * byte_val (nth 213 buf x00)
        + 2 ^ 16 * byte_val (nth 214 buf x00)
        + 2 ^ 24 * byte_val (nth 215 buf x00) in
      result r = Ret tt /\
      events r = [ETransfer 8 READ 0 1 (u32 blockSize) None] /\
      BlockSize (card (final r)) = blockSize /\
      (sec_count < 2 ^ (int_bits arch - 1) ->
       Blocks (card (final r)) = sec_count))).
Proof.
  intros Hm Hc Hl r. split.
  - intros Hle. subst r. open_hw hw. unfold detectCapacityMMC.
    rewrite (Z.gtb_ltb c_size 255), (proj2 (Z.ltb_ge 255 c_size)) by lia.
    mrun. repeat split.
    + intros H1. rewrite block_size_pow2 by lia.
      replace read_bl_len with (Z.succ (read_bl_len - 1)) at 1 by lia.
      rewrite Z.pow_succ_r by lia. lia.
    + apply legacy_blocks; lia.
  - intros Hgt. split.
    + intros m' c' l' Hc'. subst r. unfold detectCapacityMMC.
      rewrite (Z.gtb_ltb c_size 255), (proj2 (Z.ltb_lt 255 c_size)) by lia.
      rewrite (Z.gtb_ltb c' 255), (proj2 (Z.ltb_lt 255 c')) by lia.
      reflexivity.
    + intros Hbs buf w' Htr sec_count.
      pose proof (hw_transfer_length 8 READ 0 1 (u32 blockSize)
                    (repeat x00 (Z.to_nat blockSize)) (world hw)) as Hlen.
      rewrite Htr in Hlen. cbn [fst snd] in Hlen. rewrite repeat_length in Hlen.
      subst r. open_hw hw. unfold detectCapacityMMC.
      rewrite (Z.gtb_ltb c_size 255), (proj2 (Z.ltb_lt 255 c_size)) by lia.
      assert (Hmk : make_bytes blockSize = Some (repeat x00 (Z.to_nat blockSize))).
      { unfold make_bytes. replace (blockSize <? 0) with false
          by (symmetry; apply Z.ltb_ge; lia). reflexivity. }
      assert (Hsl : slice_from buf EXT_CSD_SEC_COUNT = Some (skipn 212 buf)).
      { unfold slice_from, EXT_CSD_SEC_COUNT. rewrite Hlen.
        replace (212 <=? Z.of_nat (Z.to_nat blockSize)) with true
          by (symmetry; apply Z.leb_le; lia). reflexivity. }
      assert (Hle : LittleEndian_Uint32 (skipn 212 buf) = Some sec_count).
      { rewrite (skipn_cons_nth x00 212 buf) by lia.
        rewrite (skipn_cons_nth x00 213 buf) by lia.
        rewrite (skipn_cons_nth x00 214 buf) by lia.
        rewrite (skipn_cons_nth x00 215 buf) by lia.
        apply LittleEndian_Uint32_sum. }
      mrun. rewrite Hmk. mrun. rewrite Htr. mrun. rewrite Hsl, Hle. mrun.
      repeat split. intros Hfit. apply to_int_fits.
      pose proof (byte_val_range (nth 212 buf x00)).
      pose proof (byte_val_range (nth 213 buf x00)).
      pose proof (byte_val_range (nth 214 buf x00)).
      pose proof (byte_val_range (nth 215 buf x00)).
      subst sec_count. lia.
Qed.


(** *** Operating-condition polling *)

Lemma after_succ (poll : World -> World) (k : nat) (w : World) :
  after poll (S k) w = poll (after poll k w).
Proof.
  revert w. induction k as [|k IH]; intros w; [reflexivity|].
  change (after poll (S (S k)) w) with (after poll (S k) (poll w)).
  rewrite IH. reflexivity.
Qed.

Lemma sd_poll_monotone (arg : Z) (w : World) :
  hw_now w <= hw_now (sd_poll arg w).
Proof.
  unfold sd_poll.
  pose proof (hw_cmd_monotone 55 READ 0 RSP_48 true true false 0 w).
  pose proof (hw_cmd_monotone 41 READ arg RSP_48 false false false 0
                (snd (hw_cmd 55 READ 0 RSP_48 true true false 0 w))).
  lia.
Qed.

Lemma mmc_poll_monotone (arg : Z) (w : World) :
  hw_now w <= hw_now (mmc_poll arg w).
Proof. apply hw_cmd_monotone. Qed.

Lemma after_monotone (poll : World -> World) :
  (forall w, hw_now w <= hw_now (poll w)) ->
  forall k m w, (k <= m)%nat ->
    hw_now (after poll k w) <= hw_now (after poll m w).
Proof.
  intros Hp k m w Hkm. induction Hkm as [|m Hkm IH]; [lia|].
  rewrite after_succ. pose proof (Hp (after poll m w)). lia.
Qed.

Lemma in_time_earlier (poll : World -> World) (start : Z) :
  (forall w, hw_now w <= hw_now (poll w)) ->
  forall k m w, (k <= m)%nat ->
    in_time start (after poll m w) -> in_time start (after poll k w).
Proof.
  intros Hp k m w Hkm. unfold in_time.
  pose proof (after_monotone poll Hp k m w Hkm). lia.
Qed.

Lemma in_time_leb (start : Z) (w : World) :
  in_time start w -> (hw_now w - start <=? SD_DETECT_TIMEOUT) = true.
Proof. unfold in_time. intros H. apply Z.leb_le. exact H. Qed.

Lemma not_in_time_leb (start : Z) (w : World) :
  ~ in_time start w -> (hw_now w - start <=? SD_DETECT_TIMEOUT) = false.
Proof. unfold in_time. intros H. apply Z.leb_gt. lia. Qed.

Lemma sd_poll_eqs (arg : Z) (w : World) :
  sd_poll_answered arg w ->
  exists w1,
    hw_cmd 55 READ 0 RSP_48 true true false 0 w = (None, w1) /\
    hw_cmd 41 READ arg RSP_48 false false false 0 w1 = (None, sd_poll arg w).
Proof.
  unfold sd_poll_answered, sd_poll. intros [H55 H41].
  destruct (hw_cmd 55 READ 0 RSP_48 true true false 0 w) as [e1 w1].
  cbn [fst snd] in *. subst e1. exists w1. split; [reflexivity|].
  destruct (hw_cmd 41 READ arg RSP_48 false false false 0 w1) as [e2 w2].
  cbn [fst snd] in *. subst e2. reflexivity.
Qed.

Lemma mmc_poll_eqs (arg : Z) (w : World) :
  mmc_poll_answered arg w ->
  hw_cmd 1 READ arg RSP_48 false false false 0 w = (None, mmc_poll arg w).
Proof.
  unfold mmc_poll_answered, mmc_poll. intros H1.
  destruct (hw_cmd 1 READ arg RSP_48 false false false 0 w) as [e1 w1].
  cbn [fst snd] in *. subst e1. reflexivity.
Qed.

(** The SD loop when the card answers every poll and reports ready at poll
    [N+1]. *)
Lemma sd_loop_ready (N : nat) :
  forall (fuel : nat) (start arg : Z) (hc : bool) (hw : USDHC),
    (N < fuel)%nat ->
    (forall k, (k <= N)%nat -> in_time start (after (sd_poll arg) k (world hw))) ->
    (forall k, (k <= N)%nat ->
       sd_poll_answered arg (after (sd_poll arg) k (world hw))) ->
    (forall k, (k < N)%nat ->
       busy_bit (after (sd_poll arg) (S k) (world hw)) = 0) ->
    busy_bit (after (sd_poll arg) (S N) (world hw)) <> 0 ->
    voltageValidationSD_loop fuel start arg hc hw
    = (Ret (true,
            if bits.Get (hw_rsp 0 (after (sd_poll arg) (S N) (world hw)))
                 SD_OCR_HCS 1 =? 1
            then true else hc),
       set_world hw (after (sd_poll arg) (S N) (world hw)),
       sd_polls arg (S N)).
Proof.
  induction N as [|N IH]; intros fuel start arg hc hw Hfuel Htime Hans Hbusy Hready;
    (destruct fuel as [|fuel]; [lia|]);
    pose proof (in_time_leb _ _ (Htime 0%nat (Nat.le_0_l _))) as Ht;
    destruct (sd_poll_eqs _ _ (Hans 0%nat (Nat.le_0_l _))) as (w1 & E55 & E41);
    cbn [after] in Ht, E55, E41.
  - cbn [after] in Hready. unfold busy_bit in Hready.
    open_hw hw. cbn [voltageValidationSD_loop after]. mrun.
    rewrite Ht, E55. mrun. rewrite E41. mrun.
    rewrite (proj2 (Z.eqb_neq _ _) Hready). reflexivity.
  - pose proof (Hbusy 0%nat ltac:(lia)) as Hb0.
    specialize (IH fuel start arg hc (set_world hw (sd_poll arg (world hw)))
                  ltac:(lia)).
    cbn [world set_world] in IH.
    specialize (IH (fun k Hk => Htime (S k) ltac:(lia))
                   (fun k Hk => Hans (S k) ltac:(lia))
                   (fun k Hk => Hbusy (S k) ltac:(lia)) Hready).
    cbn [after] in Hb0. unfold busy_bit in Hb0.
    change (after (sd_poll arg) (S (S N)) (world hw))
      with (after (sd_poll arg) (S N) (sd_poll arg (world hw))).
    open_hw hw. cbn [voltageValidationSD_loop]. mrun.
    rewrite Ht, E55. mrun. rewrite E41. mrun.
    rewrite (proj2 (Z.eqb_eq _ _) Hb0).
    unfold set_world in IH. cbn [n width rca card world] in IH.
    rewrite IH. reflexivity.
Qed.

(** The SD loop when the deadline passes after [M] unanswered polls. *)
Lemma sd_loop_expired (M : nat) :
  forall (fuel : nat) (start arg : Z) (hc : bool) (hw : USDHC),
    (M < fuel)%nat ->
    (forall k, (k < M)%nat ->
       in_time start (after (sd_poll arg) k (world hw)) /\
       sd_poll_answered arg (after (sd_poll arg) k (world hw)) /\
       busy_bit (after (sd_poll arg) (S k) (world hw)) = 0) ->
    ~ in_time start (after (sd_poll arg) M (world hw)) ->
    voltageValidationSD_loop fuel start arg hc hw
    = (Ret (false, false),
       set_world hw (after (sd_poll arg) M (world hw)),
       sd_polls arg M).
Proof.
  induction M as [|M IH]; intros fuel start arg hc hw Hfuel Hpolls Hexp;
    (destruct fuel as [|fuel]; [lia|]).
  - pose proof (not_in_time_leb _ _ Hexp) as Ht. cbn [after] in Ht.
    open_hw hw. cbn [voltageValidationSD_loop after]. mrun.
    rewrite Ht. reflexivity.
  - destruct (Hpolls 0%nat ltac:(lia)) as (Ht0 & Hans & Hb0).
    apply in_time_leb in Ht0.
    destruct (sd_poll_eqs _ _ Hans) as (w1 & E55 & E41).
    cbn [after] in Ht0, E55, E41, Hb0. unfold busy_bit in Hb0.
    specialize (IH fuel start arg hc (set_world hw (sd_poll arg (world hw)))
                  ltac:(lia)).
    cbn [world set_world] in IH.
    specialize (IH (fun k Hk => Hpolls (S k) ltac:(lia)) Hexp).
    change (after (sd_poll arg) (S M) (world hw))
      with (after (sd_poll arg) M (sd_poll arg (world hw))).
    open_hw hw. cbn [voltageValidationSD_loop]. mrun.
    rewrite Ht0, E55. mrun. rewrite E41. mrun.
    rewrite (proj2 (Z.eqb_eq _ _) Hb0).
    unfold set_world in IH. cbn [n width rca card world] in IH.
    rewrite IH. reflexivity.
Qed.

(** The eMMC loop in the same two situations. *)
Lemma mmc_loop_ready (N : nat) :
  forall (fuel : nat) (start arg : Z) (hc : bool) (hw : USDHC),
    (N < fuel)%nat ->
    (forall k, (k <= N)%nat -> in_time start (after (mmc_poll arg) k (world hw))) ->
    (forall k, (k <= N)%nat ->
       mmc_poll_answered arg (after (mmc_poll arg) k (world hw))) ->
    (forall k, (k < N)%nat ->
       busy_bit (after (mmc_poll arg) (S k) (world hw)) = 0) ->
    busy_bit (after (mmc_poll arg) (S N) (world hw)) <> 0 ->
    voltageValidationMMC_loop fuel start arg hc hw
    = (Ret (true,
            if bits.Get (hw_rsp 0 (after (mmc_poll arg) (S N) (world hw)))
                 MMC_OCR_ACCESS_MODE 3 =? ACCESS_MODE_SECTOR
            then true else hc),
       set_world hw (after (mmc_poll arg) (S N) (world hw)),
       mmc_polls arg (S N)).
Proof.
  induction N as [|N IH]; intros fuel start arg hc hw Hfuel Htime Hans Hbusy Hready;
    (destruct fuel as [|fuel]; [lia|]);
    pose proof (in_time_leb _ _ (Htime 0%nat (Nat.le_0_l _))) as Ht;
    pose proof (mmc_poll_eqs _ _ (Hans 0%nat (Nat.le_0_l _))) as E1;
    cbn [after] in Ht, E1.
  - cbn [after] in Hready. unfold busy_bit in Hready.
    open_hw hw. cbn [voltageValidationMMC_loop after]. mrun.
    change MMC_DETECT_TIMEOUT with SD_DETECT_TIMEOUT.
    change MMC_OCR_BUSY with SD_OCR_BUSY.
    rewrite Ht, E1. mrun.
    rewrite (proj2 (Z.eqb_neq _ _) Hready). reflexivity.
  - pose proof (Hbusy 0%nat ltac:(lia)) as Hb0.
    specialize (IH fuel start arg hc (set_world hw (mmc_poll arg (world hw)))
                  ltac:(lia)).
    cbn [world set_world] in IH.
    specialize (IH (fun k Hk => Htime (S k) ltac:(lia))
                   (fun k Hk => Hans (S k) ltac:(lia))
                   (fun k Hk => Hbusy (S k) ltac:(lia)) Hready).
    cbn [after] in Hb0. unfold busy_bit in Hb0.
    change (after (mmc_poll arg) (S (S N)) (world hw))
      with (after (mmc_poll arg) (S N) (mmc_poll arg (world hw))).
    open_hw hw. cbn [voltageValidationMMC_loop]. mrun.
    change MMC_DETECT_TIMEOUT with SD_DETECT_TIMEOUT.
    change MMC_OCR_BUSY with SD_OCR_BUSY.
    rewrite Ht, E1. mrun.
    rewrite (proj2 (Z.eqb_eq _ _) Hb0).
    unfold set_world in IH. cbn [n width rca card world] in IH.
    rewrite IH. reflexivity.
Qed.

Lemma mmc_loop_expired (M : nat) :
  forall (fuel : nat) (start arg : Z) (hc : bool) (hw : USDHC),
    (M < fuel)%nat ->
    (forall k, (k < M)%nat ->
       in_time start (after (mmc_poll arg) k (world hw)) /\
       mmc_poll_answered arg (after (mmc_poll arg) k (world hw)) /\
       busy_bit (after (mmc_poll arg) (S k) (world hw)) = 0) ->
    ~ in_time start (after (mmc_poll arg) M (world hw)) ->
    voltageValidationMMC_loop fuel start arg hc hw
    = (Ret (false, false),
       set_world hw (after (mmc_poll arg) M (world hw)),
       mmc_polls arg M).
Proof.
  induction M as [|M IH]; intros fuel start arg hc hw Hfuel Hpolls Hexp;
    (destruct fuel as [|fuel]; [lia|]).
  - pose proof (not_in_time_leb _ _ Hexp) as Ht. cbn [after] in Ht.
    open_hw hw. cbn [voltageValidationMMC_loop after]. mrun.
    change MMC_DETECT_TIMEOUT with SD_DETECT_TIMEOUT.
    rewrite Ht. reflexivity.
  - destruct (Hpolls 0%nat ltac:(lia)) as (Ht0 & Hans & Hb0).
    apply in_time_leb in Ht0.
    pose proof (mmc_poll_eqs _ _ Hans) as E1.
    cbn [after] in Ht0, E1, Hb0. unfold busy_bit in Hb0.
    specialize (IH fuel start arg hc (set_world hw (mmc_poll arg (world hw)))
                  ltac:(lia)).
    cbn [world set_world] in IH.
    specialize (IH (fun k Hk => Hpolls (S k) ltac:(lia)) Hexp).
    change (after (mmc_poll arg) (S M) (world hw))
      with (after (mmc_poll arg) M (mmc_poll arg (world hw))).
    open_hw hw. cbn [voltageValidationMMC_loop]. mrun.
    change MMC_DETECT_TIMEOUT with SD_DETECT_TIMEOUT.
    change MMC_OCR_BUSY with SD_OCR_BUSY.
    rewrite Ht0, E1. mrun.
    rewrite (proj2 (Z.eqb_eq _ _) Hb0).
    unfold set_world in IH. cbn [n width rca card world] in IH.
    rewrite IH. reflexivity.
Qed.

(** Counting commands. *)
Lemma count_cmd_app (index : Z) (l1 l2 : list (Event HwErr)) :
  count_cmd index (l1 ++ l2) = (count_cmd index l1 + count_cmd index l2)%nat.
Proof. unfold count_cmd. rewrite filter_app, length_app. reflexivity. Qed.

Lemma count_sd_polls (arg : Z) (k : nat) :
  count_cmd 55 (sd_polls arg k) = k /\ count_cmd 41 (sd_polls arg k) = k.
Proof.
  induction k as [|k [IH55 IH41]]; [split; reflexivity|].
  change (sd_polls arg (S k))
    with ([ECmd 55 READ 0 RSP_48 true true false 0 None;
           ECmd 41 READ arg RSP_48 false false false 0 None]
          ++ sd_polls arg k).
  rewrite !count_cmd_app, IH55, IH41. split; reflexivity.
Qed.

Lemma count_mmc_polls (arg : Z) (k : nat) :
  count_cmd 1 (mmc_polls arg k) = k.
Proof.
  induction k as [|k IH]; [reflexivity|].
  change (mmc_polls arg (S k))
    with ([ECmd 1 READ arg RSP_48 false false false 0 None] ++ mmc_polls arg k).
  rewrite count_cmd_app, IH. reflexivity.
Qed.

(** The CMD8 probe always returns, and asks for nothing but CMD8. *)
Lemma probe_returns (hw : USDHC) :
  exists arg hc w evs,
    voltageValidationSD_probe hw = (Ret (arg, hc), set_world hw w, evs) /\
    Forall (fun e => is_cmd 8 e = true) evs.
Proof.
  open_hw hw. unfold voltageValidationSD_probe, cmd8_echoes. mrun.
  set (a1 := bits.SetN _ CMD8_ARG_CHECK_PATTERN 255 CHECK_PATTERN).
  set (a2 := Z.lor _ CHECK_PATTERN).
  destruct (hw_cmd 8 READ a1 RSP_48 true true false 0 hworld) as [[e1|] w1];
    mrun.
  - destruct (hw_cmd 8 READ a2 RSP_48 true true false 0 w1) as [[e2|] w2];
      mrun.
    + do 4 eexists. split; [reflexivity|]. repeat constructor.
    + destruct (hw_rsp 0 w2 =? a2); mrun;
        (do 4 eexists; split; [reflexivity|]; repeat constructor).
  - destruct (hw_rsp 0 w1 =? a1); mrun.
    + do 4 eexists. split; [reflexivity|]. repeat constructor.
    + destruct (hw_cmd 8 READ a2 RSP_48 true true false 0 w1) as [[e2|] w2];
        mrun.
      * do 4 eexists. split; [reflexivity|]. repeat constructor.
      * destruct (hw_rsp 0 w2 =? a2); mrun;
          (do 4 eexists; split; [reflexivity|]; repeat constructor).
Qed.

Lemma count_other (i j : Z) (evs : list (Event HwErr)) :
  i <> j -> Forall (fun e => is_cmd i e = true) evs -> count_cmd j evs = 0%nat.
Proof.
  intros Hij Hall. induction Hall as [|e evs He Hall IH]; [reflexivity|].
  unfold count_cmd in *. cbn [filter].
  destruct e; cbn [is_cmd] in *; try discriminate.
  apply Z.eqb_eq in He. subst index.
  rewrite (proj2 (Z.eqb_neq i j) Hij). exact IH.
Qed.

(** The whole of voltageValidationSD, from the run of its probe. *)
Lemma voltageValidationSD_unfold (fuel : nat) (hw hw0 : USDHC) (arg : Z)
    (hc : bool) (evs0 : list (Event HwErr)) :
  voltageValidationSD_probe hw = (Ret (arg, hc), hw0, evs0) ->
  voltageValidationSD fuel hw
  = let r := voltageValidationSD_loop fuel (hw_now (world hw0)) arg hc hw0 in
    (result r, final r, evs0 ++ events r).
Proof.
  intros Hp. unfold voltageValidationSD. unfold bind at 1. rewrite Hp.
  unfold bind, now. cbn [fst snd app].
  destruct (voltageValidationSD_loop fuel (hw_now (world hw0)) arg hc hw0)
    as [[o h] t].
  reflexivity.
Qed.

Lemma voltageValidationMMC_unfold (fuel : nat) (hw : USDHC) :
  voltageValidationMMC fuel hw
  = voltageValidationMMC_loop fuel
      (hw_now (hw_sleep (1 * Millisecond) (world hw))) 1090486272 false
      (set_world hw (hw_sleep (1 * Millisecond) (world hw))).
Proof.
  unfold voltageValidationMMC, bind, sleep, now. cbn [fst snd app].
  change (bits.SetN (bits.SetN 0 MMC_OCR_ACCESS_MODE 3 ACCESS_MODE_SECTOR)
            MMC_OCR_VDD_HV_MIN 511 511) with 1090486272.
  destruct (voltageValidationMMC_loop _ _ _ _ _) as [[o h] t].
  reflexivity.
Qed.

(** C5.  Let the operating-condition response report the busy bit clear on
    the first [N] polls and set on poll [N+1], every poll being answered
    and iteration [N+1] starting within the one-second deadline measured
    from loop entry.  Then voltageValidationSD returns success having
    issued exactly [N+1] CMD55 and [N+1] ACMD41 commands, and
    voltageValidationMMC returns success having issued exactly [N+1] CMD1
    commands.  If instead the deadline has passed when iteration [M+1]
    starts, the busy bit not having been seen set in the [M] polls before,
    both return [(false, false)].  [fuel] only has to exceed the number of
    polls. *)
Theorem ocr_polling (N M fuel : nat) (hw : USDHC) :
  (N < fuel)%nat -> (M < fuel)%nat ->
  (forall arg hc hw0 evs0,
      voltageValidationSD_probe hw = (Ret (arg, hc), hw0, evs0) ->
      (forall k, (k <= N)%nat ->
         sd_poll_answered arg (after (sd_poll arg) k (world hw0))) ->
      (forall k, (k < N)%nat ->
         busy_bit (after (sd_poll arg) (S k) (world hw0)) = 0) ->
      busy_bit (after (sd_poll arg) (S N) (world hw0)) <> 0 ->
      in_time (hw_now (world hw0)) (after (sd_poll arg) N (world hw0)) ->
      let r := voltageValidationSD fuel hw in
      (exists hc', result r = Ret (true, hc')) /\
      events r = evs0 ++ sd_polls arg (S N) /\
      count_cmd 55 (events r) = S N /\ count_cmd 41 (events r) = S N) /\
  (let arg := 1090486272 in
   let w0 := hw_sleep (1 * Millisecond) (world hw) in
   (forall k, (k <= N)%nat ->
      mmc_poll_answered arg (after (mmc_poll arg) k w0)) ->
   (forall k, (k < N)%nat ->
      busy_bit (after (mmc_poll arg) (S k) w0) = 0) ->
   busy_bit (after (mmc_poll arg) (S N) w0) <> 0 ->
   in_time (hw_now w0) (after (mmc_poll arg) N w0) ->
   let r := voltageValidationMMC fuel hw in
   (exists hc', result r = Ret (true, hc')) /\
   events r = mmc_polls arg (S N) /\
   count_cmd 1 (events r) = S N) /\
  (forall arg hc hw0 evs0,
      voltageValidationSD_probe hw = (Ret (arg, hc), hw0, evs0) ->
      (forall k, (k < M)%nat ->
         in_time (hw_now (world hw0)) (after (sd_poll arg) k (world hw0)) /\
         sd_poll_answered arg (after (sd_poll arg) k (world hw0)) /\
         busy_bit (after (sd_poll arg) (S k) (world hw0)) = 0) ->
      ~ in_time (hw_now (world hw0)) (after (sd_poll arg) M (world hw0)) ->
      let r := voltageValidationSD fuel hw in
      result r = Ret (false, false) /\
      count_cmd 55 (events r) = M /\ count_cmd 41 (events r) = M) /\
  (let arg := 1090486272 in
   let w0 := hw_sleep (1 * Millisecond) (world hw) in
   (forall k, (k < M)%nat ->
      in_time (hw_now w0) (after (mmc_poll arg) k w0) /\
      mmc_poll_answered arg (after (mmc_poll arg) k w0) /\
      busy_bit (after (mmc_poll arg) (S k) w0) = 0) ->
   ~ in_time (hw_now w0) (after (mmc_poll arg) M w0) ->
   let r := voltageValidationMMC fuel hw in
   result r = Ret (false, false) /\ count_cmd 1 (events r) = M).
Proof.
  intros HN HM. repeat apply conj.
  - intros arg hc hw0 evs0 Hp Hans Hbusy Hready Htime r.
    destruct (probe_returns hw) as (arg' & hc' & w' & evs' & Hp' & H8).
    rewrite Hp in Hp'. injection Hp' as -> -> -> ->.
    subst r. rewrite (voltageValidationSD_unfold fuel hw _ _ _ _ Hp). cbv zeta.
    rewrite (sd_loop_ready N fuel (hw_now (world (set_world hw w'))) arg' hc'
               (set_world hw w') HN); try assumption.
    + cbn [result final events fst snd].
      destruct (count_sd_polls arg' (S N)) as [C55 C41].
      repeat split.
      * eexists. reflexivity.
      * rewrite count_cmd_app, C55, (count_other 8 55 evs') by (assumption || lia).
        reflexivity.
      * rewrite count_cmd_app, C41, (count_other 8 41 evs') by (assumption || lia).
        reflexivity.
    + intros k Hk.
      apply (in_time_earlier (sd_poll arg') _ (sd_poll_monotone arg') k N _ Hk).
      exact Htime.
  - intros arg w0 Hans Hbusy Hready Htime r.
    subst r arg w0. rewrite voltageValidationMMC_unfold.
    rewrite (mmc_loop_ready N fuel _ _ false (set_world hw _) HN);
      try assumption.
    + cbn [result final events fst snd]. repeat split.
      * eexists. reflexivity.
      * apply count_mmc_polls.
    + intros k Hk.
      apply (in_time_earlier (mmc_poll _) _ (mmc_poll_monotone _) k N _ Hk).
      exact Htime.
  - intros arg hc hw0 evs0 Hp Hpolls Hexp r.
    destruct (probe_returns hw) as (arg' & hc' & w' & evs' & Hp' & H8).
    rewrite Hp in Hp'. injection Hp' as -> -> -> ->.
    subst r. rewrite (voltageValidationSD_unfold fuel hw _ _ _ _ Hp). cbv zeta.
    rewrite (sd_loop_expired M fuel (hw_now (world (set_world hw w'))) arg' hc'
               (set_world hw w') HM); try assumption.
    cbn [result final events fst snd].
    destruct (count_sd_polls arg' M) as [C55 C41].
    repeat split.
    + rewrite count_cmd_app, C55, (count_other 8 55 evs') by (assumption || lia).
      reflexivity.
    + rewrite count_cmd_app, C41, (count_other 8 41 evs') by (assumption || lia).
      reflexivity.
  - intros arg w0 Hpolls Hexp r.
    subst r arg w0. rewrite voltageValidationMMC_unfold.
    rewrite (mmc_loop_expired M fuel _ _ false (set_world hw _) HM);
      try assumption.
    cbn [result final events fst snd]. split; [reflexivity|].
    apply count_mmc_polls.
Qed.

(** *** The stages put together *)

Ltac explore :=
  repeat first
    [ reflexivity
    | match goal with
      | |- context [hw_cmd ?a ?b ?c ?d ?e ?f ?g ?h ?w] =>
          destruct (hw_cmd a b c d e f g h w) as [[?|] ?] eqn:?; mrun
      | |- context [hw_waitState ?a ?b ?w] =>
          destruct (hw_waitState a b w) as [[?|] ?] eqn:?; mrun
      | |- context [hw_transfer ?a ?b ?c ?d ?e ?f ?w] =>
          destruct (hw_transfer a b c d e f w) as [[[?|] ?] ?] eqn:?; mrun
      | |- context [if ?c then _ else _] =>
          destruct c eqn:?; mrun
      | |- context [match ?c with Some _ => _ | None => _ end] =>
          destruct c eqn:?; mrun
      end ].

Lemma initSD_stages (hw : USDHC) :
  initSD arch hw = (initSD_setup arch ;;; initSD_negotiate) hw.
Proof.
  open_hw hw.
  unfold initSD, initSD_setup, initSD_negotiate, detectCapacitySD. mrun.
  explore.
Qed.

Lemma initMMC_stages (hw : USDHC) :
  initMMC arch hw
  = (f <- initMMC_identify ;;
     bus_width <- initMMC_bus_width ;;
     detectCapacityMMC arch MMC_DEFAULT_BLOCK_SIZE
       (fst (fst (fst f))) (snd (fst (fst f))) (snd (fst f)) ;;;
     if snd f <? 4 then ret tt else initMMC_upgrade bus_width) hw.
Proof.
  open_hw hw.
  unfold initMMC, initMMC_identify, initMMC_bus_width, initMMC_upgrade,
    detectCapacityMMC, writeCardRegisterMMC. mrun.
  explore.
Qed.

(** *** High speed on SD *)

Ltac branches :=
  repeat match goal with
    | |- context [hw_cmd ?a ?b ?c ?d ?e ?f ?g ?h ?w] =>
        destruct (hw_cmd a b c d e f g h w) as [[?|] ?] eqn:?; mrun
    | |- context [hw_waitState ?a ?b ?w] =>
        destruct (hw_waitState a b w) as [[?|] ?] eqn:?; mrun
    | |- context [hw_transfer ?a ?b ?c ?d ?e ?f ?w] =>
        destruct (hw_transfer a b c d e f w) as [[[?|] ?] ?] eqn:?; mrun
    | |- context [if negb ?c then _ else _] =>
        destruct c eqn:?; cbn [negb]; mrun
    | |- context [if ?c then _ else _] =>
        destruct c eqn:?; mrun
    | |- context [match ?c with Some _ => _ | None => _ end] =>
        destruct c eqn:?; mrun
    end.

(** C3.  In initSD the descriptor's high-speed flag is set exactly when the
    CMD6 mode switch itself succeeded: the flag after the call is the flag
    before it or-ed with "a successful CMD6 with the switch argument was
    issued", so on a fresh descriptor it is true if and only if that
    command returned success.  When the 500 ms wait for the Transfer state
    that follows fails, its error is what initSD returns, the flag is set
    all the same, and the run ends with the clock cleared and reprogrammed
    to the high-speed divisor. *)
Theorem initSD_high_speed_flag (hw : USDHC) :
  let r := initSD arch hw in
  let switched :=
    existsb (fun e => is_cmd6 SD_HS_SWITCH_ARG e && succeeded e) (events r) in
  HS (card (final r)) = HS (card hw) || switched /\
  (HS (card hw) = false -> (HS (card (final r)) = true <-> switched = true)) /\
  (existsb long_wait_failed (events r) = true ->
   exists e pre,
     result r = Throw (ErrHardware e) /\
     HS (card (final r)) = true /\
     switched = true /\
     events r = pre ++ [EWaitState CURRENT_STATE_TRAN (500 * Millisecond) (Some e);
                        ESetClock 0 0; ESetClock DVS_HS SDCLKFS_HS_SDR]).
Proof.
  intros r switched.
  assert (Hflag : HS (card (final r)) = HS (card hw) || switched /\
          (existsb long_wait_failed (events r) = true ->
           exists e pre,
             result r = Throw (ErrHardware e) /\
             HS (card (final r)) = true /\
             switched = true /\
             events r = pre ++ [EWaitState CURRENT_STATE_TRAN (500 * Millisecond) (Some e);
                                ESetClock 0 0; ESetClock DVS_HS SDCLKFS_HS_SDR])).
  { subst switched r. open_hw hw. destruct hcard as [bs bl hs ddr].
    unfold initSD, detectCapacitySD. mrun. branches.
    all: destruct hs; cbn; (split; [reflexivity|]); intros H; try discriminate H.
    all: eexists;
      match goal with
      | |- exists pre, _ /\ _ /\ _ /\ ?l = _ => exists (firstn 10 l)
      end; repeat split; reflexivity. }
  destruct Hflag as [Hhs Hwait]. split; [exact Hhs|]. split; [|exact Hwait].
  intros Hfresh. rewrite Hhs, Hfresh. reflexivity.
Qed.

(** *** Bus width *)

Lemma bind_run {A B} (m : M A) (f : A -> M B) (hw hw1 : USDHC) (a : A)
    (evs : list (Event HwErr)) :
  m hw = (Ret a, hw1, evs) ->
  bind m f hw
  = (result (f a hw1), final (f a hw1), evs ++ events (f a hw1)).
Proof.
  intros Hm. unfold bind, result, final, events. rewrite Hm.
  destruct (f a hw1) as [[o h] t]. reflexivity.
Qed.

(** What the stages before the bus-width step leave alone. *)
Lemma initSD_setup_frame (hw hw1 : USDHC) (o : outcome HwErr unit)
    (evs : list (Event HwErr)) :
  initSD_setup arch hw = (o, hw1, evs) ->
  width hw1 = width hw /\ HS (card hw1) = HS (card hw) /\
  DDR (card hw1) = DDR (card hw).
Proof.
  open_hw hw. destruct hcard as [bs bl hs ddr].
  unfold initSD_setup, detectCapacitySD. mrun. branches.
  all: intros H; injection H as <- <- <-; repeat split.
Qed.

Lemma initMMC_identify_frame (hw hw1 : USDHC) (o : outcome HwErr (Z * Z * Z * Z))
    (evs : list (Event HwErr)) :
  initMMC_identify hw = (o, hw1, evs) ->
  width hw1 = width hw /\ card hw1 = card hw.
Proof.
  open_hw hw.
  unfold initMMC_identify. mrun. branches.
  all: intros H; injection H as <- <- <-; repeat split.
Qed.

(** C6 (as amended).  initSD maps the configured width 1 to the ACMD6
    argument 0b00 and 4 to 0b10; initMMC maps 4 to the BUS_WIDTH value 1
    and 8 to 2.  For every other width, a call that has come as far as the
    bus-width step returns the unsupported-width error and asks nothing
    more of the controller.  initMMC then leaves the card descriptor as it
    was before the call; initSD leaves the speed flags as they were (block
    size and block count were written by the capacity decoding before). *)
Theorem bus_width_mapping (hw : USDHC) :
  (forall hw1 evs,
      initSD_setup arch hw = (Ret tt, hw1, evs) ->
      let r := initSD arch hw in
      (width hw = 1 ->
       exists res rest,
         events r = evs ++ ECmd 6 READ 0 RSP_48 true true false 0 res :: rest) /\
      (width hw = 4 ->
       exists res rest,
         events r = evs ++ ECmd 6 READ 2 RSP_48 true true false 0 res :: rest) /\
      (width hw <> 1 -> width hw <> 4 ->
       r = (Throw ErrSDWidth, hw1, evs) /\
       HS (card hw1) = HS (card hw) /\ DDR (card hw1) = DDR (card hw))) /\
  (forall f hw1 evs,
      initMMC_identify hw = (Ret f, hw1, evs) ->
      let r := initMMC arch hw in
      (width hw = 4 ->
       exists res rest,
         events r = evs ++ ECmd 6 READ (ext_csd_write_arg EXT_CSD_BUS_WIDTH 1)
                             RSP_48 true true false 0 res :: rest) /\
      (width hw = 8 ->
       exists res rest,
         events r = evs ++ ECmd 6 READ (ext_csd_write_arg EXT_CSD_BUS_WIDTH 2)
                             RSP_48 true true false 0 res :: rest) /\
      (width hw <> 4 -> width hw <> 8 ->
       r = (Throw ErrMMCWidth, hw1, evs) /\ card hw1 = card hw)).
Proof.
  split.
  - intros hw1 evs Hsetup r.
    destruct (initSD_setup_frame hw hw1 _ evs Hsetup) as (Hw & Hhs & Hddr).
    subst r. rewrite initSD_stages, (bind_run _ _ hw hw1 tt evs Hsetup).
    rewrite <- Hw. clear Hsetup Hw. open_hw hw1.
    repeat split; try assumption.
    + intros ->. unfold initSD_negotiate. mrun.
      cbn [Z.eqb Pos.eqb]. mrun. change (u32 0) with 0.
      branches; do 2 eexists; reflexivity.
    + intros ->. unfold initSD_negotiate. mrun.
      cbn [Z.eqb Pos.eqb]. mrun. change (u32 2) with 2.
      branches; do 2 eexists; reflexivity.
    + unfold initSD_negotiate. mrun.
      rewrite (proj2 (Z.eqb_neq hwidth 1)), (proj2 (Z.eqb_neq hwidth 4))
        by assumption.
      mrun. f_equal. apply app_nil_r.
  - intros f hw1 evs Hid r.
    destruct (initMMC_identify_frame hw hw1 _ evs Hid) as (Hw & Hcard).
    subst r. rewrite initMMC_stages, (bind_run _ _ hw hw1 f evs Hid).
    rewrite <- Hw. clear Hid Hw. open_hw hw1. destruct f as [[[csm cs] rbl] ver].
    repeat split; try assumption.
    + intros ->.
      unfold initMMC_bus_width, initMMC_upgrade, detectCapacityMMC,
        writeCardRegisterMMC. mrun. cbn [Z.eqb Pos.eqb]. mrun.
      change (bits.SetN (bits.SetN (bits.SetN 0 MMC_SWITCH_ACCESS 3
                ACCESS_WRITE_BYTE) MMC_SWITCH_INDEX 255 EXT_CSD_BUS_WIDTH)
                MMC_SWITCH_VALUE 255 1)
        with (ext_csd_write_arg EXT_CSD_BUS_WIDTH 1).
      destruct (hw_cmd 6 READ (ext_csd_write_arg EXT_CSD_BUS_WIDTH 1) RSP_48
                  true true false 0 hworld) as [[e|] w] eqn:E6; mrun.
      * do 2 eexists. reflexivity.
      * branches; do 2 eexists; reflexivity.
    + intros ->.
      unfold initMMC_bus_width, initMMC_upgrade, detectCapacityMMC,
        writeCardRegisterMMC. mrun. cbn [Z.eqb Pos.eqb]. mrun.
      change (bits.SetN (bits.SetN (bits.SetN 0 MMC_SWITCH_ACCESS 3
                ACCESS_WRITE_BYTE) MMC_SWITCH_INDEX 255 EXT_CSD_BUS_WIDTH)
                MMC_SWITCH_VALUE 255 2)
        with (ext_csd_write_arg EXT_CSD_BUS_WIDTH 2).
      destruct (hw_cmd 6 READ (ext_csd_write_arg EXT_CSD_BUS_WIDTH 2) RSP_48
                  true true false 0 hworld) as [[e|] w] eqn:E6; mrun.
      * do 2 eexists. reflexivity.
      * branches; do 2 eexists; reflexivity.
    + unfold initMMC_bus_width. mrun.
      rewrite (proj2 (Z.eqb_neq hwidth 4)), (proj2 (Z.eqb_neq hwidth 8))
        by assumption.
      mrun. f_equal. apply app_nil_r.
Qed.

(** *** The eMMC stages *)

Lemma ext_csd_writes_app (reg : Z) (l1 l2 : list (Event HwErr)) :
  ext_csd_writes reg (l1 ++ l2)
  = ext_csd_writes reg l1 ++ ext_csd_writes reg l2.
Proof.
  induction l1 as [|e l1 IH]; [reflexivity|].
  cbn [app ext_csd_writes]. destruct (ext_csd_write reg e); rewrite IH;
    reflexivity.
Qed.

Lemma no_cmd6_no_write (reg : Z) (evs : list (Event HwErr)) :
  Forall (fun e => is_cmd 6 e = false) evs -> ext_csd_writes reg evs = [].
Proof.
  intros Hall. induction Hall as [|e evs He Hall IH]; [reflexivity|].
  cbn [ext_csd_writes]. destruct e; cbn [is_cmd ext_csd_write] in *;
    try exact IH.
  rewrite He. cbn [andb]. exact IH.
Qed.

Lemma initMMC_identify_events (hw hw1 : USDHC)
    (o : outcome HwErr (Z * Z * Z * Z)) (evs : list (Event HwErr)) :
  initMMC_identify hw = (o, hw1, evs) ->
  Forall (fun e => is_cmd 6 e = false) evs.
Proof.
  open_hw hw.
  unfold initMMC_identify. mrun. branches.
  all: intros H; injection H as <- <- <-; repeat constructor.
Qed.

Lemma initMMC_bus_width_facts (hw1 hw2 : USDHC) (o : outcome HwErr Z)
    (evs : list (Event HwErr)) :
  initMMC_bus_width hw1 = (o, hw2, evs) ->
  card hw2 = card hw1 /\ width hw2 = width hw1 /\
  ext_csd_writes EXT_CSD_HS_TIMING evs = [] /\
  (ext_csd_writes EXT_CSD_BUS_WIDTH evs = [] \/
   (width hw1 = 4 /\ ext_csd_writes EXT_CSD_BUS_WIDTH evs = [1]) \/
   (width hw1 = 8 /\ ext_csd_writes EXT_CSD_BUS_WIDTH evs = [2])) /\
  (forall bw, o = Ret bw ->
     ((width hw1 = 4 /\ bw = 1) \/ (width hw1 = 8 /\ bw = 2)) /\
     ext_csd_writes EXT_CSD_BUS_WIDTH evs = [bw]).
Proof.
  open_hw hw1.
  unfold initMMC_bus_width, writeCardRegisterMMC. mrun. branches.
  all: intros H; injection H as <- <- <-.
  all: repeat match goal with
         | H : (_ =? _) = true |- _ => apply Z.eqb_eq in H; subst
         end.
  all: repeat apply conj; try reflexivity; try (intros bw Hbw; discriminate Hbw).
  all: try (left; reflexivity).
  all: try (right; left; split; reflexivity).
  all: try (right; right; split; reflexivity).
  all: intros bw Hbw; injection Hbw as <-; split;
    [ (left; split; reflexivity) || (right; split; reflexivity) | reflexivity ].
Qed.

Lemma detectCapacityMMC_frame (bs csm cs rbl : Z) (hw2 hw3 : USDHC)
    (o : outcome HwErr unit) (evs : list (Event HwErr)) :
  detectCapacityMMC arch bs csm cs rbl hw2 = (o, hw3, evs) ->
  HS (card hw3) = HS (card hw2) /\ DDR (card hw3) = DDR (card hw2) /\
  width hw3 = width hw2 /\
  Forall (fun e => is_cmd 6 e = false) evs.
Proof.
  open_hw hw2. destruct hcard as [b0 b1 hs ddr].
  unfold detectCapacityMMC. mrun. branches.
  all: intros H; injection H as <- <- <-; repeat split; repeat constructor.
Qed.

Lemma initMMC_upgrade_facts (bw : Z) (hw3 hw4 : USDHC)
    (o : outcome HwErr unit) (evs : list (Event HwErr)) :
  initMMC_upgrade bw hw3 = (o, hw4, evs) ->
  (width hw3 = 4 ->
   ext_csd_writes EXT_CSD_BUS_WIDTH evs = [] \/
   ext_csd_writes EXT_CSD_BUS_WIDTH evs = [5]) /\
  (width hw3 = 8 ->
   ext_csd_writes EXT_CSD_BUS_WIDTH evs = [] \/
   ext_csd_writes EXT_CSD_BUS_WIDTH evs = [6]).
Proof.
  open_hw hw3.
  unfold initMMC_upgrade, writeCardRegisterMMC. mrun. branches.
  all: intros H; injection H as <- <- <-.
  all: repeat match goal with
         | H : (_ =? _) = true |- _ => apply Z.eqb_eq in H; subst
         | H : (_ =? _) = false |- _ => apply Z.eqb_neq in H
         end.
  all: split; intros Hw; try congruence; try discriminate Hw;
    try (left; reflexivity); try (right; reflexivity).
Qed.

Lemma events_bind {A B} (m : M A) (f : A -> M B) (hw : USDHC) :
  events (bind m f hw)
  = events (m hw)
    ++ match result (m hw) with
       | Ret a => events (f a (final (m hw)))
       | _ => []
       end.
Proof.
  unfold bind, events, result, final.
  destruct (m hw) as [[[a| | |] hw1] t1]; cbn [fst snd];
    try (symmetry; apply app_nil_r).
  destruct (f a hw1) as [[o2 hw2] t2]. reflexivity.
Qed.

(** C10.  The values initMMC writes to the BUS_WIDTH byte of the Extended
    CSD, in order, are: nothing; or, with the configured width 4, the value
    1, then possibly 5; or, with the configured width 8, the value 2, then
    possibly 6.  So a second write happens only with width 4 or 8, and it
    carries the dual-data-rate code of that width, never the single-rate
    code written before. *)
Theorem initMMC_bus_width_writes (hw : USDHC) :
  let ws := ext_csd_writes EXT_CSD_BUS_WIDTH (events (initMMC arch hw)) in
  ws = [] \/
  (width hw = 4 /\ (ws = [1] \/ ws = [1; 5])) \/
  (width hw = 8 /\ (ws = [2] \/ ws = [2; 6])).
Proof.
  intros ws. subst ws. rewrite initMMC_stages.
  destruct (initMMC_identify hw) as [[o1 hw1] evs1] eqn:H1.
  destruct (initMMC_identify_frame _ _ _ _ H1) as (Hw1 & Hc1).
  pose proof (no_cmd6_no_write EXT_CSD_BUS_WIDTH _
                (initMMC_identify_events _ _ _ _ H1)) as He1.
  rewrite events_bind, H1. cbn [events result final fst snd].
  rewrite ext_csd_writes_app, He1. cbn [app].
  destruct o1 as [f| | |]; [|left; reflexivity ..].
  destruct (initMMC_bus_width hw1) as [[o2 hw2] evs2] eqn:H2.
  destruct (initMMC_bus_width_facts _ _ _ _ H2) as (Hc2 & Hw2 & _ & Hd2 & Hbw).
  rewrite events_bind, H2. cbn [events result final fst snd].
  rewrite ext_csd_writes_app. rewrite Hw1 in *.
  destruct o2 as [bw| | |];
    [| rewrite app_nil_r;
       destruct Hd2 as [->|[[Hw ->]|[Hw ->]]]; auto ..].
  destruct (Hbw bw eq_refl) as [Hcase Hwr]. rewrite Hwr. clear Hd2 Hbw.
  set (cap := detectCapacityMMC arch MMC_DEFAULT_BLOCK_SIZE _ _ _).
  destruct (cap hw2) as [[o3 hw3] evs3] eqn:H3.
  destruct (detectCapacityMMC_frame _ _ _ _ _ _ _ _ H3) as (_ & _ & Hw3 & Hn3).
  pose proof (no_cmd6_no_write EXT_CSD_BUS_WIDTH _ Hn3) as He3.
  rewrite events_bind, H3. cbn [events result final fst snd].
  rewrite ext_csd_writes_app, He3. cbn [app].
  destruct o3 as [[]| | |];
    [| destruct Hcase as [[Hw ->]|[Hw ->]]; auto ..].
  destruct (snd f <? 4).
  - destruct Hcase as [[Hw ->]|[Hw ->]]; auto.
  - destruct (initMMC_upgrade bw hw3) as [[o4 hw4] evs4] eqn:H4.
    destruct (initMMC_upgrade_facts _ _ _ _ _ H4) as (U4 & U8).
    cbn [events snd]. rewrite Hw3, Hw2 in U4, U8.
    destruct Hcase as [[Hw ->]|[Hw ->]].
    + destruct (U4 Hw) as [->| ->]; auto.
    + destruct (U8 Hw) as [->| ->]; auto 6.
Qed.

Lemma final_bind {A B} (m : M A) (f : A -> M B) (hw : USDHC) :
  final (bind m f hw)
  = match result (m hw) with
    | Ret a => final (f a (final (m hw)))
    | _ => final (m hw)
    end.
Proof.
  unfold bind, events, result, final.
  destruct (m hw) as [[[a| | |] hw1] t1]; cbn [fst snd]; try reflexivity.
  destruct (f a hw1) as [[o2 hw2] t2]. reflexivity.
Qed.

Ltac no_upgrade H :=
  exfalso; unfold final, events, result, ret in H;
  cbn [fst snd ext_csd_writes app length] in H; rewrite ?app_nil_r in H;
  destruct H as [H|[H|[H|H]]]; [congruence | lia | congruence | congruence].

(** C4.  Once identification, the bus-width switch and the capacity
    decoding have succeeded, initMMC with a specification version below 4
    returns nil there and then: the ddr and high_speed flags are as before
    the call, no HS_TIMING write and no second BUS_WIDTH write has been
    issued.  With a version of 4 or more the next thing it asks of the
    controller is the HS_TIMING write.  And whenever a run of initMMC
    issues an HS_TIMING write or a second BUS_WIDTH write, or changes one
    of the two flags, the version read from the CSD was 4 or more. *)
Theorem initMMC_version_gate (hw : USDHC) :
  let r := initMMC arch hw in
  (forall csm cs rbl ver hw1 evs1 bw hw2 evs2 hw3 evs3,
      initMMC_identify hw = (Ret (csm, cs, rbl, ver), hw1, evs1) ->
      initMMC_bus_width hw1 = (Ret bw, hw2, evs2) ->
      detectCapacityMMC arch MMC_DEFAULT_BLOCK_SIZE csm cs rbl hw2
      = (Ret tt, hw3, evs3) ->
      (ver < 4 ->
       r = (Ret tt, hw3, evs1 ++ evs2 ++ evs3) /\
       DDR (card hw3) = DDR (card hw) /\ HS (card hw3) = HS (card hw) /\
       ext_csd_writes EXT_CSD_HS_TIMING (events r) = [] /\
       length (ext_csd_writes EXT_CSD_BUS_WIDTH (events r)) = 1%nat) /\
      (4 <= ver ->
       exists res rest,
         events r
         = evs1 ++ evs2 ++ evs3
           ++ ECmd 6 READ (ext_csd_write_arg EXT_CSD_HS_TIMING HS_TIMING_HS)
                RSP_48 true true false 0 res :: rest)) /\
  (ext_csd_writes EXT_CSD_HS_TIMING (events r) <> [] \/
   (2 <= length (ext_csd_writes EXT_CSD_BUS_WIDTH (events r)))%nat \/
   DDR (card (final r)) <> DDR (card hw) \/
   HS (card (final r)) <> HS (card hw) ->
   exists csm cs rbl ver hw1 evs1,
     initMMC_identify hw = (Ret (csm, cs, rbl, ver), hw1, evs1) /\ 4 <= ver).
Proof.
  intros r. split.
  - intros csm cs rbl ver hw1 evs1 bw hw2 evs2 hw3 evs3 H1 H2 H3.
    destruct (initMMC_identify_frame _ _ _ _ H1) as (Hw1 & Hc1).
    pose proof (initMMC_identify_events _ _ _ _ H1) as Hn1.
    destruct (initMMC_bus_width_facts _ _ _ _ H2) as (Hc2 & Hw2 & Hh2 & _ & Hbw).
    destruct (Hbw bw eq_refl) as [_ Hwr].
    destruct (detectCapacityMMC_frame _ _ _ _ _ _ _ _ H3) as (Hhs3 & Hddr3 & _ & Hn3).
    assert (Hr : r = let r3 := (if ver <? 4 then ret tt
                                else initMMC_upgrade bw) hw3 in
                     (result r3, final r3, evs1 ++ evs2 ++ evs3 ++ events r3)).
    { subst r. rewrite initMMC_stages.
      rewrite (bind_run _ _ hw hw1 _ evs1 H1). cbn [fst snd].
      rewrite (bind_run _ _ hw1 hw2 bw evs2 H2).
      rewrite (bind_run _ _ hw2 hw3 tt evs3 H3).
      cbn [result final events fst snd]. reflexivity. }
    pose proof (no_cmd6_no_write EXT_CSD_HS_TIMING _ Hn1) as E1h.
    pose proof (no_cmd6_no_write EXT_CSD_BUS_WIDTH _ Hn1) as E1b.
    pose proof (no_cmd6_no_write EXT_CSD_HS_TIMING _ Hn3) as E3h.
    pose proof (no_cmd6_no_write EXT_CSD_BUS_WIDTH _ Hn3) as E3b.
    split.
    + intros Hlt. rewrite Hr. rewrite (proj2 (Z.ltb_lt ver 4) Hlt).
      cbv zeta. unfold ret at 1 2 3 4 5.
      cbn [result final events fst snd]. rewrite app_nil_r.
      repeat split.
      * congruence.
      * congruence.
      * rewrite !ext_csd_writes_app, E1h, Hh2, E3h. reflexivity.
      * rewrite !ext_csd_writes_app, E1b, Hwr, E3b. reflexivity.
    + intros Hge. rewrite Hr. rewrite (proj2 (Z.ltb_ge ver 4) Hge).
      cbv zeta. cbn [events snd].
      assert (Hup : exists res rest,
                 events (initMMC_upgrade bw hw3)
                 = ECmd 6 READ (ext_csd_write_arg EXT_CSD_HS_TIMING HS_TIMING_HS)
                     RSP_48 true true false 0 res :: rest).
      { clear. open_hw hw3.
        unfold initMMC_upgrade, writeCardRegisterMMC. mrun.
        change (bits.SetN (bits.SetN (bits.SetN 0 MMC_SWITCH_ACCESS 3
                  ACCESS_WRITE_BYTE) MMC_SWITCH_INDEX 255 EXT_CSD_HS_TIMING)
                  MMC_SWITCH_VALUE 255 HS_TIMING_HS)
          with (ext_csd_write_arg EXT_CSD_HS_TIMING HS_TIMING_HS).
        branches; do 2 eexists; reflexivity. }
      destruct Hup as (res & rest & Hup).
      exists res, rest. unfold events in Hup |- *. rewrite Hup. reflexivity.
  - intros Hsome. subst r. rewrite initMMC_stages in Hsome.
    destruct (initMMC_identify hw) as [[o1 hw1] evs1] eqn:H1.
    destruct (initMMC_identify_frame _ _ _ _ H1) as (Hw1 & Hc1).
    pose proof (initMMC_identify_events _ _ _ _ H1) as Hn1.
    pose proof (no_cmd6_no_write EXT_CSD_HS_TIMING _ Hn1) as E1h.
    pose proof (no_cmd6_no_write EXT_CSD_BUS_WIDTH _ Hn1) as E1b.
    rewrite events_bind, final_bind, H1 in Hsome.
    cbn [events result final fst snd] in Hsome.
    rewrite !ext_csd_writes_app, E1h, E1b in Hsome. cbn [app] in Hsome.
    destruct o1 as [[[[csm cs] rbl] ver]| | |];
      [| no_upgrade Hsome ..].
    destruct (initMMC_bus_width hw1) as [[o2 hw2] evs2] eqn:H2.
    destruct (initMMC_bus_width_facts _ _ _ _ H2) as (Hc2 & Hw2 & Hh2 & Hd2 & Hbw).
    assert (Hlen2 : (length (ext_csd_writes EXT_CSD_BUS_WIDTH evs2) <= 1)%nat).
    { destruct Hd2 as [->|[[_ ->]|[_ ->]]]; cbn [length]; lia. }
    rewrite events_bind, final_bind, H2 in Hsome.
    cbn [events result final fst snd] in Hsome.
    rewrite !ext_csd_writes_app, Hh2 in Hsome. cbn [app] in Hsome.
    destruct o2 as [bw| | |];
      [| no_upgrade Hsome ..].
    set (cap := detectCapacityMMC arch MMC_DEFAULT_BLOCK_SIZE _ _ _) in Hsome.
    destruct (cap hw2) as [[o3 hw3] evs3] eqn:H3.
    destruct (detectCapacityMMC_frame _ _ _ _ _ _ _ _ H3)
      as (Hhs3 & Hddr3 & _ & Hn3).
    pose proof (no_cmd6_no_write EXT_CSD_HS_TIMING _ Hn3) as E3h.
    pose proof (no_cmd6_no_write EXT_CSD_BUS_WIDTH _ Hn3) as E3b.
    rewrite events_bind, final_bind, H3 in Hsome.
    cbn [events result final fst snd] in Hsome.
    rewrite !ext_csd_writes_app, E3h, E3b in Hsome. cbn [app] in Hsome.
    destruct o3 as [[]| | |];
      [| no_upgrade Hsome ..].
    destruct (ver <? 4) eqn:Hver.
    + unfold ret in Hsome. cbn [fst snd] in Hsome. no_upgrade Hsome.
    + apply Z.ltb_ge in Hver. exists csm, cs, rbl, ver, hw1, evs1.
      split; [reflexivity | exact Hver].
Qed.

(** *** Failures of the operating-condition loops *)

Lemma sd_loop_command_failure (fuel : nat) :
  forall (start arg : Z) (hc : bool) (hw : USDHC),
    Exists (fun e => cmd_failed 55 e \/ cmd_failed 41 e)
      (events (voltageValidationSD_loop fuel start arg hc hw)) ->
    result (voltageValidationSD_loop fuel start arg hc hw)
    = Ret (false, false).
Proof.
  induction fuel as [|fuel IH]; intros start arg hc hw.
  - cbn. intros H. inversion H.
  - open_hw hw. cbn [voltageValidationSD_loop]. mrun.
    destruct (hw_now hworld - start <=? SD_DETECT_TIMEOUT); mrun;
      [|reflexivity].
    destruct (hw_cmd 55 READ 0 RSP_48 true true false 0 hworld)
      as [[e1|] w1]; mrun; [reflexivity|].
    destruct (hw_cmd 41 READ arg RSP_48 false false false 0 w1)
      as [[e2|] w2]; mrun; [reflexivity|].
    destruct (bits.Get (hw_rsp 0 w2) SD_OCR_BUSY 1 =? 0); mrun.
    + specialize (IH start arg hc (mkUSDHC hn hwidth hrca hcard w2)).
      unfold result, events in IH.
      destruct (voltageValidationSD_loop fuel start arg hc
                  (mkUSDHC hn hwidth hrca hcard w2)) as [[o h] t].
      cbn [fst snd] in *. intros H.
      inversion H as [? ? Hhd|? ? Htl]; subst; [destruct Hhd as [[]|[]]|].
      inversion Htl as [? ? Hhd|? ? Htl']; subst; [destruct Hhd as [[]|[]]|].
      exact (IH Htl').
    + intros H.
      inversion H as [? ? Hhd|? ? Htl]; subst; [destruct Hhd as [[]|[]]|].
      inversion Htl as [? ? Hhd|? ? Htl']; subst; [destruct Hhd as [[]|[]]|].
      inversion Htl'.
Qed.

Lemma mmc_loop_command_failure (fuel : nat) :
  forall (start arg : Z) (hc : bool) (hw : USDHC),
    Exists (cmd_failed 1)
      (events (voltageValidationMMC_loop fuel start arg hc hw)) ->
    result (voltageValidationMMC_loop fuel start arg hc hw)
    = Ret (false, false).
Proof.
  induction fuel as [|fuel IH]; intros start arg hc hw.
  - cbn. intros H. inversion H.
  - open_hw hw. cbn [voltageValidationMMC_loop]. mrun.
    destruct (hw_now hworld - start <=? MMC_DETECT_TIMEOUT); mrun;
      [|reflexivity].
    destruct (hw_cmd 1 READ arg RSP_48 false false false 0 hworld)
      as [[e1|] w1]; mrun; [reflexivity|].
    destruct (bits.Get (hw_rsp 0 w1) MMC_OCR_BUSY 1 =? 0); mrun.
    + specialize (IH start arg hc (mkUSDHC hn hwidth hrca hcard w1)).
      unfold result, events in IH.
      destruct (voltageValidationMMC_loop fuel start arg hc
                  (mkUSDHC hn hwidth hrca hcard w1)) as [[o h] t].
      cbn [fst snd] in *. intros H.
      inversion H as [? ? Hhd|? ? Htl]; subst; [destruct Hhd|].
      exact (IH Htl).
    + intros H.
      inversion H as [? ? Hhd|? ? Htl]; subst; [destruct Hhd|].
      inversion Htl.
Qed.

(** C8 (as amended).  The two operating-condition loops report a deadline
    expiry and a command failure with the same value: when CMD55 or ACMD41
    (for eMMC: CMD1) fails inside the loop the function returns
    [(false, false)], and when the deadline has passed at the start of an
    iteration, the busy bit not having been seen set before, it returns
    [(false, false)] too. *)
Theorem ocr_failure_value (M fuel : nat) (hw : USDHC) :
  (M < fuel)%nat ->
  (let r := voltageValidationSD fuel hw in
   (Exists (fun e => cmd_failed 55 e \/ cmd_failed 41 e) (events r) ->
    result r = Ret (false, false)) /\
   (forall arg hc hw0 evs0,
       voltageValidationSD_probe hw = (Ret (arg, hc), hw0, evs0) ->
       (forall k, (k < M)%nat ->
          in_time (hw_now (world hw0)) (after (sd_poll arg) k (world hw0)) /\
          sd_poll_answered arg (after (sd_poll arg) k (world hw0)) /\
          busy_bit (after (sd_poll arg) (S k) (world hw0)) = 0) ->
       ~ in_time (hw_now (world hw0)) (after (sd_poll arg) M (world hw0)) ->
       result r = Ret (false, false) /\
       events r = evs0 ++ sd_polls arg M)) /\
  (let r := voltageValidationMMC fuel hw in
   (Exists (cmd_failed 1) (events r) -> result r = Ret (false, false)) /\
   (let arg := 1090486272 in
    let w0 := hw_sleep (1 * Millisecond) (world hw) in
    (forall k, (k < M)%nat ->
       in_time (hw_now w0) (after (mmc_poll arg) k w0) /\
       mmc_poll_answered arg (after (mmc_poll arg) k w0) /\
       busy_bit (after (mmc_poll arg) (S k) w0) = 0) ->
    ~ in_time (hw_now w0) (after (mmc_poll arg) M w0) ->
    result r = Ret (false, false) /\ events r = mmc_polls arg M)).
Proof.
  intros HM. split; intros r; split.
  - destruct (probe_returns hw) as (arg & hc & w & evs & Hp & H8).
    subst r. rewrite (voltageValidationSD_unfold fuel hw _ _ _ _ Hp). cbv zeta.
    cbn [result events fst snd]. intros Hex.
    apply Exists_app in Hex. destruct Hex as [Hex|Hex].
    + exfalso. clear Hp. induction H8 as [|e evs' He H8 IH8]; [inversion Hex|].
      inversion Hex as [? ? Hhd|? ? Htl]; subst; [|exact (IH8 Htl)].
      destruct e; cbn [is_cmd] in He; try discriminate.
      apply Z.eqb_eq in He. subst index.
      destruct result0; destruct Hhd as [Hh|Hh]; cbn in Hh;
        try contradiction; discriminate.
    + apply sd_loop_command_failure. exact Hex.
  - intros arg hc hw0 evs0 Hp Hpolls Hexp.
    subst r. rewrite (voltageValidationSD_unfold fuel hw _ _ _ _ Hp). cbv zeta.
    rewrite (sd_loop_expired M fuel _ _ _ _ HM Hpolls Hexp).
    cbn [result events fst snd]. split; reflexivity.
  - subst r. rewrite voltageValidationMMC_unfold.
    apply mmc_loop_command_failure.
  - intros arg w0 Hpolls Hexp. subst r arg w0.
    rewrite voltageValidationMMC_unfold.
    rewrite (mmc_loop_expired M fuel _ _ false (set_world hw _) HM);
      try assumption.
    split; reflexivity.
Qed.

(** *** Positive geometry *)

(** C9 (as amended).  A capacity decoding that completes without error
    leaves a positive block size whenever read_bl_len is at least 1 (SD,
    and eMMC with [c_size <= 0xff]) or the transfer block size is what is
    stored (eMMC with [c_size > 0xff]); it leaves a positive block count
    for SD version 0 and for eMMC with [c_size <= 0xff], for SD versions 1
    and 2 when [(c_size+1) * 1024] is below [2^(int_bits-1)], and for eMMC
    with [c_size > 0xff] when the sector count read from the Extended CSD
    is positive and below [2^(int_bits-1)]. *)
Theorem capacity_positive :
  (forall (bs : Z) (hw : USDHC) (w9 : World),
      hw_cmd 9 READ (rca hw) RSP_136 false true false 0 (world hw)
      = (None, w9) ->
      hw_rspVal SD_CSD_STRUCTURE 3 w9 <= 2 ->
      let ver := hw_rspVal SD_CSD_STRUCTURE 3 w9 in
      let read_bl_len := hw_rspVal SD_CSD_READ_BL_LEN_1 15 w9 in
      let c_size_1 := hw_rspVal SD_CSD_C_SIZE_2 4194303 w9 in
      let c_size_2 := hw_rspVal SD_CSD_C_SIZE_2 268435455 w9 in
      let r := detectCapacitySD arch bs hw in
      result r = Ret tt /\
      (1 <= read_bl_len -> 0 < BlockSize (card (final r))) /\
      (ver = 0 -> 0 < Blocks (card (final r))) /\
      (ver = 1 -> (c_size_1 + 1) * 1024 < 2 ^ (int_bits arch - 1) ->
       0 < Blocks (card (final r))) /\
      (ver = 2 -> (c_size_2 + 1) * 1024 < 2 ^ (int_bits arch - 1) ->
       0 < Blocks (card (final r)))) /\
  (forall (blockSize c_size_mult c_size read_bl_len : Z) (hw : USDHC),
      0 <= c_size_mult <= 7 -> 0 <= c_size <= 255 ->
      0 <= read_bl_len <= 15 ->
      let r :=
        detectCapacityMMC arch blockSize c_size_mult c_size read_bl_len hw in
      result r = Ret tt /\
      (1 <= read_bl_len -> 0 < BlockSize (card (final r))) /\
      0 < Blocks (card (final r))) /\
  (forall (blockSize c_size_mult c_size read_bl_len : Z) (hw : USDHC)
          (buf : list byte) (w' : World),
      255 < c_size -> 216 <= blockSize ->
      hw_transfer 8 READ 0 1 (u32 blockSize)
        (repeat x00 (Z.to_nat blockSize)) (world hw) = (None, buf, w') ->
      let sec_count :=
        byte_val (nth 212 buf x00) + 2 ^ 8 * byte_val (nth 213 buf x00)
        + 2 ^ 16 * byte_val (nth 214 buf x00)
        + 2 ^ 24 * byte_val (nth 215 buf x00) in
      let r :=
        detectCapacityMMC arch blockSize c_size_mult c_size read_bl_len hw in
      result r = Ret tt /\
      0 < BlockSize (card (final r)) /\
      (0 < sec_count < 2 ^ (int_bits arch - 1) ->
       0 < Blocks (card (final r)))).
Proof.
  repeat apply conj.
  - intros bs hw w9 Hcmd Hver ver rbl cs1 cs2 r.
    pose proof (hw_rspVal_masked SD_CSD_STRUCTURE 3 w9 ltac:(lia)) as Bver.
    pose proof (hw_rspVal_masked SD_CSD_READ_BL_LEN_1 15 w9 ltac:(lia)) as Brbl.
    pose proof (hw_rspVal_masked SD_CSD_C_SIZE_MULT_1 7 w9 ltac:(lia)) as Bcsm.
    pose proof (hw_rspVal_masked SD_CSD_C_SIZE_1 4095 w9 ltac:(lia)) as Bcs0.
    pose proof (hw_rspVal_masked SD_CSD_C_SIZE_2 4194303 w9 ltac:(lia)) as Bcs1.
    pose proof (hw_rspVal_masked SD_CSD_C_SIZE_2 268435455 w9 ltac:(lia)) as Bcs2.
    fold ver in Hver, Bver. fold rbl in Brbl. fold cs1 in Bcs1. fold cs2 in Bcs2.
    assert (Hpow : 1 <= rbl -> 0 < shl_int arch 2 (u32 (rbl - 1))).
    { intros H1. rewrite block_size_pow2 by lia. apply Z.pow_pos_nonneg; lia. }
    subst r. open_hw hw. unfold detectCapacitySD. mrun. rewrite Hcmd. mrun.
    change (hw_rspVal SD_CSD_READ_BL_LEN_2 15 w9) with rbl.
    fold ver rbl cs1 cs2.
    destruct (ver =? 0) eqn:E0;
      [|destruct (ver =? 1) eqn:E1; [|destruct (ver =? 2) eqn:E2]]; mrun.
    + apply Z.eqb_eq in E0.
      repeat split; try exact Hpow; try (intros; lia).
      intros _. rewrite legacy_blocks by lia.
      apply Z.mul_pos_pos; [lia | apply Z.pow_pos_nonneg; lia].
    + apply Z.eqb_eq in E1.
      repeat split; try exact Hpow; try (intros; lia).
      intros _ Hfit. rewrite sdhc_blocks by lia.
      rewrite to_int_fits by lia. lia.
    + apply Z.eqb_eq in E2.
      repeat split; try exact Hpow; try (intros; lia).
      intros _ Hfit. rewrite sdhc_blocks by lia.
      rewrite to_int_fits by lia. lia.
    + apply Z.eqb_neq in E0, E1, E2. lia.
  - intros blockSize csm cs rbl hw Hm Hc Hl r.
    subst r. open_hw hw. unfold detectCapacityMMC.
    rewrite (Z.gtb_ltb cs 255), (proj2 (Z.ltb_ge 255 cs)) by lia.
    mrun. repeat split.
    + intros H1. rewrite block_size_pow2 by lia. apply Z.pow_pos_nonneg; lia.
    + rewrite legacy_blocks by lia.
      apply Z.mul_pos_pos; [lia | apply Z.pow_pos_nonneg; lia].
  - intros blockSize csm cs rbl hw buf w' Hgt Hbs Htr sec_count r.
    pose proof (hw_transfer_length 8 READ 0 1 (u32 blockSize)
                  (repeat x00 (Z.to_nat blockSize)) (world hw)) as Hlen.
    rewrite Htr in Hlen. cbn [fst snd] in Hlen. rewrite repeat_length in Hlen.
    subst r. open_hw hw. unfold detectCapacityMMC.
    rewrite (Z.gtb_ltb cs 255), (proj2 (Z.ltb_lt 255 cs)) by lia.
    assert (Hmk : make_bytes blockSize = Some (repeat x00 (Z.to_nat blockSize))).
    { unfold make_bytes. replace (blockSize <? 0) with false
        by (symmetry; apply Z.ltb_ge; lia). reflexivity. }
    assert (Hsl : slice_from buf EXT_CSD_SEC_COUNT = Some (skipn 212 buf)).
    { unfold slice_from, EXT_CSD_SEC_COUNT. rewrite Hlen.
      replace (212 <=? Z.of_nat (Z.to_nat blockSize)) with true
        by (symmetry; apply Z.leb_le; lia). reflexivity. }
    assert (Hle : LittleEndian_Uint32 (skipn 212 buf) = Some sec_count).
    { rewrite (skipn_cons_nth x00 212 buf) by lia.
      rewrite (skipn_cons_nth x00 213 buf) by lia.
      rewrite (skipn_cons_nth x00 214 buf) by lia.
      rewrite (skipn_cons_nth x00 215 buf) by lia.
      apply LittleEndian_Uint32_sum. }
    mrun. rewrite Hmk. mrun. rewrite Htr. mrun. rewrite Hsl, Hle. mrun.
    repeat split; [lia|]. intros Hfit. rewrite to_int_fits by lia. lia.
Qed.

End Properties.

(** ** More of the driver: errors, addressing, termination *)

Section MoreObservations.

Context {C : Controller}.

(** The error a request ended with, if it failed. *)
Definition failure (e : Event HwErr) : option HwErr :=
  match e with
  | ECmd _ _ _ _ _ _ _ _ r => r
  | ETransfer _ _ _ _ _ r => r
  | ESetClock _ _ => None
  | EWaitState _ _ r => r
  end.

(** The errors of the failed requests of a run, in order. *)
Fixpoint failures (evs : list (Event HwErr)) : list HwErr :=
  match evs with
  | [] => []
  | e :: rest =>
      match failure e with
      | Some h => h :: failures rest
      | None => failures rest
      end
  end.

(** What was asked of the controller after the first failed request. *)
Fixpoint after_failure (evs : list (Event HwErr)) : list (Event HwErr) :=
  match evs with
  | [] => []
  | e :: rest =>
      match failure e with
      | Some _ => rest
      | None => after_failure rest
      end
  end.

(** The first failed request of a run. *)
Fixpoint first_failed (evs : list (Event HwErr)) : option (Event HwErr) :=
  match evs with
  | [] => None
  | e :: rest =>
      match failure e with
      | Some _ => Some e
      | None => first_failed rest
      end
  end.

(** The argument of a command, for the commands with index [index]. *)
Definition cmd_arg (index : Z) (e : Event HwErr) : option Z :=
  match e with
  | ECmd i _ a _ _ _ _ _ _ => if i =? index then Some a else None
  | _ => None
  end.

(** The commands [i1], [i2], [i3] of a run all carry the argument [a]. *)
Definition addressed_with (i1 i2 i3 a : Z) (e : Event HwErr) : Prop :=
  match e with
  | ECmd i _ arg _ _ _ _ _ _ => i = i1 \/ i = i2 \/ i = i3 -> arg = a
  | _ => True
  end.

(** A call that comes back to its caller, with nil or with an error. *)
Definition returns {A} (o : outcome HwErr A) : Prop :=
  match o with
  | Ret _ | Throw _ => True
  | Crash | OutOfFuel => False
  end.

(** CMD8 with argument [a], seen from the controller: the state it
    leaves, and whether the card answered with the argument echoed. *)
Definition after_cmd8 (a : Z) (w : World) : World :=
  snd (hw_cmd 8 READ a RSP_48 true true false 0 w).

Definition cmd8_echo (a : Z) (w : World) : bool :=
  match fst (hw_cmd 8 READ a RSP_48 true true false 0 w) with
  | None => hw_rsp 0 (after_cmd8 a w) =? a
  | Some _ => false
  end.

(** The event is one of the requests of an SD operating-condition loop
    run with ACMD41 argument [arg]: CMD8 of the probe, CMD55 with argument
    0, ACMD41 with [arg]. *)
Definition sd_validation_request (arg : Z) (e : Event HwErr) : Prop :=
  match e with
  | ECmd i _ a _ _ _ _ _ _ =>
      i = 8 \/ (i = 55 /\ a = 0) \/ (i = 41 /\ a = arg)
  | _ => False
  end.

(** The event is CMD1 with argument [arg]. *)
Definition mmc_validation_request (arg : Z) (e : Event HwErr) : Prop :=
  match e with
  | ECmd i _ a _ _ _ _ _ _ => i = 1 /\ a = arg
  | _ => False
  end.

End MoreObservations.

Section MoreProperties.

Context {C : Controller}.
Variable arch : GoArch.

Ltac mstep :=
  cbv [bind ret throw panic out_of_fuel cmd check call_cmd rsp rspVal setClock
       waitState call_waitState call_transfer get_rca get_width get_n
       put_rca modify_card now sleep result final events fst snd
       card world rca width n set_rca set_card set_world
       BlockSize Blocks HS DDR set_BlockSize set_Blocks set_HS set_DDR app].

Ltac expose hw :=
  let hn := fresh "hn" in let hwidth := fresh "hwidth" in
  let hrca := fresh "hrca" in let hcard := fresh "hcard" in
  let hworld := fresh "hworld" in
  destruct hw as [hn hwidth hrca hcard hworld];
  cbn [rca world width n card] in *.

Ltac paths :=
  repeat match goal with
    | |- context [hw_cmd ?a ?b ?c ?d ?e ?f ?g ?h ?w] =>
        destruct (hw_cmd a b c d e f g h w) as [[?|] ?] eqn:?; mstep
    | |- context [hw_waitState ?a ?b ?w] =>
        destruct (hw_waitState a b w) as [[?|] ?] eqn:?; mstep
    | |- context [hw_transfer ?a ?b ?c ?d ?e ?f ?w] =>
        destruct (hw_transfer a b c d e f w) as [[[?|] ?] ?] eqn:?; mstep
    | |- context [if negb ?c then _ else _] =>
        destruct c eqn:?; cbn [negb]; mstep
    | |- context [if ?c then _ else _] =>
        destruct c eqn:?; mstep
    | |- context [match ?c with Some _ => _ | None => _ end] =>
        destruct c eqn:?; mstep
    end.

(** *** Error paths of the capacity decoding *)

(** X1.  detectCapacitySD on its error paths.  When CMD9 fails, the error
    of the command is returned and CMD9 is the only request made.  When
    CMD9 succeeds and the two-bit CSD structure field reads more than 2,
    the error is the unsupported CSD version 3.  Whenever detectCapacitySD
    returns an error, the card descriptor is as it was before the call. *)
Theorem detectCapacitySD_errors (bs : Z) (hw : USDHC) :
  let r := detectCapacitySD arch bs hw in
  (forall e w9,
      hw_cmd 9 READ (rca hw) RSP_136 false true false 0 (world hw)
      = (Some e, w9) ->
      r = (Throw (ErrHardware e), set_world hw w9,
           [ECmd 9 READ (rca hw) RSP_136 false true false 0 (Some e)])) /\
  (forall w9,
      hw_cmd 9 READ (rca hw) RSP_136 false true false 0 (world hw)
      = (None, w9) ->
      2 < hw_rspVal SD_CSD_STRUCTURE 3 w9 ->
      r = (Throw (ErrUnsupportedCSD 3), set_world hw w9,
           [ECmd 9 READ (rca hw) RSP_136 false true false 0 None])) /\
  (forall e, result r = Throw e -> card (final r) = card hw).
Proof.
  intros r. subst r. expose hw. unfold detectCapacitySD. mstep.
  repeat apply conj.
  - intros e w9 H. rewrite H. mstep. reflexivity.
  - intros w9 H Hver. rewrite H. mstep.
    pose proof (hw_rspVal_masked SD_CSD_STRUCTURE 3 w9 ltac:(lia)) as B.
    assert (Hv : hw_rspVal SD_CSD_STRUCTURE 3 w9 = 3) by lia.
    rewrite Hv. reflexivity.
  - intros e. paths; intros H; try discriminate H; reflexivity.
Qed.

Lemma gtb_255_true (c : Z) : 255 < c -> (c >? 255) = true.
Proof. intros H. rewrite Z.gtb_ltb. apply Z.ltb_lt. exact H. Qed.

Lemma short_slice_no_word (l : list byte) :
  (length l < 4)%nat -> LittleEndian_Uint32 l = None.
Proof.
  destruct l as [|b0 [|b1 [|b2 [|b3 tl]]]]; cbn [length]; intros H;
    try reflexivity; lia.
Qed.

(** X2.  detectCapacityMMC with c_size above 0xff, when the transfer of the
    Extended CSD fails: the error of the transfer is returned, the
    transfer is the only request made, and the descriptor already holds
    the block size that was passed in (it is stored before the transfer),
    with the block count and the speed flags as they were. *)
Theorem detectCapacityMMC_transfer_failure
    (blockSize c_size_mult c_size read_bl_len : Z) (hw : USDHC)
    (e : HwErr) (buf : list byte) (w' : World) :
  255 < c_size -> 0 <= blockSize ->
  hw_transfer 8 READ 0 1 (u32 blockSize)
    (repeat x00 (Z.to_nat blockSize)) (world hw) = (Some e, buf, w') ->
  let r :=
    detectCapacityMMC arch blockSize c_size_mult c_size read_bl_len hw in
  result r = Throw (ErrHardware e) /\
  events r = [ETransfer 8 READ 0 1 (u32 blockSize) (Some e)] /\
  BlockSize (card (final r)) = blockSize /\
  Blocks (card (final r)) = Blocks (card hw) /\
  HS (card (final r)) = HS (card hw) /\
  DDR (card (final r)) = DDR (card hw).
Proof.
  intros Hc Hbs Htr r. subst r. expose hw. unfold detectCapacityMMC.
  rewrite (gtb_255_true c_size Hc).
  assert (Hmk : make_bytes blockSize = Some (repeat x00 (Z.to_nat blockSize))).
  { unfold make_bytes. rewrite (proj2 (Z.ltb_ge blockSize 0)) by lia.
    reflexivity. }
  mstep. rewrite Hmk. mstep. rewrite Htr. mstep. repeat split.
Qed.

(** X3.  detectCapacityMMC with c_size above 0xff and a block size below
    216 panics.  A negative block size panics when the buffer is made,
    before any request.  With a block size from 0 to 215 the transfer is
    requested, and when it succeeds, reading the four SEC_COUNT bytes at
    offset 212 of the buffer panics; the block count is left as it was. *)
Theorem detectCapacityMMC_short_block
    (blockSize c_size_mult c_size read_bl_len : Z) (hw : USDHC) :
  255 < c_size -> blockSize < 216 ->
  let r :=
    detectCapacityMMC arch blockSize c_size_mult c_size read_bl_len hw in
  (blockSize < 0 -> result r = Crash /\ events r = []) /\
  (0 <= blockSize ->
   forall buf w',
     hw_transfer 8 READ 0 1 (u32 blockSize)
       (repeat x00 (Z.to_nat blockSize)) (world hw) = (None, buf, w') ->
     result r = Crash /\
     events r = [ETransfer 8 READ 0 1 (u32 blockSize) None] /\
     Blocks (card (final r)) = Blocks (card hw)).
Proof.
  intros Hc Hbs r. subst r. expose hw. unfold detectCapacityMMC.
  rewrite (gtb_255_true c_size Hc). split.
  - intros Hneg. unfold make_bytes.
    rewrite (proj2 (Z.ltb_lt blockSize 0)) by lia. mstep. split; reflexivity.
  - intros Hpos buf w' Htr.
    pose proof (hw_transfer_length 8 READ 0 1 (u32 blockSize)
                  (repeat x00 (Z.to_nat blockSize)) hworld) as Hlen.
    rewrite Htr in Hlen. cbn [fst snd] in Hlen. rewrite repeat_length in Hlen.
    assert (Hmk : make_bytes blockSize
                  = Some (repeat x00 (Z.to_nat blockSize))).
    { unfold make_bytes. rewrite (proj2 (Z.ltb_ge blockSize 0)) by lia.
      reflexivity. }
    mstep. rewrite Hmk. mstep. rewrite Htr. mstep.
    unfold slice_from, EXT_CSD_SEC_COUNT. rewrite Hlen.
    cbn [Z.leb Z.compare andb].
    destruct (212 <=? Z.of_nat (Z.to_nat blockSize)) eqn:E; mstep.
    + apply Z.leb_le in E.
      rewrite short_slice_no_word; [mstep; repeat split|].
      rewrite length_skipn. lia.
    + repeat split.
Qed.

Lemma result_bind {A B} (m : M A) (f : A -> M B) (hw : USDHC) :
  result (bind m f hw)
  = match result (m hw) with
    | Ret a => result (f a (final (m hw)))
    | Throw e => Throw e
    | Crash => Crash
    | OutOfFuel => OutOfFuel
    end.
Proof.
  unfold bind, result, final.
  destruct (m hw) as [[[a| | |] hw1] t1]; cbn [fst snd]; try reflexivity.
  destruct (f a hw1) as [[o2 hw2] t2]. reflexivity.
Qed.

Lemma detectCapacityMMC_512_returns (csm cs rbl : Z) (hw : USDHC) :
  returns (result (detectCapacityMMC arch MMC_DEFAULT_BLOCK_SIZE csm cs rbl hw)).
Proof.
  expose hw. unfold detectCapacityMMC.
  destruct (cs >? 255); mstep; [|exact I].
  change (make_bytes MMC_DEFAULT_BLOCK_SIZE) with (Some (repeat x00 512%nat)).
  mstep.
  pose proof (hw_transfer_length 8 READ 0 1 (u32 MMC_DEFAULT_BLOCK_SIZE)
                (repeat x00 512%nat) hworld) as Hlen.
  destruct (hw_transfer 8 READ 0 1 (u32 MMC_DEFAULT_BLOCK_SIZE)
              (repeat x00 512%nat) hworld) as [[[e|] buf] w']; mstep;
    [exact I|].
  cbn [fst snd] in Hlen. rewrite repeat_length in Hlen.
  assert (Hsl : slice_from buf EXT_CSD_SEC_COUNT = Some (skipn 212 buf)).
  { unfold slice_from, EXT_CSD_SEC_COUNT. rewrite Hlen. reflexivity. }
  rewrite Hsl.
  rewrite (skipn_cons_nth x00 212 buf) by lia.
  rewrite (skipn_cons_nth x00 213 buf) by lia.
  rewrite (skipn_cons_nth x00 214 buf) by lia.
  rewrite (skipn_cons_nth x00 215 buf) by lia.
  cbn [LittleEndian_Uint32]. mstep. exact I.
Qed.

(** X4.  initSD and initMMC always come back to their caller, with nil or
    with an error: neither panics (initMMC passes the default block size
    of 512, so the buffer always holds the SEC_COUNT bytes), whatever the
    controller answers. *)
Theorem bring_up_returns (hw : USDHC) :
  returns (result (initSD arch hw)) /\ returns (result (initMMC arch hw)).
Proof.
  split.
  - expose hw. unfold initSD, detectCapacitySD. mstep. paths; exact I.
  - rewrite initMMC_stages, result_bind.
    assert (H1 : returns (result (initMMC_identify hw))).
    { expose hw. unfold initMMC_identify. mstep. paths; exact I. }
    destruct (result (initMMC_identify hw)) as [f| | |]; try exact H1.
    set (hw1 := final (initMMC_identify hw)). rewrite result_bind.
    assert (H2 : returns (result (initMMC_bus_width hw1))).
    { clear. expose hw1. unfold initMMC_bus_width, writeCardRegisterMMC.
      mstep. paths; exact I. }
    destruct (result (initMMC_bus_width hw1)) as [bw| | |]; try exact H2.
    set (hw2 := final (initMMC_bus_width hw1)). rewrite result_bind.
    pose proof (detectCapacityMMC_512_returns (fst (fst (fst f)))
                  (snd (fst (fst f))) (snd (fst f)) hw2) as H3.
    destruct (result (detectCapacityMMC arch MMC_DEFAULT_BLOCK_SIZE
                        (fst (fst (fst f))) (snd (fst (fst f)))
                        (snd (fst f)) hw2)) as [[]| | |]; try exact H3.
    destruct (snd f <? 4); [exact I|].
    match goal with |- returns (result (initMMC_upgrade bw ?h)) =>
      generalize h end.
    clear. intros hw3. expose hw3.
    unfold initMMC_upgrade, writeCardRegisterMMC. mstep. paths; exact I.
Qed.

(** *** The first failure ends the bring-up *)

(** X5.  The first failure ends the bring-up.  In a run of initSD or of
    initMMC at most one request fails; the call returns the error of that
    request, and when no request fails it returns nil or one of the
    driver's own errors.  Nothing is asked of the controller after the
    failed request, with one exception: when the failed request is the
    500 ms wait for Transfer that follows the high-speed switch of initSD,
    and only then, the clock is cleared and set to the high-speed
    frequency after it. *)
Theorem bring_up_stops_at_first_failure (hw : USDHC) :
  (let r := initSD arch hw in
   failures (events r)
   = match result r with Throw (ErrHardware h) => [h] | _ => [] end /\
   after_failure (events r)
   = match first_failed (events r) with
     | Some e =>
         if long_wait_failed e
         then [ESetClock 0 0; ESetClock DVS_HS SDCLKFS_HS_SDR]
         else []
     | None => []
     end) /\
  (let r := initMMC arch hw in
   failures (events r)
   = match result r with Throw (ErrHardware h) => [h] | _ => [] end /\
   after_failure (events r) = []).
Proof.
  split; intros r; subst r; expose hw.
  - pose (allowed := fun evs : list (Event HwErr) =>
            match first_failed evs return list (Event HwErr) with
            | Some e =>
                if long_wait_failed e
                then [ESetClock 0 0; ESetClock DVS_HS SDCLKFS_HS_SDR]
                else []
            | None => []
            end).
    match goal with |- ?A /\ after_failure ?evs = _ =>
      change (A /\ after_failure evs = allowed evs) end.
    unfold initSD, detectCapacitySD. mstep. paths.
    all: subst allowed; split; reflexivity.
  - unfold initMMC, detectCapacityMMC, writeCardRegisterMMC. mstep. paths.
    all: cbn [failures failure after_failure]; split; reflexivity.
Qed.

(** *** Addressing *)

Ltac all_addressed :=
  repeat (apply Forall_cons;
          [ cbn [addressed_with]; try exact I;
            try (let H := fresh in
                 intros [H|[H|H]]; (discriminate H || reflexivity))
          | ]);
  try apply Forall_nil.

(** X6.  The relative card address in initSD.  Every CMD9, CMD7 and CMD55
    of a run carries the address the driver holds when the call ends.
    When CMD2 and CMD3 succeed and the card reports the Identification
    state, that address is the RCA field (0xffff << RCA_ADDR) of response
    word 0 as read after the clock has been set to the operating
    frequency.  A run that does not reach CMD9 leaves the stored address
    as it was. *)
Theorem initSD_rca (hw : USDHC) :
  let r := initSD arch hw in
  Forall (addressed_with 9 7 55 (rca (final r))) (events r) /\
  (forall w1 w2,
      hw_cmd 2 READ 0 RSP_136 false true false 0 (world hw) = (None, w1) ->
      hw_cmd 3 READ 0 RSP_48 true true false 0 w1 = (None, w2) ->
      Z.land (Z.shiftr (hw_rsp 0 w2) STATUS_CURRENT_STATE) 15
      = CURRENT_STATE_IDENT ->
      rca (final r)
      = Z.land (hw_rsp 0 (hw_setClock DVS_OP SDCLKFS_OP (hw_setClock 0 0 w2)))
               (u32 (Z.shiftl 65535 RCA_ADDR))) /\
  (count_cmd 9 (events r) = 0%nat -> rca (final r) = rca hw).
Proof.
  intros r. subst r. expose hw. unfold initSD, detectCapacitySD. mstep.
  repeat apply conj.
  - paths; all_addressed.
  - intros w1 w2 H2 H3 Hst. rewrite H2. mstep. rewrite H3. mstep.
    rewrite Hst, Z.eqb_refl. cbn [negb]. mstep. paths; reflexivity.
  - paths; cbn; intros H; (reflexivity || discriminate H).
Qed.

(** X7.  The relative card address in initMMC.  The driver assigns the
    address itself: slot index plus one, shifted to the RCA field.  Every
    CMD3, CMD9 and CMD7 of a run carries it; it is stored as soon as CMD2
    has succeeded, and left as it was when CMD2 fails.  With RCA_ADDR = 16
    and a slot index below 65535 it is (n + 1) * 2^16, without
    wrap-around. *)
Theorem initMMC_rca (hw : USDHC) :
  let r := initMMC arch hw in
  let a := shl_u32 (u32 (u32 (n hw) + 1)) RCA_ADDR in
  Forall (addressed_with 3 9 7 a) (events r) /\
  (forall w1,
      hw_cmd 2 READ 0 RSP_136 false true false 0 (world hw) = (None, w1) ->
      rca (final r) = a) /\
  (forall e w1,
      hw_cmd 2 READ 0 RSP_136 false true false 0 (world hw) = (Some e, w1) ->
      rca (final r) = rca hw) /\
  (RCA_ADDR = 16 -> 0 <= n hw < 65535 -> a = (n hw + 1) * 2 ^ 16).
Proof.
  intros r a. subst r a. expose hw.
  unfold initMMC, detectCapacityMMC, writeCardRegisterMMC. mstep.
  repeat apply conj.
  - paths; all_addressed.
  - intros w1 H2. rewrite H2. mstep. paths; reflexivity.
  - intros e w1 H2. rewrite H2. mstep. reflexivity.
  - intros HR Hn. rewrite HR.
    rewrite (u32_small hn) by (change (2 ^ 32) with 4294967296; lia).
    rewrite (u32_small (hn + 1)) by (change (2 ^ 32) with 4294967296; lia).
    unfold shl_u32. cbn [Z.leb Z.compare Pos.compare Pos.compare_cont].
    rewrite Z.shiftl_mul_pow2 by lia.
    apply u32_small. change (2 ^ 16) with 65536.
    change (2 ^ 32) with 4294967296. lia.
Qed.

(** *** What a successful bring-up has done *)

(** X8.  What initSD has done when it returns nil: the configured width
    is 1 or 4, and the requests are, in this order, CMD2, CMD3, the clock
    cleared and set to the operating frequency, CMD9, CMD7, the 1 ms wait
    for Transfer, CMD55, ACMD6 with the bus-width code (0 for width 1, 2
    for width 4), CMD6 with the high-speed switch argument, the 500 ms
    wait for Transfer, the clock cleared and set to the high-speed
    frequency; all succeeded, CMD9, CMD7 and CMD55 carry the stored
    address, the HS flag is set and the DDR flag is as it was. *)
Theorem initSD_success_sequence (hw : USDHC) :
  let r := initSD arch hw in
  result r = Ret tt ->
  let a := rca (final r) in
  exists bw,
    ((width hw = 1 /\ bw = 0) \/ (width hw = 4 /\ bw = 2)) /\
    events r
    = [ECmd 2 READ 0 RSP_136 false true false 0 None;
       ECmd 3 READ 0 RSP_48 true true false 0 None;
       ESetClock 0 0;
       ESetClock DVS_OP SDCLKFS_OP;
       ECmd 9 READ a RSP_136 false true false 0 None;
       ECmd 7 READ a RSP_48_CHECK_BUSY true true false 0 None;
       EWaitState CURRENT_STATE_TRAN (1 * Millisecond) None;
       ECmd 55 READ a RSP_48 true true false 0 None;
       ECmd 6 READ bw RSP_48 true true false 0 None;
       ECmd 6 READ SD_HS_SWITCH_ARG RSP_48 true true false 0 None;
       EWaitState CURRENT_STATE_TRAN (500 * Millisecond) None;
       ESetClock 0 0;
       ESetClock DVS_HS SDCLKFS_HS_SDR] /\
    HS (card (final r)) = true /\
    DDR (card (final r)) = DDR (card hw).
Proof.
  intros r. subst r. expose hw. unfold initSD, detectCapacitySD. mstep.
  paths; intros H; try discriminate H; cbv zeta.
  all: repeat match goal with
         | E : (_ =? _) = true |- _ => apply Z.eqb_eq in E
         end.
  all: (exists 0; split; [left; split; [assumption|reflexivity]|])
       || (exists 2; split; [right; split; [assumption|reflexivity]|]).
  all: repeat split.
Qed.

(** X9.  initMMC sets the DDR and HS flags together or not at all: after
    any run either both flags are as they were before the call, or both
    are true and the call returned nil. *)
Theorem initMMC_flags_together (hw : USDHC) :
  let r := initMMC arch hw in
  (DDR (card (final r)) = DDR (card hw) /\
   HS (card (final r)) = HS (card hw)) \/
  (DDR (card (final r)) = true /\ HS (card (final r)) = true /\
   result r = Ret tt).
Proof.
  intros r. subst r. expose hw. destruct hcard as [bs bl hs ddr].
  unfold initMMC, detectCapacityMMC, writeCardRegisterMMC. mstep.
  paths; ((left; split; reflexivity) || (right; repeat split)).
Qed.

(** *** Voltage validation *)

Ltac requests :=
  repeat (apply Forall_cons;
          [cbn [sd_validation_request mmc_validation_request]; auto 6|]);
  try apply Forall_nil; try assumption.

(** The three ACMD41 arguments the probe can choose. *)
Lemma probe_argument (hw hw0 : USDHC) (arg : Z) (hc : bool)
    (evs : list (Event HwErr)) :
  voltageValidationSD_probe hw = (Ret (arg, hc), hw0, evs) ->
  arg = 1358921728 \/ arg = 1342177408 \/ arg = 16744448.
Proof.
  expose hw. unfold voltageValidationSD_probe, cmd8_echoes.
  change (bits.SetN (bits.SetN 0 CMD8_ARG_VHS 15 VHS_HIGH)
            CMD8_ARG_CHECK_PATTERN 255 CHECK_PATTERN) with 426.
  change (Z.lor (Z.shiftl VHS_LOW CMD8_ARG_VHS) CHECK_PATTERN) with 682.
  mstep. paths; intros H; injection H as <- _ _ _; auto.
Qed.

(** X10.  The CMD8 probe of voltageValidationSD.  CMD8 is sent with
    argument 0x1aa (high voltage range, check pattern 0xaa); if the card
    answers and echoes the argument, no second CMD8 is sent and the
    ACMD41 argument is 0x50ff8000 (HCS, XPC, high voltage window), high
    capacity assumed.  Otherwise CMD8 is sent again with 0x2aa (low
    voltage range): if that is echoed the ACMD41 argument is 0x50000080
    (HCS, XPC, low voltage bit), high capacity assumed; if not, it is
    0x00ff8000 and high capacity is not assumed.  The probe never
    fails. *)
Theorem voltageValidationSD_probe_cases (hw : USDHC) :
  let r := voltageValidationSD_probe hw in
  let w1 := after_cmd8 426 (world hw) in
  let w2 := after_cmd8 682 w1 in
  if cmd8_echo 426 (world hw) then
    r = (Ret (1358921728, true), set_world hw w1,
         [ECmd 8 READ 426 RSP_48 true true false 0 None])
  else
    exists res,
      events r = [ECmd 8 READ 426 RSP_48 true true false 0
                    (fst (hw_cmd 8 READ 426 RSP_48 true true false 0 (world hw)));
                  ECmd 8 READ 682 RSP_48 true true false 0 res] /\
      final r = set_world hw w2 /\
      result r = if cmd8_echo 682 w1
                 then Ret (1342177408, true)
                 else Ret (16744448, false).
Proof.
  intros r w1 w2. subst r w1 w2. expose hw.
  unfold cmd8_echo, after_cmd8, voltageValidationSD_probe, cmd8_echoes.
  change (bits.SetN (bits.SetN 0 CMD8_ARG_VHS 15 VHS_HIGH)
            CMD8_ARG_CHECK_PATTERN 255 CHECK_PATTERN) with 426.
  change (Z.lor (Z.shiftl VHS_LOW CMD8_ARG_VHS) CHECK_PATTERN) with 682.
  mstep.
  destruct (hw_cmd 8 READ 426 RSP_48 true true false 0 hworld)
    as [[e1|] w1]; mstep.
  - destruct (hw_cmd 8 READ 682 RSP_48 true true false 0 w1)
      as [[e2|] w2]; mstep.
    + eexists. repeat split.
    + destruct (hw_rsp 0 w2 =? 682); mstep; eexists; repeat split.
  - destruct (hw_rsp 0 w1 =? 426); mstep; [reflexivity|].
    destruct (hw_cmd 8 READ 682 RSP_48 true true false 0 w1)
      as [[e2|] w2]; mstep.
    + eexists. repeat split.
    + destruct (hw_rsp 0 w2 =? 682); mstep; eexists; repeat split.
Qed.

Lemma sd_loop_frame (fuel : nat) :
  forall (start arg : Z) (hc : bool) (hw : USDHC),
    let r := voltageValidationSD_loop fuel start arg hc hw in
    final r = set_world hw (world (final r)) /\
    Forall (sd_validation_request arg) (events r).
Proof.
  induction fuel as [|fuel IH]; intros start arg hc hw r; subst r.
  - expose hw. cbn. split; [reflexivity | constructor].
  - expose hw. cbn [voltageValidationSD_loop]. mstep.
    destruct (hw_now hworld - start <=? SD_DETECT_TIMEOUT); mstep;
      [|split; [reflexivity | constructor]].
    destruct (hw_cmd 55 READ 0 RSP_48 true true false 0 hworld)
      as [[e1|] w1]; mstep.
    { split; [reflexivity|]. requests. }
    destruct (hw_cmd 41 READ arg RSP_48 false false false 0 w1)
      as [[e2|] w2]; mstep.
    { split; [reflexivity|]. requests. }
    destruct (bits.Get (hw_rsp 0 w2) SD_OCR_BUSY 1 =? 0); mstep.
    + specialize (IH start arg hc (mkUSDHC hn hwidth hrca hcard w2)).
      cbv zeta in IH. unfold final, events in IH.
      destruct (voltageValidationSD_loop fuel start arg hc
                  (mkUSDHC hn hwidth hrca hcard w2)) as [[o h] t].
      cbn [fst snd] in *. destruct IH as [IHf IHe]. split.
      * rewrite IHf. reflexivity.
      * requests.
    + split; [reflexivity|]. requests.
Qed.

Lemma mmc_loop_frame (fuel : nat) :
  forall (start arg : Z) (hc : bool) (hw : USDHC),
    let r := voltageValidationMMC_loop fuel start arg hc hw in
    final r = set_world hw (world (final r)) /\
    Forall (mmc_validation_request arg) (events r).
Proof.
  induction fuel as [|fuel IH]; intros start arg hc hw r; subst r.
  - expose hw. cbn. split; [reflexivity | constructor].
  - expose hw. cbn [voltageValidationMMC_loop]. mstep.
    destruct (hw_now hworld - start <=? MMC_DETECT_TIMEOUT); mstep;
      [|split; [reflexivity | constructor]].
    destruct (hw_cmd 1 READ arg RSP_48 false false false 0 hworld)
      as [[e1|] w1]; mstep.
    { split; [reflexivity|]. requests. }
    destruct (bits.Get (hw_rsp 0 w1) MMC_OCR_BUSY 1 =? 0); mstep.
    + specialize (IH start arg hc (mkUSDHC hn hwidth hrca hcard w1)).
      cbv zeta in IH. unfold final, events in IH.
      destruct (voltageValidationMMC_loop fuel start arg hc
                  (mkUSDHC hn hwidth hrca hcard w1)) as [[o h] t].
      cbn [fst snd] in *. destruct IH as [IHf IHe]. split.
      * rewrite IHf. reflexivity.
      * requests.
    + split; [reflexivity|]. requests.
Qed.

(** X11.  Voltage validation only talks to the card.  A run of
    voltageValidationSD or voltageValidationMMC leaves the slot index, the
    bus width, the stored address and the card descriptor as they were.
    voltageValidationSD requests nothing but CMD8, CMD55 with argument 0
    and ACMD41, every ACMD41 with the same one of the three arguments of
    the probe; voltageValidationMMC requests nothing but CMD1 with
    argument 0x40ff8000 (sector mode, high voltage window). *)
Theorem voltage_validation_frame (fuel : nat) (hw : USDHC) :
  (let r := voltageValidationSD fuel hw in
   final r = set_world hw (world (final r)) /\
   exists arg,
     (arg = 1358921728 \/ arg = 1342177408 \/ arg = 16744448) /\
     Forall (sd_validation_request arg) (events r)) /\
  (let r := voltageValidationMMC fuel hw in
   final r = set_world hw (world (final r)) /\
   Forall (mmc_validation_request 1090486272) (events r)).
Proof.
  split; intros r; subst r.
  - destruct (probe_returns hw) as (arg & hc & w & evs & Hp & H8).
    rewrite (voltageValidationSD_unfold fuel hw _ _ _ _ Hp). cbv zeta.
    pose proof (sd_loop_frame fuel (hw_now (world (set_world hw w))) arg hc
                  (set_world hw w)) as HF.
    cbv zeta in HF. unfold final, events, result in HF |- *.
    destruct (voltageValidationSD_loop fuel (hw_now (world (set_world hw w)))
                arg hc (set_world hw w)) as [[o h] t].
    cbn [fst snd] in *. destruct HF as [Hf He]. split.
    + rewrite Hf. destruct hw; reflexivity.
    + exists arg. split.
      * exact (probe_argument hw _ _ _ _ Hp).
      * apply Forall_app. split; [|exact He].
        clear - H8. induction H8 as [|e l He H8 IH]; constructor; [|exact IH].
        destruct e; cbn [is_cmd] in He; try discriminate He.
        apply Z.eqb_eq in He. cbn. auto.
  - rewrite voltageValidationMMC_unfold.
    pose proof (mmc_loop_frame fuel
                  (hw_now (hw_sleep (1 * Millisecond) (world hw)))
                  1090486272 false
                  (set_world hw (hw_sleep (1 * Millisecond) (world hw))))
      as HF.
    cbv zeta in HF. unfold final, events in HF |- *.
    destruct (voltageValidationMMC_loop fuel _ 1090486272 false _)
      as [[o h] t].
    cbn [fst snd] in *. destruct HF as [Hf He]. split; [|exact He].
    rewrite Hf. destruct hw; reflexivity.
Qed.

(** X12.  The capacity flag that voltage validation returns with success.
    When the card reports ready on poll N+1 (every poll before it within
    the deadline, answered, and busy), voltageValidationSD returns success
    with high capacity true if the HCS bit of that response is set or if
    the CMD8 probe had assumed high capacity; voltageValidationMMC returns
    success with high capacity true exactly when the access mode field of
    that response is sector mode. *)
Theorem voltage_validation_capacity (N fuel : nat) (hw : USDHC) :
  (N < fuel)%nat ->
  (forall arg hc hw0 evs0,
      voltageValidationSD_probe hw = (Ret (arg, hc), hw0, evs0) ->
      (forall k, (k <= N)%nat ->
         in_time (hw_now (world hw0)) (after (sd_poll arg) k (world hw0)) /\
         sd_poll_answered arg (after (sd_poll arg) k (world hw0))) ->
      (forall k, (k < N)%nat ->
         busy_bit (after (sd_poll arg) (S k) (world hw0)) = 0) ->
      busy_bit (after (sd_poll arg) (S N) (world hw0)) <> 0 ->
      let ocr := hw_rsp 0 (after (sd_poll arg) (S N) (world hw0)) in
      result (voltageValidationSD fuel hw)
      = Ret (true, (bits.Get ocr SD_OCR_HCS 1 =? 1) || hc)) /\
  (let arg := 1090486272 in
   let w0 := hw_sleep (1 * Millisecond) (world hw) in
   (forall k, (k <= N)%nat ->
      in_time (hw_now w0) (after (mmc_poll arg) k w0) /\
      mmc_poll_answered arg (after (mmc_poll arg) k w0)) ->
   (forall k, (k < N)%nat ->
      busy_bit (after (mmc_poll arg) (S k) w0) = 0) ->
   busy_bit (after (mmc_poll arg) (S N) w0) <> 0 ->
   let ocr := hw_rsp 0 (after (mmc_poll arg) (S N) w0) in
   result (voltageValidationMMC fuel hw)
   = Ret (true, bits.Get ocr MMC_OCR_ACCESS_MODE 3 =? ACCESS_MODE_SECTOR)).
Proof.
  intros HN. split.
  - intros arg hc hw0 evs0 Hp Hpoll Hbusy Hready ocr.
    rewrite (voltageValidationSD_unfold fuel hw _ _ _ _ Hp). cbv zeta.
    rewrite (sd_loop_ready N fuel (hw_now (world hw0)) arg hc hw0 HN
               (fun k Hk => proj1 (Hpoll k Hk))
               (fun k Hk => proj2 (Hpoll k Hk)) Hbusy Hready).
    cbn [result fst]. subst ocr.
    destruct (bits.Get _ SD_OCR_HCS 1 =? 1); reflexivity.
  - intros arg w0 Hpoll Hbusy Hready ocr. subst arg w0 ocr.
    rewrite voltageValidationMMC_unfold.
    rewrite (mmc_loop_ready N fuel _ _ false (set_world hw _) HN
               (fun k Hk => proj1 (Hpoll k Hk))
               (fun k Hk => proj2 (Hpoll k Hk)) Hbusy Hready).
    cbn [result fst].
    destruct (bits.Get _ MMC_OCR_ACCESS_MODE 3 =? ACCESS_MODE_SECTOR);
      reflexivity.
Qed.

(** *** The polling loops end *)

Lemma fuel_left (T el d : Z) (fuel : nat) :
  0 < d -> el <= T -> T - el < d * (Z.of_nat (S fuel) - 1) ->
  (1 <= fuel)%nat.
Proof.
  intros Hd Hel H. destruct fuel as [|fuel]; [exfalso|lia].
  change (Z.of_nat 1 - 1) with 0 in H. rewrite Z.mul_0_r in H. lia.
Qed.

Lemma fuel_step (T el el' d : Z) (fuel : nat) :
  el + d <= el' -> T - el < d * (Z.of_nat (S fuel) - 1) ->
  T - el' < d * (Z.of_nat fuel - 1).
Proof.
  intros Hel H. rewrite Nat2Z.inj_succ in H.
  replace (Z.succ (Z.of_nat fuel) - 1) with (Z.of_nat fuel) in H by lia.
  rewrite Z.mul_sub_distr_l, Z.mul_1_r. lia.
Qed.

Section Ticking.

Variable d : Z.
Hypothesis d_positive : 0 < d.
Hypothesis every_command_takes_d :
  forall i dtd a r cic ccc dma t w,
    hw_now w + d <= hw_now (snd (hw_cmd i dtd a r cic ccc dma t w)).

Lemma sd_loop_ends (fuel : nat) :
  forall (start arg : Z) (hc : bool) (hw : USDHC),
    (1 <= fuel)%nat ->
    SD_DETECT_TIMEOUT - (hw_now (world hw) - start) < d * (Z.of_nat fuel - 1) ->
    exists b, result (voltageValidationSD_loop fuel start arg hc hw) = Ret b.
Proof.
  induction fuel as [|fuel IH]; intros start arg hc hw Hf HR; [lia|].
  expose hw. cbn [voltageValidationSD_loop]. mstep.
  destruct (hw_now hworld - start <=? SD_DETECT_TIMEOUT) eqn:Et; mstep;
    [|eexists; reflexivity].
  apply Z.leb_le in Et.
  pose proof (every_command_takes_d 55 READ 0 RSP_48 true true false 0 hworld)
    as T55.
  destruct (hw_cmd 55 READ 0 RSP_48 true true false 0 hworld)
    as [[e1|] w1]; mstep; [eexists; reflexivity|].
  pose proof (hw_cmd_monotone 41 READ arg RSP_48 false false false 0 w1)
    as T41.
  destruct (hw_cmd 41 READ arg RSP_48 false false false 0 w1)
    as [[e2|] w2]; mstep; [eexists; reflexivity|].
  cbn [fst snd] in *.
  destruct (bits.Get (hw_rsp 0 w2) SD_OCR_BUSY 1 =? 0); mstep;
    [|eexists; reflexivity].
  destruct (IH start arg hc (mkUSDHC hn hwidth hrca hcard w2)) as [b Hb].
  - exact (fuel_left _ _ d fuel d_positive Et HR).
  - cbn [world].
    apply (fuel_step _ (hw_now hworld - start) _ d fuel); [|exact HR].
    clear - T55 T41. lia.
  - unfold result in Hb.
    destruct (voltageValidationSD_loop fuel start arg hc
                (mkUSDHC hn hwidth hrca hcard w2)) as [[o h] t].
    cbn [fst] in *. exists b. exact Hb.
Qed.

Lemma mmc_loop_ends (fuel : nat) :
  forall (start arg : Z) (hc : bool) (hw : USDHC),
    (1 <= fuel)%nat ->
    MMC_DETECT_TIMEOUT - (hw_now (world hw) - start)
    < d * (Z.of_nat fuel - 1) ->
    exists b, result (voltageValidationMMC_loop fuel start arg hc hw) = Ret b.
Proof.
  induction fuel as [|fuel IH]; intros start arg hc hw Hf HR; [lia|].
  expose hw. cbn [voltageValidationMMC_loop]. mstep.
  destruct (hw_now hworld - start <=? MMC_DETECT_TIMEOUT) eqn:Et; mstep;
    [|eexists; reflexivity].
  apply Z.leb_le in Et.
  pose proof (every_command_takes_d 1 READ arg RSP_48 false false false 0
                hworld) as T1.
  destruct (hw_cmd 1 READ arg RSP_48 false false false 0 hworld)
    as [[e1|] w1]; mstep; [eexists; reflexivity|].
  cbn [fst snd] in *.
  destruct (bits.Get (hw_rsp 0 w1) MMC_OCR_BUSY 1 =? 0); mstep;
    [|eexists; reflexivity].
  destruct (IH start arg hc (mkUSDHC hn hwidth hrca hcard w1)) as [b Hb].
  - exact (fuel_left _ _ d fuel d_positive Et HR).
  - cbn [world].
    apply (fuel_step _ (hw_now hworld - start) _ d fuel); [|exact HR].
    clear - T1. lia.
  - unfold result in Hb.
    destruct (voltageValidationMMC_loop fuel start arg hc
                (mkUSDHC hn hwidth hrca hcard w1)) as [[o h] t].
    cbn [fst] in *. exists b. exact Hb.
Qed.

End Ticking.

(** X13.  The polling loops end.  If every command takes at least d > 0
    nanoseconds of the controller's clock, a loop budget [fuel] with
    1 s < d * (fuel - 1) is never used up: voltageValidationSD and
    voltageValidationMMC return a result. *)
Theorem voltage_validation_ends (d : Z) (fuel : nat) (hw : USDHC) :
  0 < d ->
  (forall i dtd a r cic ccc dma t w,
      hw_now w + d <= hw_now (snd (hw_cmd i dtd a r cic ccc dma t w))) ->
  SD_DETECT_TIMEOUT < d * (Z.of_nat fuel - 1) ->
  (exists b, result (voltageValidationSD fuel hw) = Ret b) /\
  (exists b, result (voltageValidationMMC fuel hw) = Ret b).
Proof.
  intros Hd Htick Hfuel.
  assert (Hf1 : (1 <= fuel)%nat).
  { destruct fuel as [|fuel]; [exfalso|lia].
    assert (HT : 0 < SD_DETECT_TIMEOUT) by reflexivity.
    change (Z.of_nat 0 - 1) with (-1) in Hfuel.
    generalize dependent SD_DETECT_TIMEOUT. intros T HT Hfuel. lia. }
  split.
  - destruct (probe_returns hw) as (arg & hc & w & evs & Hp & _).
    rewrite (voltageValidationSD_unfold fuel hw _ _ _ _ Hp). cbv zeta.
    cbn [result fst].
    apply (sd_loop_ends d Hd Htick fuel); [exact Hf1|].
    replace (hw_now (world (set_world hw w)) - hw_now (world (set_world hw w)))
      with 0 by lia.
    rewrite Z.sub_0_r. exact Hfuel.
  - rewrite voltageValidationMMC_unfold.
    apply (mmc_loop_ends d Hd Htick fuel); [exact Hf1|].
    cbn [world set_world]. change MMC_DETECT_TIMEOUT with SD_DETECT_TIMEOUT.
    match goal with |- _ - (?x - ?x) < _ => replace (x - x) with 0 by lia end.
    rewrite Z.sub_0_r. exact Hfuel.
Qed.

(** *** Writing a byte of the Extended CSD *)

Lemma SetN_masks (word pos mask val : Z) :
  bits.SetN word pos mask val = bits.SetN word pos mask (Z.land val mask).
Proof.
  unfold bits.SetN. rewrite <- (Z.land_assoc val mask mask), Z.land_diag.
  reflexivity.
Qed.

Lemma low_byte (z : Z) : 0 <= Z.land z 255 < 256.
Proof.
  change 255 with (Z.ones 8). rewrite Z.land_ones by lia.
  change (2 ^ 8) with 256. apply Z.mod_pos_bound. lia.
Qed.

(** Clearing bits 15:8 of a multiple of 2^16 changes nothing. *)
Lemma ldiff_byte1_shifted (x : Z) :
  Z.ldiff (Z.shiftl x 16) (Z.shiftl 255 8) = Z.shiftl x 16.
Proof.
  apply Z.bits_inj'. intros i Hi. rewrite Z.ldiff_spec.
  destruct (Z.lt_ge_cases i 16) as [Hlt|Hge].
  - rewrite Z.shiftl_spec_low by exact Hlt. reflexivity.
  - rewrite (Z.shiftl_spec 255 8 i) by exact Hi.
    change 255 with (Z.ones 8). rewrite Z.ones_spec_high by lia.
    apply andb_true_r.
Qed.

(** The argument writeCardRegisterMMC builds, for a register index and a
    value of one byte each. *)
Lemma switch_arg_bytes (r v : Z) :
  0 <= r < 256 -> 0 <= v < 256 ->
  bits.SetN (bits.SetN (bits.SetN 0 MMC_SWITCH_ACCESS 3 ACCESS_WRITE_BYTE)
               MMC_SWITCH_INDEX 255 r)
            MMC_SWITCH_VALUE 255 v
  = ext_csd_write_arg r v.
Proof.
  intros Hr Hv.
  change (bits.SetN 0 MMC_SWITCH_ACCESS 3 ACCESS_WRITE_BYTE)
    with (Z.shiftl 3 24).
  assert (Er : Z.land r 255 = r).
  { change 255 with (Z.ones 8). rewrite Z.land_ones by lia.
    apply Z.mod_small. change (2 ^ 8) with 256. lia. }
  assert (Ev : Z.land v 255 = v).
  { change 255 with (Z.ones 8). rewrite Z.land_ones by lia.
    apply Z.mod_small. change (2 ^ 8) with 256. lia. }
  assert (E1 : bits.SetN (Z.shiftl 3 24) MMC_SWITCH_INDEX 255 r
               = Z.shiftl (r + 768) 16).
  { unfold bits.SetN, MMC_SWITCH_INDEX. rewrite Er.
    change (Z.ldiff (Z.shiftl 3 24) (Z.shiftl 255 16)) with (Z.shiftl 3 24).
    rewrite Z.lor_comm, (Z.shiftl_mul_pow2 r 16) by lia.
    rewrite lor_shiftl_add
      by (change (2 ^ 16) with 65536; change (2 ^ 24) with 16777216; lia).
    rewrite Z.shiftl_mul_pow2 by lia.
    change (2 ^ 16) with 65536. change (2 ^ 24) with 16777216.
    rewrite u32_small by (change (2 ^ 32) with 4294967296; lia). lia. }
  rewrite E1. unfold bits.SetN, MMC_SWITCH_VALUE. rewrite Ev.
  rewrite ldiff_byte1_shifted.
  rewrite Z.lor_comm, (Z.shiftl_mul_pow2 v 8) by lia.
  rewrite lor_shiftl_add
    by (change (2 ^ 8) with 256; change (2 ^ 16) with 65536; lia).
  unfold ext_csd_write_arg.
  change (2 ^ 8) with 256. change (2 ^ 16) with 65536.
  change (2 ^ 24) with 16777216.
  rewrite u32_small by (change (2 ^ 32) with 4294967296; lia). lia.
Qed.

(** The fields of a CMD6 argument, read back. *)
Lemma switch_arg_fields (r v : Z) :
  0 <= r < 256 -> 0 <= v < 256 ->
  let a := ext_csd_write_arg r v in
  bits.Get a MMC_SWITCH_ACCESS 3 = ACCESS_WRITE_BYTE /\
  bits.Get a MMC_SWITCH_INDEX 255 = r /\
  bits.Get a MMC_SWITCH_VALUE 255 = v /\
  bits.Get a MMC_SWITCH_CMD_SET 255 = 0.
Proof.
  intros Hr Hv a. subst a.
  unfold bits.Get, ext_csd_write_arg, MMC_SWITCH_ACCESS, MMC_SWITCH_INDEX,
    MMC_SWITCH_VALUE, MMC_SWITCH_CMD_SET, ACCESS_WRITE_BYTE.
  assert (L3 : forall x, Z.land x 3 = x mod 4)
    by (intros x; apply (Z.land_ones x 2); lia).
  assert (L255 : forall x, Z.land x 255 = x mod 256)
    by (intros x; apply (Z.land_ones x 8); lia).
  rewrite L3, !L255, !Z.shiftr_div_pow2 by lia.
  change (2 ^ 24) with 16777216. change (2 ^ 16) with 65536.
  change (2 ^ 8) with 256. change (2 ^ 0) with 1.
  repeat split; Z.div_mod_to_equations; lia.
Qed.

(** X14.  writeCardRegisterMMC.  The CMD6 argument is
    3 * 2^24 + (reg mod 256) * 2^16 + (val mod 256) * 2^8: only the low
    byte of the register index and of the value reach the card, and the
    argument reads back as access mode write-byte, index reg mod 256,
    value val mod 256, command set 0.  When CMD6 fails its error is
    returned and no wait follows; when it succeeds, the result is that of
    the 500 ms wait for the Transfer state.  Nothing but the controller
    state changes. *)
Theorem writeCardRegisterMMC_request (reg val : Z) (hw : USDHC) :
  let a := ext_csd_write_arg (Z.land reg 255) (Z.land val 255) in
  let c6 := hw_cmd 6 READ a RSP_48 true true false 0 (world hw) in
  let ws := hw_waitState CURRENT_STATE_TRAN (500 * Millisecond) (snd c6) in
  writeCardRegisterMMC reg val hw
  = match fst c6 with
    | Some e =>
        (Throw (ErrHardware e), set_world hw (snd c6),
         [ECmd 6 READ a RSP_48 true true false 0 (Some e)])
    | None =>
        (match fst ws with
         | Some e => Throw (ErrHardware e)
         | None => Ret tt
         end,
         set_world hw (snd ws),
         [ECmd 6 READ a RSP_48 true true false 0 None;
          EWaitState CURRENT_STATE_TRAN (500 * Millisecond) (fst ws)])
    end /\
  bits.Get a MMC_SWITCH_ACCESS 3 = ACCESS_WRITE_BYTE /\
  bits.Get a MMC_SWITCH_INDEX 255 = Z.land reg 255 /\
  bits.Get a MMC_SWITCH_VALUE 255 = Z.land val 255 /\
  bits.Get a MMC_SWITCH_CMD_SET 255 = 0.
Proof.
  intros a c6 ws.
  split; [|exact (switch_arg_fields _ _ (low_byte reg) (low_byte val))].
  subst c6 ws. expose hw. unfold writeCardRegisterMMC. cbv zeta.
  rewrite (SetN_masks _ MMC_SWITCH_VALUE 255 val).
  rewrite (SetN_masks _ MMC_SWITCH_INDEX 255 reg).
  rewrite (switch_arg_bytes _ _ (low_byte reg) (low_byte val)). fold a.
  generalize a. clear a. intros a. mstep.
  destruct (hw_cmd 6 READ a RSP_48 true true false 0 hworld) as [[e|] w1];
    mstep; [reflexivity|].
  destruct (hw_waitState CURRENT_STATE_TRAN (500 * Millisecond) w1)
    as [[e|] w2]; mstep; reflexivity.
Qed.

(** *** The errors the bring-up raises itself *)

Lemma state_range (x : Z) : 0 <= Z.land x 15 <= 15.
Proof.
  change 15 with (Z.ones 4) at 1 2. rewrite Z.land_ones by lia.
  change (2 ^ 4) with 16. pose proof (Z.mod_pos_bound x 16). lia.
Qed.

Ltac decided :=
  repeat match goal with
    | E : (_ =? _) = true |- _ => apply Z.eqb_eq in E
    | E : (_ =? _) = false |- _ => apply Z.eqb_neq in E
    end.

(** X15.  The errors initSD raises itself.  "Not in ident state" carries
    a state from 0 to 15 other than Identification; CMD2 and CMD3 were the
    only requests, both succeeded, and the stored address and descriptor
    are untouched.  "Unsupported CSD version" carries version 3; the run
    ended with a successful CMD9 and the descriptor is untouched.  "Not
    expecting application command" is returned after a successful CMD55
    whose response has the APP_CMD bit clear; no bus-width or switch
    command was sent and the speed flags are untouched. *)
Theorem initSD_protocol_errors (hw : USDHC) :
  let r := initSD arch hw in
  let a := rca (final r) in
  (forall s,
      result r = Throw (ErrNotIdent s) ->
      0 <= s <= 15 /\ s <> CURRENT_STATE_IDENT /\
      events r = [ECmd 2 READ 0 RSP_136 false true false 0 None;
                  ECmd 3 READ 0 RSP_48 true true false 0 None] /\
      rca (final r) = rca hw /\ card (final r) = card hw) /\
  (forall v,
      result r = Throw (ErrUnsupportedCSD v) ->
      v = 3 /\
      events r = [ECmd 2 READ 0 RSP_136 false true false 0 None;
                  ECmd 3 READ 0 RSP_48 true true false 0 None;
                  ESetClock 0 0;
                  ESetClock DVS_OP SDCLKFS_OP;
                  ECmd 9 READ a RSP_136 false true false 0 None] /\
      card (final r) = card hw) /\
  (result r = Throw ErrNoAppCmd ->
   Z.land (Z.shiftr (hw_rsp 0 (world (final r))) STATUS_APP_CMD) 1 <> 1 /\
   events r = [ECmd 2 READ 0 RSP_136 false true false 0 None;
               ECmd 3 READ 0 RSP_48 true true false 0 None;
               ESetClock 0 0;
               ESetClock DVS_OP SDCLKFS_OP;
               ECmd 9 READ a RSP_136 false true false 0 None;
               ECmd 7 READ a RSP_48_CHECK_BUSY true true false 0 None;
               EWaitState CURRENT_STATE_TRAN (1 * Millisecond) None;
               ECmd 55 READ a RSP_48 true true false 0 None] /\
   HS (card (final r)) = HS (card hw) /\
   DDR (card (final r)) = DDR (card hw)).
Proof.
  intros r a. subst r a. expose hw. unfold initSD, detectCapacitySD. mstep.
  split; [|split].
  - intros s. paths; intros H; try discriminate H.
    injection H as <-. decided.
    repeat split; try assumption; apply state_range.
  - intros v. paths; intros H; try discriminate H.
    injection H as <-. decided.
    match goal with |- hw_rspVal ?p 3 ?w = 3 /\ _ =>
      pose proof (hw_rspVal_masked p 3 w ltac:(lia)) end.
    repeat split. lia.
  - paths; intros H; try discriminate H; decided; repeat split; assumption.
Qed.

(** X16.  The errors initMMC raises itself.  "Not in ident state" carries
    a state from 0 to 15 other than Identification; CMD2 and CMD3 were the
    only requests, both succeeded, the address has already been assigned
    and the descriptor is untouched.  "Unexpected TRAN_SPEED" carries a
    byte other than 0x32; the run ended with a successful CMD9, the clock
    was not touched and the descriptor is untouched. *)
Theorem initMMC_protocol_errors (hw : USDHC) :
  let r := initMMC arch hw in
  let a := shl_u32 (u32 (u32 (n hw) + 1)) RCA_ADDR in
  (forall s,
      result r = Throw (ErrNotIdent s) ->
      0 <= s <= 15 /\ s <> CURRENT_STATE_IDENT /\
      events r = [ECmd 2 READ 0 RSP_136 false true false 0 None;
                  ECmd 3 READ a RSP_48 true true false 0 None] /\
      rca (final r) = a /\ card (final r) = card hw) /\
  (forall m,
      result r = Throw (ErrTranSpeed m) ->
      0 <= m <= 255 /\ m <> TRAN_SPEED_26MHZ /\
      events r = [ECmd 2 READ 0 RSP_136 false true false 0 None;
                  ECmd 3 READ a RSP_48 true true false 0 None;
                  ECmd 9 READ a RSP_136 false true false 0 None] /\
      card (final r) = card hw).
Proof.
  intros r a. subst r a. expose hw.
  unfold initMMC, detectCapacityMMC, writeCardRegisterMMC. mstep.
  split.
  - intros s. paths; intros H; try discriminate H.
    injection H as <-. decided.
    repeat split; try assumption; apply state_range.
  - intros m. paths; intros H; try discriminate H.
    injection H as <-. decided.
    match goal with |- 0 <= hw_rspVal ?p 255 ?w <= 255 /\ _ =>
      pose proof (hw_rspVal_masked p 255 w ltac:(lia)) end.
    repeat split; try assumption; lia.
Qed.

End MoreProperties.

(** *** The theorems at work *)

#[local] Existing Instance Sim.controller.

Lemma detectCapacitySD_geometry_witness :
  let r := detectCapacitySD Arch32 512 Cards.sd_csd_v1 in
  result r = Ret tt /\
  BlockSize (card (final r)) = 512 /\
  Blocks (card (final r)) = 1025024.
Proof.
  cbv zeta.
  edestruct (detectCapacitySD_geometry Arch32 512 Cards.sd_csd_v1)
    as (A & B & D & _);
    [ vm_compute; reflexivity | vm_compute; discriminate | ].
  exact (conj A (conj (B ltac:(vm_compute; discriminate))
                      (D eq_refl eq_refl))).
Defined.

(** C1, the claim at three CSDs.  Version 0 with read_bl_len = 9: the
    block size is 512, not [2^(9-1)].  Version 0 with read_bl_len = 0: the
    block size is 0, not [2^0].  Version 1 with c_size = 2097151 on
    the 32-bit int of GOARCH=arm: the block count is -2147483648, not
    [(2097151+1) * 1024]. *)
Lemma detectCapacitySD_claimed_formula_fails :
  let r := detectCapacitySD Arch32 512 Cards.sd_csd_v0 in
  let r0 := detectCapacitySD Arch32 512 Cards.sd_csd_v0_len0 in
  let r1 := detectCapacitySD Arch32 512 Cards.sd_csd_v1_2g in
  (result r = Ret tt /\
   hw_rspVal SD_CSD_STRUCTURE 3 (world (final r)) = 0 /\
   hw_rspVal SD_CSD_READ_BL_LEN_1 15 (world (final r)) = 9 /\
   BlockSize (card (final r)) = 512 /\
   BlockSize (card (final r)) <> 2 ^ (9 - 1)) /\
  (result r0 = Ret tt /\
   hw_rspVal SD_CSD_READ_BL_LEN_1 15 (world (final r0)) = 0 /\
   BlockSize (card (final r0)) = 0 /\
   BlockSize (card (final r0)) <> 2 ^ 0) /\
  (result r1 = Ret tt /\
   hw_rspVal SD_CSD_STRUCTURE 3 (world (final r1)) = 1 /\
   hw_rspVal SD_CSD_C_SIZE_2 4194303 (world (final r1)) = 2097151 /\
   Blocks (card (final r1)) = -2147483648 /\
   Blocks (card (final r1)) <> (2097151 + 1) * 1024).
Proof.
  vm_compute. repeat split; discriminate.
Qed.

(** The block count that C1 leaves out: at a version-0 CSD with
    c_size = 4095 and c_size_mult = 7 the code stores 4194304, twice
    [(4095+1) * 2^(7+2)]. *)
Example detectCapacitySD_v0_block_count :
  let r := detectCapacitySD Arch32 512 Cards.sd_csd_v0 in
  hw_rspVal SD_CSD_C_SIZE_1 4095 (world (final r)) = 4095 /\
  hw_rspVal SD_CSD_C_SIZE_MULT_1 7 (world (final r)) = 7 /\
  Blocks (card (final r)) = 4194304 /\
  Blocks (card (final r)) = 2 * ((4095 + 1) * 2 ^ (7 + 2)).
Proof.
  vm_compute. repeat split.
Qed.

Lemma detectCapacityMMC_paths_witness :
  (let r := detectCapacityMMC Arch32 512 7 200 9 Cards.mmc_8g in
   result r = Ret tt /\ events r = [] /\
   BlockSize (card (final r)) = 512 /\ Blocks (card (final r)) = 205824) /\
  (let r := detectCapacityMMC Arch32 512 7 4095 9 Cards.mmc_8g in
   result r = Ret tt /\
   events r = [ETransfer 8 1 0 1 512 None] /\
   BlockSize (card (final r)) = 512 /\ Blocks (card (final r)) = 15269888).
Proof.
  split; cbv zeta.
  - destruct (detectCapacityMMC_paths Arch32 512 7 200 9 Cards.mmc_8g
                ltac:(lia) ltac:(lia) ltac:(lia)) as (L & _).
    destruct (L ltac:(lia)) as (A & B & _ & D & E).
    exact (conj A (conj B (conj (D ltac:(lia)) E))).
  - destruct (detectCapacityMMC_paths Arch32 512 7 4095 9 Cards.mmc_8g
                ltac:(lia) ltac:(lia) ltac:(lia)) as (_ & X).
    destruct (X ltac:(lia)) as (_ & Y).
    edestruct (Y ltac:(lia)) as (A & B & D & E);
      [ vm_compute; reflexivity | ].
    exact (conj A (conj B (conj D (E ltac:(vm_compute; reflexivity))))).
Defined.

From Stdlib Require QArith.

Section ClaimedValues.

Import Stdlib.QArith.QArith.

(** C2, the claim at two inputs.  With c_size > 0xff on the 32-bit int of
    GOARCH=arm and SEC_COUNT bytes 00 00 00 80, the little-endian word is
    2147483648 and the block count is -2147483648.  With c_size <= 0xff
    and read_bl_len = 0 the block size is 0, where [2^(0-1)*2] is 1. *)
Lemma detectCapacityMMC_claimed_values_fail :
  let r := detectCapacityMMC Arch32 512 7 4095 9 Cards.mmc_top_bit in
  let r0 := detectCapacityMMC Arch32 512 7 200 0 Cards.mmc_8g in
  (result r = Ret tt /\
   LittleEndian_Uint32 (skipn 212 Cards.ext_csd_top_bit)
   = Some 2147483648%Z /\
   Blocks (card (final r)) = (-2147483648)%Z /\
   Blocks (card (final r)) <> 2147483648%Z) /\
  (result r0 = Ret tt /\
   events r0 = [] /\
   BlockSize (card (final r0)) = 0%Z /\
   (2 ^ (0 - 1) * 2 == 1)%Q /\
   ~ (inject_Z (BlockSize (card (final r0))) == 2 ^ (0 - 1) * 2)%Q).
Proof.
  vm_compute. repeat split; discriminate.
Qed.

End ClaimedValues.

Lemma ocr_polling_witness :
  (let r := voltageValidationSD 5 Cards.sd_ready_third in
   (exists hc', result r = Ret (true, hc')) /\
   count_cmd 55 (events r) = 3%nat /\ count_cmd 41 (events r) = 3%nat) /\
  (let r := voltageValidationMMC 5 Cards.mmc_ready_second in
   (exists hc', result r = Ret (true, hc')) /\
   count_cmd 1 (events r) = 2%nat) /\
  (let r := voltageValidationSD 5 Cards.sd_never_ready in
   result r = Ret (false, false) /\
   count_cmd 55 (events r) = 1%nat /\ count_cmd 41 (events r) = 1%nat) /\
  (let r := voltageValidationMMC 5 Cards.mmc_never_ready in
   result r = Ret (false, false) /\ count_cmd 1 (events r) = 1%nat).
Proof.
  split; [|split; [|split]]; cbv zeta.
  - destruct (ocr_polling 2 0 5 Cards.sd_ready_third ltac:(lia) ltac:(lia))
      as (Hsd & _).
    edestruct Hsd as (A & _ & B & D);
      [ vm_compute; reflexivity
      | intros [|[|[|k]]] Hk; try lia; split; reflexivity
      | intros [|[|k]] Hk; try lia; reflexivity
      | vm_compute; discriminate
      | vm_compute; discriminate
      | exact (conj A (conj B D)) ].
  - destruct (ocr_polling 1 0 5 Cards.mmc_ready_second ltac:(lia) ltac:(lia))
      as (_ & Hmmc & _).
    edestruct Hmmc as (A & _ & B);
      [ intros [|[|k]] Hk; try lia; reflexivity
      | intros [|k] Hk; try lia; reflexivity
      | vm_compute; discriminate
      | vm_compute; discriminate
      | exact (conj A B) ].
  - destruct (ocr_polling 0 1 5 Cards.sd_never_ready ltac:(lia) ltac:(lia))
      as (_ & _ & Hsd & _).
    edestruct Hsd as (A & B & D);
      [ vm_compute; reflexivity
      | intros [|k] Hk; try lia; repeat split; vm_compute; discriminate
      | vm_compute; intros H; apply H; reflexivity
      | exact (conj A (conj B D)) ].
  - destruct (ocr_polling 0 1 5 Cards.mmc_never_ready ltac:(lia) ltac:(lia))
      as (_ & _ & _ & Hmmc).
    edestruct Hmmc as (A & B);
      [ intros [|k] Hk; try lia; repeat split; vm_compute; discriminate
      | vm_compute; intros H; apply H; reflexivity
      | exact (conj A B) ].
Defined.

Lemma initSD_high_speed_flag_witness :
  let r := initSD Arch32 Cards.sd_switch_then_timeout in
  let switched :=
    existsb (fun e => is_cmd6 SD_HS_SWITCH_ARG e && succeeded e) (events r) in
  (HS (card (final r)) = true <-> switched = true) /\
  (exists e pre,
      result r = Throw (ErrHardware e) /\
      HS (card (final r)) = true /\
      switched = true /\
      events r = pre ++ [EWaitState CURRENT_STATE_TRAN (500 * Millisecond) (Some e);
                         ESetClock 0 0; ESetClock DVS_HS SDCLKFS_HS_SDR]).
Proof.
  cbv zeta.
  destruct (initSD_high_speed_flag Arch32 Cards.sd_switch_then_timeout)
    as (_ & Hiff & Hwait).
  exact (conj (Hiff eq_refl) (Hwait eq_refl)).
Defined.

Lemma initMMC_version_gate_witness :
  (let r := initMMC Arch32 Cards.mmc_v3 in
   exists hw3 evs,
     r = (Ret tt, hw3, evs) /\
     DDR (card hw3) = DDR (card Cards.mmc_v3) /\
     HS (card hw3) = HS (card Cards.mmc_v3) /\
     ext_csd_writes EXT_CSD_HS_TIMING (events r) = [] /\
     length (ext_csd_writes EXT_CSD_BUS_WIDTH (events r)) = 1%nat) /\
  (let r := initMMC Arch32 Cards.mmc_v4 in
   exists evs res rest,
     events r
     = evs ++ ECmd 6 READ (ext_csd_write_arg EXT_CSD_HS_TIMING HS_TIMING_HS)
                RSP_48 true true false 0 res :: rest) /\
  (exists csm cs rbl ver hw1 evs1,
      initMMC_identify Cards.mmc_v4 = (Ret (csm, cs, rbl, ver), hw1, evs1) /\
      4 <= ver).
Proof.
  repeat apply conj; cbv zeta.
  - destruct (initMMC_version_gate Arch32 Cards.mmc_v3) as (Hgate & _).
    edestruct Hgate as (Hlow & _);
      [ vm_compute; reflexivity | vm_compute; reflexivity
      | vm_compute; reflexivity | ].
    do 2 eexists. exact (Hlow ltac:(lia)).
  - destruct (initMMC_version_gate Arch32 Cards.mmc_v4) as (Hgate & _).
    edestruct Hgate as (_ & Hhigh);
      [ vm_compute; reflexivity | vm_compute; reflexivity
      | vm_compute; reflexivity | ].
    destruct (Hhigh ltac:(lia)) as (res & rest & Hev).
    eexists. exists res, rest. rewrite Hev, !app_assoc. reflexivity.
  - destruct (initMMC_version_gate Arch32 Cards.mmc_v4) as (_ & Honly).
    apply Honly. left. vm_compute. discriminate.
Defined.

Lemma bus_width_mapping_witness :
  (let r := initSD Arch32 Cards.sd_width8 in
   exists hw1 evs,
     r = (Throw ErrSDWidth, hw1, evs) /\
     HS (card hw1) = HS (card Cards.sd_width8) /\
     DDR (card hw1) = DDR (card Cards.sd_width8)) /\
  (let r := initSD Arch32 Cards.sd_switch_then_timeout in
   exists evs res rest,
     events r = evs ++ ECmd 6 READ 2 RSP_48 true true false 0 res :: rest) /\
  (let r := initMMC Arch32 Cards.mmc_width1 in
   exists hw1 evs,
     r = (Throw ErrMMCWidth, hw1, evs) /\ card hw1 = card Cards.mmc_width1) /\
  (let r := initMMC Arch32 Cards.mmc_v4 in
   exists evs res rest,
     events r = evs ++ ECmd 6 READ (ext_csd_write_arg EXT_CSD_BUS_WIDTH 2)
                         RSP_48 true true false 0 res :: rest).
Proof.
  repeat apply conj; cbv zeta.
  - destruct (bus_width_mapping Arch32 Cards.sd_width8) as (Hsd & _).
    edestruct Hsd as (_ & _ & Hbad); [vm_compute; reflexivity|].
    do 2 eexists. exact (Hbad ltac:(vm_compute; discriminate)
                              ltac:(vm_compute; discriminate)).
  - destruct (bus_width_mapping Arch32 Cards.sd_switch_then_timeout)
      as (Hsd & _).
    edestruct Hsd as (_ & H4 & _); [vm_compute; reflexivity|].
    eexists. exact (H4 eq_refl).
  - destruct (bus_width_mapping Arch32 Cards.mmc_width1) as (_ & Hmmc).
    edestruct Hmmc as (_ & _ & Hbad); [vm_compute; reflexivity|].
    do 2 eexists. exact (Hbad ltac:(vm_compute; discriminate)
                              ltac:(vm_compute; discriminate)).
  - destruct (bus_width_mapping Arch32 Cards.mmc_v4) as (_ & Hmmc).
    edestruct Hmmc as (_ & H8 & _); [vm_compute; reflexivity|].
    eexists. exact (H8 eq_refl).
Defined.

(** C6, the claim at an SD card behind a driver configured for 8 lines:
    initSD returns the unsupported-width error, and the descriptor is not
    what it was before the call: it holds the decoded geometry. *)
Lemma initSD_bad_width_touches_descriptor :
  let r := initSD Arch32 Cards.sd_width8 in
  result r = Throw ErrSDWidth /\
  card Cards.sd_width8 = mkCard 0 0 false false /\
  card (final r) = mkCard 512 1025024 false false /\
  card (final r) <> card Cards.sd_width8.
Proof.
  vm_compute. repeat split; discriminate.
Qed.

(** C7, the code at the failing input.  The card echoes CMD8, so the probe
    concludes high capacity; the first ACMD41 response has the busy bit
    set and the capacity-status bit clear; voltageValidationSD returns
    high capacity all the same. *)
Lemma voltageValidationSD_ignores_clear_hcs :
  let r := voltageValidationSD 5 Cards.sdsc_v2 in
  let ocr := hw_rsp 0 (world (final r)) in
  result r = Ret (true, true) /\
  bits.Get ocr SD_OCR_BUSY 1 = 1 /\
  bits.Get ocr SD_OCR_HCS 1 = 0 /\
  count_cmd 41 (events r) = 1%nat.
Proof.
  vm_compute. repeat split.
Qed.

Lemma ocr_failure_value_witness :
  result (voltageValidationSD 5 Cards.sd_cmd55_fails) = Ret (false, false) /\
  result (voltageValidationSD 5 Cards.sd_never_ready) = Ret (false, false) /\
  result (voltageValidationMMC 5 Cards.mmc_cmd1_fails) = Ret (false, false) /\
  result (voltageValidationMMC 5 Cards.mmc_never_ready) = Ret (false, false).
Proof.
  repeat apply conj.
  - destruct (ocr_failure_value 1 5 Cards.sd_cmd55_fails ltac:(lia))
      as ((Hfail & _) & _).
    apply Hfail. vm_compute. apply Exists_cons_tl, Exists_cons_hd.
    left. reflexivity.
  - destruct (ocr_failure_value 1 5 Cards.sd_never_ready ltac:(lia))
      as ((_ & Hexp) & _).
    edestruct Hexp as (A & _);
      [ vm_compute; reflexivity
      | intros [|k] Hk; try lia; repeat split; vm_compute; discriminate
      | vm_compute; intros H; apply H; reflexivity
      | exact A ].
  - destruct (ocr_failure_value 1 5 Cards.mmc_cmd1_fails ltac:(lia))
      as (_ & (Hfail & _)).
    apply Hfail. vm_compute. apply Exists_cons_hd. reflexivity.
  - destruct (ocr_failure_value 1 5 Cards.mmc_never_ready ltac:(lia))
      as (_ & (_ & Hexp)).
    edestruct Hexp as (A & _);
      [ intros [|k] Hk; try lia; repeat split; vm_compute; discriminate
      | vm_compute; intros H; apply H; reflexivity
      | exact A ].
Defined.

(** C8, the claim at two runs of each driver.  In the first the deadline
    passes (every command succeeded, the clock is past one second); in the
    second a command fails at once.  The caller receives the same value. *)
Lemma ocr_expiry_and_failure_indistinguishable :
  let expired := voltageValidationSD 5 Cards.sd_never_ready in
  let failed := voltageValidationSD 5 Cards.sd_cmd55_fails in
  let expired' := voltageValidationMMC 5 Cards.mmc_never_ready in
  let failed' := voltageValidationMMC 5 Cards.mmc_cmd1_fails in
  forallb succeeded (events expired) = true /\
  SD_DETECT_TIMEOUT < hw_now (world (final expired)) /\
  existsb (fun e => negb (succeeded e)) (events failed) = true /\
  hw_now (world (final failed)) < SD_DETECT_TIMEOUT /\
  result expired = result failed /\
  forallb succeeded (events expired') = true /\
  MMC_DETECT_TIMEOUT < hw_now (world (final expired')) /\
  existsb (fun e => negb (succeeded e)) (events failed') = true /\
  hw_now (world (final failed')) < MMC_DETECT_TIMEOUT /\
  result expired' = result failed'.
Proof.
  vm_compute. repeat split.
Qed.

Lemma capacity_positive_witness :
  (let r := detectCapacitySD Arch32 512 Cards.sd_csd_v1 in
   0 < BlockSize (card (final r)) /\ 0 < Blocks (card (final r))) /\
  (let r := detectCapacityMMC Arch32 512 7 200 9 Cards.mmc_8g in
   0 < BlockSize (card (final r)) /\ 0 < Blocks (card (final r))) /\
  (let r := detectCapacityMMC Arch32 512 7 4095 9 Cards.mmc_8g in
   0 < BlockSize (card (final r)) /\ 0 < Blocks (card (final r))).
Proof.
  destruct (capacity_positive Arch32) as (Hsd & Hlegacy & Hext).
  split; [|split]; cbv zeta.
  - edestruct (Hsd 512 Cards.sd_csd_v1) as (_ & A & _ & B & _);
      [ vm_compute; reflexivity | vm_compute; discriminate | ].
    exact (conj (A ltac:(vm_compute; discriminate))
                (B eq_refl ltac:(vm_compute; reflexivity))).
  - destruct (Hlegacy 512 7 200 9 Cards.mmc_8g ltac:(lia) ltac:(lia)
                ltac:(lia)) as (_ & A & B).
    exact (conj (A ltac:(lia)) B).
  - edestruct (Hext 512 7 4095 9 Cards.mmc_8g) as (_ & A & B);
      [ lia | lia | vm_compute; reflexivity | ].
    exact (conj A (B ltac:(vm_compute; split; reflexivity))).
Defined.

(** C9, the claim at a version-0 CSD with read_bl_len = 0, and at an
    Extended CSD whose sector count is 0: both decodings complete without
    error; the first leaves block size 0, the second block count 0. *)
Lemma capacity_zero_geometry :
  let r := detectCapacitySD Arch32 512 Cards.sd_csd_v0_len0 in
  let r' := detectCapacityMMC Arch32 512 7 4095 9 Cards.mmc_blank in
  result r = Ret tt /\
  hw_rspVal SD_CSD_READ_BL_LEN_1 15 (world (final r)) = 0 /\
  BlockSize (card (final r)) = 0 /\
  ~ 0 < BlockSize (card (final r)) /\
  result r' = Ret tt /\
  Blocks (card (final r')) = 0 /\
  ~ 0 < Blocks (card (final r')).
Proof.
  vm_compute. repeat split; discriminate.
Qed.

(** A version-4 device on 8 lines: BUS_WIDTH is written twice, first 2
    and then the dual-data-rate code 6. *)
Example initMMC_v4_bus_width_writes :
  ext_csd_writes EXT_CSD_BUS_WIDTH (events (initMMC Arch32 Cards.mmc_v4))
  = [2; 6].
Proof. vm_compute. reflexivity. Qed.

(** ** More cards, and the theorems of the second part at work *)

Module MoreCards.

Import Sim.

(** An SD card whose CMD9 fails. *)
Definition sd_cmd9_fails : USDHC := boot 4 [failing 7] [].

(** An SD card answering CMD9 with CSD structure 3. *)
Definition sd_csd_v3 : USDHC := boot 4 [ok (csd_v12 3 1000 9)] [].

(** An eMMC device whose Extended CSD transfer fails. *)
Definition mmc_transfer_fails : USDHC := boot 8 [failing 7] Cards.ext_csd_8g.

(** An SDHC card that publishes the address 0xaaaa and accepts every
    request of initSD. *)
Definition sd_complete : USDHC :=
  boot 4 [ok 0; ok (N.lor (N.shiftl 0xaaaa 16) (status 2));
          ok (csd_v12 1 1000 9); ok 0; ok 0; ok (status 4);
          ok 0; ok 0; ok 0] [].

(** An SD card that reports the Stand-by state (3) after CMD3. *)
Definition sd_not_ident : USDHC := boot 4 [ok 0; ok (status 3)] [].

(** An eMMC device whose CSD announces TRAN_SPEED 0x5a. *)
Definition mmc_52mhz : USDHC :=
  boot 8 [ok 0; ok (status 2); ok (csd_mmc 4 0x5a 7 200 9)] [].

End MoreCards.

(** A controller whose every command succeeds after 250 ms and whose
    card never reports ready; the state is the clock. *)
Module Ticker.

Definition tick : Z := 250000000.

Definition t_cmd (index dtd arg res : Z) (cic ccc dma : bool) (timeout : Z)
    (w : Z) : option Z * Z := (None, w + tick).

Definition t_rsp (i : Z) (w : Z) : Z := 0.

Definition t_rspVal (pos mask : Z) (w : Z) : Z := 0.

Definition t_transfer (index dtd offset blocks blockSize : Z)
    (buf : list byte) (w : Z) : option Z * list byte * Z := (None, buf, w).

Lemma t_rsp_u32 (i : Z) (w : Z) : 0 <= t_rsp i w < 2 ^ 32.
Proof. unfold t_rsp. split; [lia | reflexivity]. Qed.

Lemma t_rspVal_masked (pos mask : Z) (w : Z) :
  0 <= mask -> 0 <= t_rspVal pos mask w <= mask.
Proof. unfold t_rspVal. lia. Qed.

Lemma t_cmd_monotone (i d a r : Z) (cic ccc dma : bool) (t : Z) (w : Z) :
  w <= snd (t_cmd i d a r cic ccc dma t w).
Proof. unfold t_cmd, tick. cbn [snd]. lia. Qed.

Definition controller : Controller := {|
  World := Z;
  HwErr := Z;
  hw_cmd := t_cmd;
  hw_rsp := t_rsp;
  hw_rspVal := t_rspVal;
  hw_transfer := t_transfer;
  hw_setClock := fun _ _ w => w;
  hw_waitState := fun _ _ w => (None, w);
  hw_now := fun w => w;
  hw_sleep := fun d w => w + d;
  READ := 1;
  RSP_48 := 2;
  RSP_48_CHECK_BUSY := 3;
  RSP_136 := 1;
  CSD_RSP_OFF := -8;
  RCA_ADDR := 16;
  STATUS_CURRENT_STATE := 9;
  STATUS_APP_CMD := 5;
  CURRENT_STATE_IDENT := 2;
  CURRENT_STATE_TRAN := 4;
  DVS_OP := 2;
  SDCLKFS_OP := 32;
  DVS_HS := 0;
  SDCLKFS_HS_SDR := 4;
  SDCLKFS_HS_DDR := 2;
  hw_rsp_u32 := t_rsp_u32;
  hw_rspVal_masked := t_rspVal_masked;
  hw_transfer_length := fun _ _ _ _ _ _ _ => eq_refl;
  hw_cmd_monotone := t_cmd_monotone
|}.

(** A driver instance on slot 0, four data lines, at time 0. *)
Definition slot : @USDHC controller :=
  @mkUSDHC controller 0 4 0 Sim.fresh_card 0.

End Ticker.

Lemma detectCapacitySD_errors_witness :
  (let r := detectCapacitySD Arch32 512 MoreCards.sd_cmd9_fails in
   result r = Throw (ErrHardware 7) /\
   events r = [ECmd 9 READ 0 RSP_136 false true false 0 (Some 7)] /\
   card (final r) = card MoreCards.sd_cmd9_fails) /\
  (let r := detectCapacitySD Arch32 512 MoreCards.sd_csd_v3 in
   result r = Throw (ErrUnsupportedCSD 3) /\
   card (final r) = card MoreCards.sd_csd_v3).
Proof.
  split; cbv zeta.
  - destruct (detectCapacitySD_errors Arch32 512 MoreCards.sd_cmd9_fails)
      as (A & _ & D).
    pose proof (A 7 _ eq_refl) as E.
    exact (conj (f_equal result E)
                (conj (f_equal events E) (D _ (f_equal result E)))).
  - destruct (detectCapacitySD_errors Arch32 512 MoreCards.sd_csd_v3)
      as (_ & B & D).
    pose proof (B _ eq_refl ltac:(vm_compute; reflexivity)) as E.
    exact (conj (f_equal result E) (D _ (f_equal result E))).
Defined.

Lemma detectCapacityMMC_transfer_failure_witness :
  let r := detectCapacityMMC Arch32 512 7 4095 9 MoreCards.mmc_transfer_fails in
  result r = Throw (ErrHardware 7) /\
  events r = [ETransfer 8 READ 0 1 512 (Some 7)] /\
  BlockSize (card (final r)) = 512 /\
  Blocks (card (final r)) = 0.
Proof.
  cbv zeta.
  edestruct (detectCapacityMMC_transfer_failure Arch32 512 7 4095 9
               MoreCards.mmc_transfer_fails) as (A & B & D & E & _);
    [ lia | lia | vm_compute; reflexivity | ].
  exact (conj A (conj B (conj D E))).
Defined.

Lemma detectCapacityMMC_short_block_witness :
  (let r := detectCapacityMMC Arch32 (-1) 7 4095 9 Cards.mmc_8g in
   result r = Crash /\ events r = []) /\
  (let r := detectCapacityMMC Arch32 100 7 4095 9 Cards.mmc_8g in
   result r = Crash /\
   events r = [ETransfer 8 READ 0 1 100 None] /\
   Blocks (card (final r)) = 0).
Proof.
  split; cbv zeta.
  - destruct (detectCapacityMMC_short_block Arch32 (-1) 7 4095 9 Cards.mmc_8g
                ltac:(lia) ltac:(lia)) as (A & _).
    exact (A ltac:(lia)).
  - destruct (detectCapacityMMC_short_block Arch32 100 7 4095 9 Cards.mmc_8g
                ltac:(lia) ltac:(lia)) as (_ & B).
    edestruct (B ltac:(lia)) as (D & E & F); [vm_compute; reflexivity|].
    exact (conj D (conj E F)).
Defined.

Lemma initSD_rca_witness :
  let r := initSD Arch32 MoreCards.sd_complete in
  rca (final r) = 2863267840 /\
  Forall (addressed_with 9 7 55 2863267840) (events r).
Proof.
  cbv zeta.
  destruct (initSD_rca Arch32 MoreCards.sd_complete) as (A & B & _).
  pose proof (B _ _ eq_refl eq_refl eq_refl) as E.
  rewrite E in A. exact (conj E A).
Defined.

Lemma initMMC_rca_witness :
  let r := initMMC Arch32 Cards.mmc_v4 in
  rca (final r) = (0 + 1) * 2 ^ 16 /\
  Forall (addressed_with 3 9 7 65536) (events r).
Proof.
  cbv zeta.
  destruct (initMMC_rca Arch32 Cards.mmc_v4) as (A & B & _ & D).
  exact (conj (eq_trans (B _ eq_refl)
                 (D eq_refl ltac:(change (0 <= 0 < 65535); lia)))
              A).
Defined.

Lemma initSD_success_sequence_witness :
  let r := initSD Arch32 MoreCards.sd_complete in
  result r = Ret tt /\
  events r
  = [ECmd 2 READ 0 RSP_136 false true false 0 None;
     ECmd 3 READ 0 RSP_48 true true false 0 None;
     ESetClock 0 0;
     ESetClock DVS_OP SDCLKFS_OP;
     ECmd 9 READ 2863267840 RSP_136 false true false 0 None;
     ECmd 7 READ 2863267840 RSP_48_CHECK_BUSY true true false 0 None;
     EWaitState CURRENT_STATE_TRAN (1 * Millisecond) None;
     ECmd 55 READ 2863267840 RSP_48 true true false 0 None;
     ECmd 6 READ 2 RSP_48 true true false 0 None;
     ECmd 6 READ SD_HS_SWITCH_ARG RSP_48 true true false 0 None;
     EWaitState CURRENT_STATE_TRAN (500 * Millisecond) None;
     ESetClock 0 0;
     ESetClock DVS_HS SDCLKFS_HS_SDR] /\
  HS (card (final r)) = true.
Proof.
  cbv zeta.
  destruct (initSD_success_sequence Arch32 MoreCards.sd_complete eq_refl)
    as (bw & [[Hw _]|[_ Hbw]] & Hev & Hhs & _).
  - discriminate Hw.
  - subst bw. exact (conj eq_refl (conj Hev Hhs)).
Defined.

Lemma voltage_validation_capacity_witness :
  result (voltageValidationSD 5 Cards.sd_ready_third) = Ret (true, true) /\
  result (voltageValidationMMC 5 Cards.mmc_ready_second) = Ret (true, true).
Proof.
  split.
  - destruct (voltage_validation_capacity 2 5 Cards.sd_ready_third
                ltac:(lia)) as (Hsd & _).
    refine (eq_trans (Hsd _ _ _ _ _ _ _ _) _);
      [ vm_compute; reflexivity
      | intros [|[|[|k]]] Hk; try lia;
          (split; [vm_compute; discriminate | split; reflexivity])
      | intros [|[|k]] Hk; try lia; reflexivity
      | vm_compute; discriminate
      | reflexivity ].
  - destruct (voltage_validation_capacity 1 5 Cards.mmc_ready_second
                ltac:(lia)) as (_ & Hmmc).
    refine (eq_trans (Hmmc _ _ _) _);
      [ intros [|[|k]] Hk; try lia;
          (split; [vm_compute; discriminate | reflexivity])
      | intros [|k] Hk; try lia; reflexivity
      | vm_compute; discriminate
      | reflexivity ].
Defined.

Lemma voltage_validation_ends_witness :
  (exists b, result (voltageValidationSD 6 Ticker.slot) = Ret b) /\
  (exists b, result (voltageValidationMMC 6 Ticker.slot) = Ret b).
Proof.
  apply (voltage_validation_ends (C := Ticker.controller) Ticker.tick 6
           Ticker.slot).
  - reflexivity.
  - intros i dtd a r cic ccc dma t w. cbn. lia.
  - reflexivity.
Defined.

Lemma initSD_protocol_errors_witness :
  let r := initSD Arch32 MoreCards.sd_not_ident in
  result r = Throw (ErrNotIdent 3) /\
  events r = [ECmd 2 READ 0 RSP_136 false true false 0 None;
              ECmd 3 READ 0 RSP_48 true true false 0 None] /\
  card (final r) = card MoreCards.sd_not_ident.
Proof.
  cbv zeta.
  destruct (initSD_protocol_errors Arch32 MoreCards.sd_not_ident)
    as (A & _ & _).
  destruct (A 3 eq_refl) as (_ & _ & Hev & _ & Hcard).
  exact (conj eq_refl (conj Hev Hcard)).
Defined.

Lemma initMMC_protocol_errors_witness :
  let r := initMMC Arch32 MoreCards.mmc_52mhz in
  result r = Throw (ErrTranSpeed 90) /\
  events r = [ECmd 2 READ 0 RSP_136 false true false 0 None;
              ECmd 3 READ 65536 RSP_48 true true false 0 None;
              ECmd 9 READ 65536 RSP_136 false true false 0 None] /\
  card (final r) = card MoreCards.mmc_52mhz.
Proof.
  cbv zeta.
  destruct (initMMC_protocol_errors Arch32 MoreCards.mmc_52mhz)
    as (_ & B).
  destruct (B 90 eq_refl) as (_ & _ & Hev & Hcard).
  exact (conj eq_refl (conj Hev Hcard)).
Defined.

(** ** Package arm *)

From Stdlib Require Strings.String.

Module arm.

Import Stdlib.Strings.String.
(** Processor modes. *)
Definition USR_MODE : Z := 16.
Definition FIQ_MODE : Z := 17.
Definition IRQ_MODE : Z := 18.
Definition SVC_MODE : Z := 19.
Definition MON_MODE : Z := 22.
Definition ABT_MODE : Z := 23.
Definition HYP_MODE : Z := 26.
Definition UND_MODE : Z := 27.
Definition SYS_MODE : Z := 31.

(** Conversion to uint8. *)
Definition u8 (z : Z) : Z := z mod 2 ^ 8.

(** [read_cpsr] and [read_scr] are defined in arm.s; the word each returns
    is the argument [cpsr], [scr] of the functions below. *)

(** [Mode]: [uint8(read_cpsr() & 0x1f)]. *)
Definition Mode (cpsr : Z) : Z := u8 (Z.land cpsr 31).

(** [ModeName]: the switch over [cpu.Mode()]. *)
Definition ModeName (cpsr : Z) : string :=
  let m := Mode cpsr in
  if m =? USR_MODE then "USR"%string
  else if m =? FIQ_MODE then "FIQ"%string
  else if m =? IRQ_MODE then "IRQ"%string
  else if m =? SVC_MODE then "SVC"%string
  else if m =? MON_MODE then "MON"%string
  else if m =? ABT_MODE then "ABT"%string
  else if m =? HYP_MODE then "HYP"%string
  else if m =? UND_MODE then "UND"%string
  else if m =? SYS_MODE then "SYS"%string
  else "Unknown"%string.

(** [NonSecure]: [read_scr()&1 == 1]. *)
Definition NonSecure (scr : Z) : bool := Z.land scr 1 =? 1.

(** [Secure]: [read_scr()&1 == 0]. *)
Definition Secure (scr : Z) : bool := Z.land scr 1 =? 0.

(** The modes the architecture defines. *)
Definition modes : list Z :=
  [USR_MODE; FIQ_MODE; IRQ_MODE; SVC_MODE; MON_MODE; ABT_MODE; HYP_MODE;
   UND_MODE; SYS_MODE].

Lemma Mode_low_bits (cpsr : Z) : Mode cpsr = cpsr mod 32.
Proof.
  unfold Mode, u8. change 31 with (Z.ones 5). rewrite Z.land_ones by lia.
  change (2 ^ 5) with 32. change (2 ^ 8) with 256.
  pose proof (Z.mod_pos_bound cpsr 32). apply Z.mod_small. lia.
Qed.

Definition five_bits : list Z := map Z.of_nat (seq 0 32).

Lemma five_bits_complete (m : Z) : 0 <= m < 32 -> In m five_bits.
Proof.
  intros H. unfold five_bits. apply in_map_iff. exists (Z.to_nat m).
  split; [lia|]. apply in_seq. lia.
Qed.

Definition in_modes (m : Z) : bool := existsb (Z.eqb m) modes.

Lemma names_table :
  forallb (fun m1 =>
    Bool.eqb (String.eqb (ModeName m1) "Unknown"%string)
             (negb (in_modes m1)) &&
    forallb (fun m2 =>
      implb (String.eqb (ModeName m1) (ModeName m2) && in_modes m1)
            (m1 =? m2))
      five_bits) five_bits = true.
Proof. vm_compute. reflexivity. Qed.

End arm.

Section ArmProperties.

Import Stdlib.Strings.String.

(** X17.  Mode and ModeName.  The mode is the low five bits of the CPSR,
    and the name depends on nothing else.  The name is "Unknown" exactly
    when the mode is none of the nine defined modes; two CPSR values with
    the same name other than "Unknown" are in the same mode. *)
Theorem ModeName_identifies_mode (c1 c2 : Z) :
  arm.Mode c1 = c1 mod 32 /\
  arm.ModeName c1 = arm.ModeName (c1 mod 32) /\
  (arm.ModeName c1 = "Unknown"%string <-> ~ In (arm.Mode c1) arm.modes) /\
  (arm.ModeName c1 <> "Unknown"%string ->
   arm.ModeName c1 = arm.ModeName c2 -> arm.Mode c1 = arm.Mode c2).
Proof.
  assert (HN : forall c, arm.ModeName c = arm.ModeName (c mod 32)).
  { intros c. unfold arm.ModeName. cbv zeta.
    rewrite !arm.Mode_low_bits, Z.mod_mod by lia. reflexivity. }
  assert (HI : forall m, arm.in_modes m = true <-> In m arm.modes).
  { intros m. unfold arm.in_modes. rewrite existsb_exists. split.
    - intros (x & Hx & E). apply Z.eqb_eq in E. subst x. exact Hx.
    - intros Hm. exists m. split; [exact Hm | apply Z.eqb_refl]. }
  pose proof arm.names_table as T. rewrite forallb_forall in T.
  pose proof (Z.mod_pos_bound c1 32 ltac:(lia)) as B1.
  pose proof (Z.mod_pos_bound c2 32 ltac:(lia)) as B2.
  specialize (T (c1 mod 32) (arm.five_bits_complete _ B1)).
  apply andb_prop in T. destruct T as [TU TI].
  rewrite forallb_forall in TI.
  specialize (TI (c2 mod 32) (arm.five_bits_complete _ B2)).
  rewrite !arm.Mode_low_bits, (HN c1), (HN c2).
  split; [reflexivity | split; [reflexivity | split]].
  - rewrite <- HI. apply Bool.eqb_prop in TU.
    rewrite <- String.eqb_eq, TU.
    destruct (arm.in_modes (c1 mod 32)); cbn; split; congruence.
  - intros Hk He.
    assert (Hin : arm.in_modes (c1 mod 32) = true).
    { destruct (arm.in_modes (c1 mod 32)); [reflexivity|].
      apply Bool.eqb_prop in TU. cbn in TU. apply String.eqb_eq in TU.
      contradiction. }
    rewrite Hin, (proj2 (String.eqb_eq _ _) He) in TI.
    cbn in TI. apply Z.eqb_eq in TI. exact TI.
Qed.

(** X18.  Secure and NonSecure are complementary: for every value of the
    SCR exactly one of them holds.  NonSecure is bit 0 of the SCR (SCR.NS),
    whatever the other bits. *)
Theorem Secure_NonSecure (scr : Z) :
  arm.Secure scr = negb (arm.NonSecure scr) /\
  arm.NonSecure scr = Z.odd scr /\
  arm.NonSecure scr = arm.NonSecure (scr mod 2 ^ 32).
Proof.
  assert (H : forall z, Z.land z 1 = if Z.odd z then 1 else 0).
  { intros z. change 1 with (Z.ones 1) at 1. rewrite Z.land_ones by lia.
    change (2 ^ 1) with 2. apply Zmod_odd. }
  unfold arm.Secure, arm.NonSecure. rewrite !H.
  assert (Ho : Z.odd (scr mod 2 ^ 32) = Z.odd scr).
  { rewrite <- !Z.bit0_odd. apply Z.mod_pow2_bits_low. lia. }
  rewrite Ho. destruct (Z.odd scr); repeat split.
Qed.


End ArmProperties.

Lemma ModeName_identifies_mode_witness :
  arm.ModeName 1610613203 = arm.ModeName arm.SVC_MODE /\
  arm.Mode 1610613203 = arm.Mode 19.
Proof.
  destruct (ModeName_identifies_mode 1610613203 19) as (_ & _ & _ & D).
  exact (conj eq_refl (D ltac:(vm_compute; discriminate) eq_refl)).
Defined.
